(** * Interview Intelligence Engine

    A shallow embedding of the two computational parts of the application:
    the rule-based analysis of [utils/analysisEngine.ts] and the two
    progress trackers ([ProgressTrackingService] and
    [EnhancedProgressService]) that keep a bounded session log in
    [localStorage].

    Conventions of the embedding.
    - A JavaScript string is the list of its UTF-16 code units.
    - A finite JavaScript number is an exact rational ([Q]); the results of
      a division by zero ([NaN], the infinities) are the extra constructors
      of [JS.number].  Arithmetic is exact: the rounding of binary floating
      point is not modelled.  Sums of whole scores are the same in both,
      and so are the order of their means and their rounded means; a
      quotient that the doubles of the program put just beside a half may
      round the other way there.  The two thresholds 0.05 and 0.08 are
      taken as 1/20 and 2/25; the doubles nearest to them give the same
      comparisons against whole numbers of words.
    - [localStorage], the console and the remote analysis service are
      threaded explicitly through a state-and-exception monad.  The
      storage is one that accepts every write. *)

From Stdlib Require Import ZArith NArith QArith Qround.
From Stdlib Require Import List Lia Lqa String Ascii Bool Permutation Sorted.
From stdpp Require Import gmap strings.
Import ListNotations.

(* ================================================================== *)
(** * The JavaScript run-time functions the program calls             *)
(* ================================================================== *)

Module JS.

(** ** Strings *)

Definition code_unit := N.
Definition jsstring := list code_unit.

(** A string literal of the source (all of them are ASCII). *)
Definition lit (s : string) : jsstring :=
  List.map N_of_ascii (list_ascii_of_string s).

Definition in_range (lo hi c : N) : bool := ((lo <=? c) && (c <=? hi))%N.

(** ECMAScript [WhiteSpace] and [LineTerminator]: what [\s] matches and
    what [String.prototype.trim] removes. *)
Definition isWhiteSpace (c : code_unit) : bool :=
  in_range 9 13 c || (c =? 32)%N || (c =? 160)%N || (c =? 5760)%N
  || in_range 8192 8202 c || (c =? 8232)%N || (c =? 8233)%N
  || (c =? 8239)%N || (c =? 8287)%N || (c =? 12288)%N || (c =? 65279)%N.

(** [\d] *)
Definition isDigit (c : code_unit) : bool := in_range 48 57 c.

(** [\w], which decides where [\b] holds. *)
Definition isWordChar (c : code_unit) : bool :=
  in_range 48 57 c || in_range 65 90 c || (c =? 95)%N || in_range 97 122 c.

(** [String.prototype.toLowerCase], one code unit at a time: the case
    pairs of Basic Latin and of the Latin-1 Supplement, and the two code
    points beyond them that lower to Basic Latin letters (U+0130 and the
    Kelvin sign U+212A).  Letters of other alphabets are kept as they
    are: they never lower to white space nor to a Basic Latin letter, so
    neither the word boundaries nor the filler test below see them. *)
Definition lowerUnit (c : code_unit) : jsstring :=
  if in_range 65 90 c then [(c + 32)%N]
  else if in_range 192 222 c && negb (c =? 215)%N then [(c + 32)%N]
  else if (c =? 304)%N then [105%N; 775%N]
  else if (c =? 8490)%N then [107%N]
  else [c].

Definition toLowerCase (s : jsstring) : jsstring := flat_map lowerUnit s.

(** The [Canonicalize] step of a regular expression with the [i] flag
    and without the [u] flag: a code unit from 128 on is never identified
    with one below 128, so against the ASCII patterns of this program
    only the Basic Latin case pairs are folded. *)
Definition canonicalize (c : code_unit) : code_unit :=
  if in_range 97 122 c then (c - 32)%N else c.

Definition sameUnit (a b : code_unit) : bool := (a =? b)%N.
Definition sameUnitIgnoreCase (a b : code_unit) : bool :=
  (canonicalize a =? canonicalize b)%N.

Fixpoint trimStart (s : jsstring) : jsstring :=
  match s with
  | [] => []
  | c :: s' => if isWhiteSpace c then trimStart s' else s
  end.

Definition trim (s : jsstring) : jsstring :=
  rev (trimStart (rev (trimStart s))).

(** [pat] occurs at the very start of [s]. *)
Fixpoint matchesAt (eqc : code_unit -> code_unit -> bool)
         (pat s : jsstring) : bool :=
  match pat, s with
  | [], _ => true
  | _ :: _, [] => false
  | p :: pat', c :: s' => eqc p c && matchesAt eqc pat' s'
  end.

(** [pat] occurs somewhere in [s]. *)
Fixpoint occursIn (eqc : code_unit -> code_unit -> bool)
         (pat s : jsstring) : bool :=
  matchesAt eqc pat s
  || match s with
     | [] => false
     | _ :: s' => occursIn eqc pat s'
     end.

(** [s.includes(sub)] *)
Definition includes (s sub : jsstring) : bool := occursIn sameUnit sub s.

(** [/a|b|c/i.test(s)] for literal alternatives. *)
Definition testAnyIgnoreCase (alts : list jsstring) (s : jsstring) : bool :=
  existsb (fun pat => occursIn sameUnitIgnoreCase pat s) alts.

(** [/\d/.test(s)] *)
Definition testDigit (s : jsstring) : bool := existsb isDigit s.

(** [\b] between two neighbouring positions; [None] is the outside of
    the string. *)
Definition wordAt (o : option code_unit) : bool :=
  match o with
  | Some c => isWordChar c
  | None => false
  end.

Definition boundary (before after : option code_unit) : bool :=
  xorb (wordAt before) (wordAt after).

(** [\b(pat)\b] with the [i] flag matches at the start of [s], the code
    unit before [s] being [prev]. *)
Definition boundedMatchAt (prev : option code_unit) (s pat : jsstring)
  : bool :=
  boundary prev (head s)
  && matchesAt sameUnitIgnoreCase pat s
  && boundary (match length pat with
               | O => prev
               | S k => nth_error s k
               end)
              (nth_error s (length pat)).

(** The successive matches of [/\b(a|b|c)\b/gi], scanning from the left:
    at each position the first alternative that fits is taken and the
    scan resumes after it ([skip] counts the code units of a match still
    to be passed). *)
Fixpoint scanBounded (alts : list jsstring) (prev : option code_unit)
         (skip : nat) (s : jsstring) : list jsstring :=
  match s with
  | [] => []
  | c :: s' =>
      match skip with
      | S k => scanBounded alts (Some c) k s'
      | O =>
          match List.find (boundedMatchAt prev s) alts with
          | Some pat =>
              firstn (length pat) s
              :: scanBounded alts (Some c) (length pat - 1) s'
          | None => scanBounded alts (Some c) 0 s'
          end
      end
  end.

(** [s.match(/\b(a|b|c)\b/gi)]: [null] when nothing matches. *)
Definition matchBounded (alts : list jsstring) (s : jsstring)
  : option (list jsstring) :=
  match scanBounded alts None 0 s with
  | [] => None
  | ms => Some ms
  end.

(** [s.split(/[class]+/)]: the pieces between maximal runs of separator
    code units; a run at either end leaves an empty piece there.
    [inRun] tells that the previous code unit was a separator, [cur] is
    the piece being read, reversed. *)
Fixpoint splitRuns (sep : code_unit -> bool) (inRun : bool)
         (cur : jsstring) (s : jsstring) : list jsstring :=
  match s with
  | [] => [rev cur]
  | c :: s' =>
      if sep c
      then if inRun
           then splitRuns sep true [] s'
           else rev cur :: splitRuns sep true [] s'
      else splitRuns sep false (c :: cur) s'
  end.

Definition splitOnRuns (sep : code_unit -> bool) (s : jsstring)
  : list jsstring :=
  splitRuns sep false [] s.

(** [s.split(',')]: one piece more than there are separators. *)
Fixpoint splitAt (sep : code_unit) (cur : jsstring) (s : jsstring)
  : list jsstring :=
  match s with
  | [] => [rev cur]
  | c :: s' =>
      if (c =? sep)%N
      then rev cur :: splitAt sep [] s'
      else splitAt sep (c :: cur) s'
  end.

Definition splitOn (sep : code_unit) (s : jsstring) : list jsstring :=
  splitAt sep [] s.

(** A string in a condition: the empty string is falsy. *)
Definition truthyString (s : jsstring) : bool :=
  match s with
  | [] => false
  | _ :: _ => true
  end.

(** ** Arrays *)

(** [Array.prototype.slice(start, end)]; a negative index counts from
    the end, [None] is an omitted [end]. *)
Definition slice {A : Type} (start : Z) (end_ : option Z) (l : list A)
  : list A :=
  let len := Z.of_nat (length l) in
  let from :=
    if (start <? 0)%Z then Z.max (len + start) 0 else Z.min start len in
  let upto :=
    match end_ with
    | None => len
    | Some e => if (e <? 0)%Z then Z.max (len + e) 0 else Z.min e len
    end in
  firstn (Z.to_nat (upto - from)) (skipn (Z.to_nat from) l).

(** [Array.prototype.sort(cmp)], which is stable: an element moves in
    front of another one only when the comparator is positive on
    (earlier, later).  [cmp] gives the sign of the comparator. *)
Fixpoint insertSorted {A : Type} (cmp : A -> A -> comparison)
         (x : A) (l : list A) : list A :=
  match l with
  | [] => [x]
  | y :: l' =>
      match cmp x y with
      | Gt => y :: insertSorted cmp x l'
      | _ => x :: l
      end
  end.

Fixpoint sort {A : Type} (cmp : A -> A -> comparison) (l : list A)
  : list A :=
  match l with
  | [] => []
  | x :: l' => insertSorted cmp x (sort cmp l')
  end.

(** ** Numbers *)

Inductive number : Type :=
| Fin (q : Q)
| PosInfinity
| NegInfinity
| NaN.

Definition Qltb (x y : Q) : bool := negb (Qle_bool y x).
Definition Qzero (x : Q) : bool := Qeq_bool x 0.

(** [x / y] on finite operands. *)
Definition divide (x y : Q) : number :=
  if Qzero y
  then if Qzero x then NaN
       else if Qltb 0 x then PosInfinity else NegInfinity
  else Fin (x / y).

(** [x - y] *)
Definition subtract (x y : number) : number :=
  match x, y with
  | NaN, _ | _, NaN => NaN
  | Fin a, Fin b => Fin (a - b)
  | PosInfinity, PosInfinity | NegInfinity, NegInfinity => NaN
  | PosInfinity, _ | _, NegInfinity => PosInfinity
  | NegInfinity, _ | _, PosInfinity => NegInfinity
  end.

(** [x || 0]: zero and [NaN] are falsy. *)
Definition orZero (x : number) : number :=
  match x with
  | NaN => Fin 0
  | Fin q => if Qzero q then Fin 0 else x
  | _ => x
  end.

(** [x >= c] for a finite [c]. *)
Definition atLeast (x : number) (c : Q) : bool :=
  match x with
  | Fin q => Qle_bool c q
  | PosInfinity => true
  | NegInfinity | NaN => false
  end.

(** [x < c] for a finite [c]. *)
Definition below (x : number) (c : Q) : bool :=
  match x with
  | Fin q => Qltb q c
  | NegInfinity => true
  | PosInfinity | NaN => false
  end.

(** [Math.round] on a finite number: the nearest integer, a half going
    up. *)
Definition roundQ (q : Q) : Z := Qfloor (q + (1 # 2)).

(** [Math.round] *)
Definition Math_round (x : number) : number :=
  match x with
  | Fin q => Fin (inject_Z (roundQ q))
  | _ => x
  end.

(** [Math.max] on finite numbers. *)
Definition Math_max (x y : Q) : Q := if Qltb x y then y else x.

(** The decimal text of a natural number below ten, as a template
    literal prints it. *)
Definition digitString (n : nat) : jsstring := [(48 + N.of_nat n)%N].

End JS.

(* ================================================================== *)
(** * utils/analysisEngine.ts: the data and the rule-based analysis   *)
(* ================================================================== *)

Module AnalysisEngine.
Import JS.

Record AnalysisMetrics : Type := {
  wordsPerMinute : Q;
  fillerWords : Q;
  confidenceScore : Q;
  clarityScore : Q;
  professionalismScore : Q;
  relevanceScore : Q
}.

Record AnalysisFeedback : Type := {
  strengths : list jsstring;
  improvements : list jsstring;
  suggestions : list jsstring
}.

Record AnalysisResult : Type := {
  transcript : jsstring;
  duration : Q;
  metrics : AnalysisMetrics;
  feedback : AnalysisFeedback;
  aiPowered : bool
}.

(** [questionType ? a : b] on the optional argument: absent and empty
    are both falsy. *)
Definition given (questionType : option jsstring) : option jsstring :=
  match questionType with
  | Some q => if truthyString q then Some q else None
  | None => None
  end.

(** ** The local constants of [createBasicAnalysis] *)

Definition words (transcript : jsstring) : list jsstring :=
  List.filter (fun word => (0 <? length word)%nat)
              (splitOnRuns isWhiteSpace (toLowerCase transcript)).

Definition wordCount (transcript : jsstring) : Z :=
  Z.of_nat (length (words transcript)).

Definition durationInMinutes (duration : Q) : Q :=
  Math_max (duration / 60) 1.

(** The divisor is at least 1, so the quotient is finite; it is the
    exact quotient. *)
Definition wordsPerMinuteOf (transcript : jsstring) (duration : Q) : Z :=
  roundQ (inject_Z (wordCount transcript) / durationInMinutes duration).

Definition fillerWordList : list jsstring :=
  [lit "um"; lit "uh"; lit "like"; lit "you know"; lit "so";
   lit "actually"; lit "basically"].

Definition fillerWordCount (transcript : jsstring) : Z :=
  Z.of_nat
    (length
       (List.filter
          (fun word => existsb (fun filler => includes word filler)
                               fillerWordList)
          (words transcript))).

Definition isSentenceEnd (c : code_unit) : bool :=
  (c =? 46)%N || (c =? 33)%N || (c =? 63)%N.

Definition sentenceCount (transcript : jsstring) : Z :=
  Z.of_nat
    (length
       (List.filter (fun s => (0 <? length (trim s))%nat)
                    (splitOnRuns isSentenceEnd transcript))).

(** [Math.max(sentenceCount, 1)] keeps the divisor positive. *)
Definition avgWordsPerSentence (transcript : jsstring) : Q :=
  inject_Z (wordCount transcript)
  / inject_Z (Z.max (sentenceCount transcript) 1).

Definition hasNumbers (transcript : jsstring) : bool :=
  testDigit transcript.

Definition hasExamples (transcript : jsstring) : bool :=
  testAnyIgnoreCase
    [lit "example"; lit "instance"; lit "case"; lit "situation";
     lit "experience"]
    transcript.

Definition hasActionWords (transcript : jsstring) : bool :=
  testAnyIgnoreCase
    [lit "achieved"; lit "accomplished"; lit "led"; lit "managed";
     lit "created"; lit "improved"; lit "developed"]
    transcript.

(** [transcript.match(...)?.length || 0] *)
Definition questionWords (transcript : jsstring) : Z :=
  match matchBounded
          [lit "what"; lit "when"; lit "where"; lit "why"; lit "how";
           lit "who"]
          transcript with
  | Some ms => Z.of_nat (length ms)
  | None => 0
  end.

Definition complexSentences (transcript : jsstring) : Z :=
  Z.of_nat
    (length
       (List.filter (fun s => (2 <? length (splitOn 44%N s))%nat)
                    (splitOnRuns isSentenceEnd transcript))).

Definition businessWords (transcript : jsstring)
  : option (list jsstring) :=
  matchBounded
    [lit "experience"; lit "skills"; lit "project"; lit "team";
     lit "challenge"; lit "solution"]
    transcript.

Definition casualWords (transcript : jsstring)
  : option (list jsstring) :=
  matchBounded [lit "awesome"; lit "cool"; lit "stuff"; lit "things"]
               transcript.

(** A [match] result in a condition: an array is truthy, [null] is
    not. *)
Definition found (m : option (list jsstring)) : bool :=
  match m with
  | Some _ => true
  | None => false
  end.

(** [fillerWordCount < words.length * ratio] *)
Definition fillersBelow (ratio : Q) (transcript : jsstring) : bool :=
  Qltb (inject_Z (fillerWordCount transcript))
       (inject_Z (wordCount transcript) * ratio).

(** [fillerWordCount > words.length * ratio] *)
Definition fillersAbove (ratio : Q) (transcript : jsstring) : bool :=
  Qltb (inject_Z (wordCount transcript) * ratio)
       (inject_Z (fillerWordCount transcript)).

(** [if (cond) score += n] *)
Definition bonus (cond : bool) (n : Z) : Z := if cond then n else 0%Z.

(** ** The four scores, before the cap *)

Definition rawConfidence (t : jsstring) : Z :=
  (50 + bonus (hasExamples t) 15
      + bonus (hasActionWords t) 10
      + bonus (hasNumbers t) 10
      + bonus (fillersBelow (5 # 100) t) 15
      + bonus (Qltb 8 (avgWordsPerSentence t)
               && Qltb (avgWordsPerSentence t) 20) 10)%Z.

Definition rawClarity (t : jsstring) : Z :=
  (50 + bonus (2 <? sentenceCount t) 15
      + bonus (Qltb 6 (avgWordsPerSentence t)
               && Qltb (avgWordsPerSentence t) 25) 20
      + bonus (0 <? complexSentences t) 10
      + bonus (fillersBelow (8 # 100) t) 15)%Z.

Definition rawProfessionalism (t : jsstring) : Z :=
  (60 + bonus (found (businessWords t)) 15
      + bonus (hasActionWords t) 15
      + bonus (negb (found (casualWords t))) 10
      + bonus (hasNumbers t) 5)%Z.

Definition rawRelevance (t : jsstring) : Z :=
  (50 + bonus (hasExamples t) 20
      + bonus (hasNumbers t) 15
      + bonus (hasActionWords t) 10
      + bonus (50 <? wordCount t) 10
      + bonus (questionWords t =? 0) 5)%Z.

(** [Math.round(Math.min(score, 100))] *)
Definition capped (score : Z) : Q :=
  inject_Z (roundQ (inject_Z (Z.min score 100))).

Definition createBasicAnalysis (transcript : jsstring) (duration : Q)
           (questionType : option jsstring) : AnalysisResult :=
  {| transcript := transcript;
     duration := duration;
     metrics :=
       {| wordsPerMinute := inject_Z (wordsPerMinuteOf transcript duration);
          fillerWords := inject_Z (fillerWordCount transcript);
          confidenceScore := capped (rawConfidence transcript);
          clarityScore := capped (rawClarity transcript);
          professionalismScore := capped (rawProfessionalism transcript);
          relevanceScore := capped (rawRelevance transcript) |};
     feedback :=
       {| strengths :=
            [ if (100 <? wordCount transcript)%Z
              then lit "Comprehensive response with good detail"
              else lit "Concise and focused response";
              if hasExamples transcript
              then lit "Used specific examples to support points"
              else lit "Clear communication style";
              if fillersBelow (5 # 100) transcript
              then lit "Minimal use of filler words"
              else lit "Generally clear delivery";
              if Qltb 8 (avgWordsPerSentence transcript)
              then lit "Well-structured sentences"
              else lit "Concise expression" ];
          improvements :=
            [ if negb (hasExamples transcript)
              then lit "Include more specific examples to illustrate points"
              else lit "Continue providing concrete examples";
              if fillersAbove (8 # 100) transcript
              then lit "Reduce filler words for more polished delivery"
              else lit "Maintain clear speaking pattern";
              if negb (hasNumbers transcript)
              then lit "Add quantifiable results when possible"
              else lit "Good use of specific data";
              if (wordCount transcript <? 50)%Z
              then lit "Provide more detailed responses"
              else lit "Consider organizing longer responses better" ];
          suggestions :=
            [ lit "Configure AI services (OpenAI API key) for advanced analysis and personalized feedback"
              ++ match given questionType with
                 | Some q => lit " for " ++ q ++ lit " questions"
                 | None => []
                 end;
              lit "Practice the STAR method (Situation, Task, Action, Result) for structured responses";
              lit "Record practice sessions to track improvement over time";
              lit "Focus on incorporating specific metrics and achievements in your responses" ] |};
     aiPowered := false |}.

Definition createFallbackAnalysis (duration : Q)
           (questionType : option jsstring) : AnalysisResult :=
  {| transcript :=
       lit "No transcript available. Please ensure your microphone is working and speech recognition is enabled.";
     duration := duration;
     metrics :=
       {| wordsPerMinute := 0;
          fillerWords := 0;
          confidenceScore := 0;
          clarityScore := 0;
          professionalismScore := 0;
          relevanceScore := 0 |};
     feedback :=
       {| strengths := [lit "Recording session completed"];
          improvements :=
            [ lit "No audio content detected for analysis";
              lit "Ensure microphone permissions are granted";
              lit "Check if browser supports speech recognition" ];
          suggestions :=
            [ lit "Test microphone before recording";
              lit "Speak clearly and at normal volume";
              lit "Try recording in a quiet environment";
              lit "Configure AI services for advanced analysis"
              ++ match given questionType with
                 | Some q => lit " of " ++ q ++ lit " questions"
                 | None => []
                 end ] |};
     aiPowered := false |}.

End AnalysisEngine.

(* ================================================================== *)
(** * The session records of the two trackers                         *)
(* ================================================================== *)

Module Session.
Import JS.

(** [InterviewSession] of the basic tracker. *)
Record InterviewSession : Type := {
  id : jsstring;
  date : jsstring;
  duration : Q;
  transcript : jsstring;
  overallScore : Q;
  metrics : AnalysisEngine.AnalysisMetrics;
  aiPowered : bool;
  questionType : option jsstring
}.

(** [{ ...session, id: newId, date: newDate }] *)
Definition stamp (session : InterviewSession) (newId newDate : jsstring)
  : InterviewSession :=
  {| id := newId;
     date := newDate;
     duration := duration session;
     transcript := transcript session;
     overallScore := overallScore session;
     metrics := metrics session;
     aiPowered := aiPowered session;
     questionType := questionType session |}.

End Session.

Module Detailed.
Import JS.

Record DetailedMetrics : Type := {
  wordsPerMinute : Q;
  fillerWords : Q;
  confidenceScore : Q;
  clarityScore : Q;
  professionalismScore : Q;
  relevanceScore : Q;
  emotionalIntelligence : Q;
  structureScore : Q
}.

Record DetailedFeedback : Type := {
  strengths : list jsstring;
  improvements : list jsstring;
  suggestions : list jsstring;
  specificTips : list jsstring
}.

Record DetailedAnalysis : Type := {
  speechPattern : jsstring;
  contentQuality : jsstring;
  professionalPresence : jsstring;
  improvementPlan : list jsstring
}.

(** [DetailedSession] of the enhanced tracker. *)
Record DetailedSession : Type := {
  id : jsstring;
  date : jsstring;
  duration : Q;
  transcript : jsstring;
  questionType : jsstring;
  overallScore : Q;
  detailedMetrics : DetailedMetrics;
  feedback : DetailedFeedback;
  detailedAnalysis : DetailedAnalysis;
  aiPowered : bool;
  audioUrl : option jsstring
}.

(** [{ ...session, id: newId, date: newDate }] *)
Definition stamp (session : DetailedSession) (newId newDate : jsstring)
  : DetailedSession :=
  {| id := newId;
     date := newDate;
     duration := duration session;
     transcript := transcript session;
     questionType := questionType session;
     overallScore := overallScore session;
     detailedMetrics := detailedMetrics session;
     feedback := feedback session;
     detailedAnalysis := detailedAnalysis session;
     aiPowered := aiPowered session;
     audioUrl := audioUrl session |}.

End Detailed.

(* ================================================================== *)
(** * The browser around the program: storage, console, remote service *)
(* ================================================================== *)

Module Browser.
Import JS.

(** What is kept under a tracker's key of [localStorage].  The program
    only ever writes [JSON.stringify] of an array of session records
    there, and [JSON.parse] gives that array back; any other text is one
    that [JSON.parse] rejects.  (Well-formed JSON of another shape is
    never written by the program and is left out.) *)
Inductive item (A : Type) : Type :=
| JsonArray (records : list A)
| NotJson (text : jsstring).
Arguments JsonArray {A} records.
Arguments NotJson {A} text.

Inductive exn : Type :=
| SyntaxError (text : jsstring)
| RemoteError (message : jsstring)
(** [new Error(`AI analysis failed: ${...}`)], whose message is made
    from the error it replaces *)
| AnalysisFailed (cause : exn).

Inductive level : Type := LevelLog | LevelWarn | LevelError.

Record consoleLine : Type := {
  lineLevel : level;
  lineText : string;
  lineError : option exn
}.

(** What the remote analysis resolves to. *)
Record remoteAnalysis : Type := {
  remoteMetrics : AnalysisEngine.AnalysisMetrics;
  remoteFeedback : AnalysisEngine.AnalysisFeedback
}.

Inductive outcome (A : Type) : Type :=
| Return (value : A)
| Throw (error : exn).
Arguments Return {A} value.
Arguments Throw {A} error.

Record world : Type := {
  (** [localStorage['interview_progress_data']] *)
  basicItem : option (item Session.InterviewSession);
  (** [localStorage['enhanced_interview_progress']] *)
  enhancedItem : option (item Detailed.DetailedSession);
  (** the lines written to the console, oldest first *)
  console : list consoleLine;
  (** what [isConfigured()] answers: whether an OpenAI key was set *)
  aiConfigured : bool;
  (** how the exchange inside [openaiClient.analyzeInterview] settles:
      the analysis built from the reply, or the error raised on the way *)
  aiService : jsstring -> Q -> option jsstring -> outcome remoteAnalysis;
  (** the requests made to it so far, oldest first *)
  aiRequests : list (jsstring * Q * option jsstring)
}.

(** Computations that read and change the world and may throw. *)
Definition M (A : Type) : Type := world -> outcome A * world.

Definition ret {A : Type} (a : A) : M A := fun w => (Return a, w).

Definition throw {A : Type} (e : exn) : M A := fun w => (Throw e, w).

Definition bind {A B : Type} (m : M A) (k : A -> M B) : M B :=
  fun w =>
    match m w with
    | (Return a, w') => k a w'
    | (Throw e, w') => (Throw e, w')
    end.

(** [try { body } catch (error) { handler }] *)
Definition tryCatch {A : Type} (body : M A) (handler : exn -> M A) : M A :=
  fun w =>
    match body w with
    | (Return a, w') => (Return a, w')
    | (Throw e, w') => handler e w'
    end.

Declare Scope js_scope.
Delimit Scope js_scope with js.
Notation "x <- m ;; k" := (bind m (fun x => k))
  (at level 100, m at next level, right associativity) : js_scope.
Notation "m ;; k" := (bind m (fun _ => k))
  (at level 100, right associativity) : js_scope.

Definition writeLine (l : level) (text : string) (e : option exn)
  : M unit :=
  fun w =>
    (Return tt,
     {| basicItem := basicItem w;
        enhancedItem := enhancedItem w;
        console :=
          console w
          ++ [{| lineLevel := l; lineText := text; lineError := e |}];
        aiConfigured := aiConfigured w;
        aiService := aiService w;
        aiRequests := aiRequests w |}).

Definition console_log (text : string) : M unit :=
  writeLine LevelLog text None.
Definition console_warn (text : string) : M unit :=
  writeLine LevelWarn text None.
Definition console_error (text : string) (e : exn) : M unit :=
  writeLine LevelError text (Some e).

Definition isConfigured : M bool := fun w => (Return (aiConfigured w), w).

(** [await this.client.post('/chat/completions', ...)] and the reading
    of its reply: the request is recorded, then the exchange settles. *)
Definition exchange (transcript : jsstring) (duration : Q)
           (questionType : option jsstring) : M remoteAnalysis :=
  fun w =>
    (aiService w transcript duration questionType,
     {| basicItem := basicItem w;
        enhancedItem := enhancedItem w;
        console := console w;
        aiConfigured := aiConfigured w;
        aiService := aiService w;
        aiRequests :=
          aiRequests w ++ [(transcript, duration, questionType)] |}).

(** [await openaiClient.analyzeInterview(...)].  It is called when
    [isConfigured()] holds, so that its guard on the key passes.  The
    client announces the request on the console; when the exchange fails
    it writes the error to the console and throws a new error in its
    place. *)
Definition remoteAnalyze (transcript : jsstring) (duration : Q)
           (questionType : option jsstring) : M remoteAnalysis :=
  tryCatch
    (console_log "🤖 Analyzing interview with GPT-4..." ;;
     exchange transcript duration questionType)%js
    (fun error =>
       console_error "OpenAI analysis error:" error ;;
       throw (AnalysisFailed error))%js.

(** A stored text in a condition: only the empty string is falsy, and
    the text of an array is never empty. *)
Definition truthyItem {A : Type} (data : item A) : bool :=
  match data with
  | JsonArray _ => true
  | NotJson text => truthyString text
  end.

Definition JSON_parse {A : Type} (data : item A) : M (list A) :=
  match data with
  | JsonArray records => ret records
  | NotJson text => throw (SyntaxError text)
  end.

Definition JSON_stringify {A : Type} (records : list A) : item A :=
  JsonArray records.

(** The value a computation returns and the world it leaves. *)
Definition valueOf {A : Type} (r : outcome A * world) : outcome A := fst r.
Definition worldOf {A : Type} (r : outcome A * world) : world := snd r.

End Browser.

(* ================================================================== *)
(** * utils/analysisEngine.ts: the entry point                        *)
(* ================================================================== *)

Module AnalyzeInterview.
Import JS AnalysisEngine Browser.
Local Open Scope js_scope.

Definition analyzeInterview (transcript : jsstring) (duration : Q)
           (questionType : option jsstring) : M AnalysisResult :=
  if negb (truthyString transcript) || (length (trim transcript) =? 0)%nat
  then ret (createFallbackAnalysis duration questionType)
  else
    configured <- isConfigured ;;
    if configured
    then
      tryCatch
        (console_log "🤖 Using enhanced OpenAI client for interview analysis..." ;;
         aiResult <- remoteAnalyze transcript duration questionType ;;
         ret {| AnalysisEngine.transcript := transcript;
                AnalysisEngine.duration := duration;
                metrics := remoteMetrics aiResult;
                feedback := remoteFeedback aiResult;
                aiPowered := true |})
        (fun error =>
           console_error "AI Analysis failed, falling back to basic analysis:" error ;;
           ret (createBasicAnalysis transcript duration questionType))
    else
      console_warn "⚠️ AI services not configured. Using basic rule-based analysis." ;;
      ret (createBasicAnalysis transcript duration questionType).

End AnalyzeInterview.

(* ================================================================== *)
(** * ProgressTrackingService: the basic tracker                      *)
(* ================================================================== *)

Module ProgressTrackingService.
Import JS Session Browser.
Local Open Scope js_scope.

Record ProgressStats : Type := {
  totalSessions : Z;
  averageScore : number;
  improvementTrend : number;
  strongestAreas : list jsstring;
  weakestAreas : list jsstring;
  recentSessions : list InterviewSession
}.

(** [localStorage.getItem(this.storageKey)] *)
Definition getItem : M (option (item InterviewSession)) :=
  fun w => (Return (basicItem w), w).

Definition putItem (v : option (item InterviewSession)) : M unit :=
  fun w =>
    (Return tt,
     {| basicItem := v;
        enhancedItem := enhancedItem w;
        console := console w;
        aiConfigured := aiConfigured w;
        aiService := aiService w;
        aiRequests := aiRequests w |}).

(** [localStorage.setItem(this.storageKey, text)], on a storage that
    accepts the write; the [QuotaExceededError] of a full storage is not
    part of this model. *)
Definition setItem (text : item InterviewSession) : M unit :=
  putItem (Some text).

(** [localStorage.removeItem(this.storageKey)] *)
Definition removeItem : M unit := putItem None.

Definition getAllSessions : M (list InterviewSession) :=
  tryCatch
    (data <- getItem ;;
     match data with
     | Some text => if truthyItem text then JSON_parse text else ret []
     | None => ret []
     end)
    (fun error =>
       console_error "Error loading progress data:" error ;;
       ret []).

(** [newId] and [newDate] are what [this.generateId()] and
    [new Date().toISOString()] give at this call. *)
Definition saveSession (session : InterviewSession)
           (newId newDate : jsstring) : M unit :=
  existingSessions <- getAllSessions ;;
  let newSession := stamp session newId newDate in
  let existingSessions := existingSessions ++ [newSession] in
  let limitedSessions := slice (-50) None existingSessions in
  setItem (JSON_stringify limitedSessions) ;;
  console_log "💾 Interview session saved to progress history".

(** [list.reduce((sum, s) => sum + f(s), 0)] *)
Definition sumOf {A : Type} (f : A -> Q) (l : list A) : Q :=
  fold_left (fun sum s => (sum + f s)%Q) l 0%Q.

(** How a comparator's result is read by [sort]: [NaN] counts as 0. *)
Definition signOf (x : number) : comparison :=
  match x with
  | Fin q => (q ?= 0)%Q
  | PosInfinity => Gt
  | NegInfinity => Lt
  | NaN => Eq
  end.

Definition avgMetrics (sessions : list InterviewSession)
  : list (jsstring * number) :=
  let totalSessions := inject_Z (Z.of_nat (length sessions)) in
  [ (lit "confidence",
     divide (sumOf (fun s => AnalysisEngine.confidenceScore (metrics s))
                   sessions) totalSessions);
    (lit "clarity",
     divide (sumOf (fun s => AnalysisEngine.clarityScore (metrics s))
                   sessions) totalSessions);
    (lit "professionalism",
     divide (sumOf (fun s => AnalysisEngine.professionalismScore (metrics s))
                   sessions) totalSessions);
    (lit "relevance",
     divide (sumOf (fun s => AnalysisEngine.relevanceScore (metrics s))
                   sessions) totalSessions) ].

(** [Object.entries(avgMetrics).sort(([,a], [,b]) => b - a)] *)
Definition sortedAreas (sessions : list InterviewSession)
  : list (jsstring * number) :=
  sort (fun x y => signOf (subtract (snd y) (snd x)))
       (avgMetrics sessions).

Definition halfPoint (sessions : list InterviewSession) : Z :=
  (Z.of_nat (length sessions) / 2)%Z.

Definition firstHalfAvg (sessions : list InterviewSession) : number :=
  orZero
    (divide (sumOf overallScore (slice 0 (Some (halfPoint sessions)) sessions))
            (inject_Z (halfPoint sessions))).

Definition secondHalfAvg (sessions : list InterviewSession) : number :=
  divide (sumOf overallScore (slice (halfPoint sessions) None sessions))
         (inject_Z (Z.of_nat (length sessions) - halfPoint sessions)).

Definition emptyStats : ProgressStats :=
  {| totalSessions := 0;
     averageScore := Fin 0;
     improvementTrend := Fin 0;
     strongestAreas := [];
     weakestAreas := [];
     recentSessions := [] |}.

(** The body of [getProgressStats] once the log is read. *)
Definition statsOf (sessions : list InterviewSession) : ProgressStats :=
  if (length sessions =? 0)%nat
  then emptyStats
  else
    let totalSessions := Z.of_nat (length sessions) in
    let averageScore :=
      divide (sumOf overallScore sessions) (inject_Z totalSessions) in
    let improvementTrend :=
      subtract (secondHalfAvg sessions) (firstHalfAvg sessions) in
    {| totalSessions := totalSessions;
       averageScore := Math_round averageScore;
       improvementTrend := Math_round improvementTrend;
       strongestAreas :=
         List.map fst (slice 0 (Some 2%Z) (sortedAreas sessions));
       weakestAreas :=
         List.map fst (slice (-2) None (sortedAreas sessions));
       recentSessions := rev (slice (-5) None sessions) |}.

Definition getProgressStats : M ProgressStats :=
  sessions <- getAllSessions ;;
  ret (statsOf sessions).

Definition clearAllData : M unit :=
  removeItem ;;
  console_log "🗑️ All progress data cleared".

End ProgressTrackingService.

(* ================================================================== *)
(** * EnhancedProgressService: the enhanced tracker                   *)
(* ================================================================== *)

Module EnhancedProgressService.
Import JS Detailed Browser.
Local Open Scope js_scope.

Record SkillEntry : Type := {
  current : number;
  trend : number;
  sessionHistory : list Q
}.

Record Milestones : Type := {
  reached : list jsstring;
  upcoming : list jsstring
}.

(** [skillBreakdown] keeps the order in which its keys were set, which
    [Object.entries] follows; [sessionsByType] is only looked up by
    key. *)
Record AdvancedProgressStats : Type := {
  totalSessions : Z;
  averageScore : number;
  improvementTrend : number;
  skillBreakdown : list (jsstring * SkillEntry);
  recommendedFocus : list jsstring;
  achievementBadges : list jsstring;
  recentSessions : list DetailedSession;
  sessionsByType : gmap jsstring Z;
  progressMilestones : Milestones
}.

Definition maxSessions : Z := 100.

(** [localStorage.getItem(this.storageKey)] *)
Definition getItem : M (option (item DetailedSession)) :=
  fun w => (Return (enhancedItem w), w).

Definition putItem (v : option (item DetailedSession)) : M unit :=
  fun w =>
    (Return tt,
     {| basicItem := basicItem w;
        enhancedItem := v;
        console := console w;
        aiConfigured := aiConfigured w;
        aiService := aiService w;
        aiRequests := aiRequests w |}).

(** [localStorage.setItem(this.storageKey, text)], on a storage that
    accepts the write; the [QuotaExceededError] of a full storage is not
    part of this model. *)
Definition setItem (text : item DetailedSession) : M unit :=
  putItem (Some text).

(** [localStorage.removeItem(this.storageKey)] *)
Definition removeItem : M unit := putItem None.

Definition getAllSessions : M (list DetailedSession) :=
  tryCatch
    (data <- getItem ;;
     match data with
     | Some text => if truthyItem text then JSON_parse text else ret []
     | None => ret []
     end)
    (fun error =>
       console_error "Error loading enhanced progress data:" error ;;
       ret []).

(** [newId] and [newDate] are what [this.generateId()] and
    [new Date().toISOString()] give at this call. *)
Definition saveDetailedSession (session : DetailedSession)
           (newId newDate : jsstring) : M unit :=
  existingSessions <- getAllSessions ;;
  let newSession := stamp session newId newDate in
  let existingSessions := existingSessions ++ [newSession] in
  let limitedSessions := slice (- maxSessions) None existingSessions in
  setItem (JSON_stringify limitedSessions) ;;
  console_log "💾 Enhanced session data saved".

(** [list.reduce((acc, x) => acc + f(x), 0)] *)
Definition sumOf {A : Type} (f : A -> Q) (l : list A) : Q :=
  fold_left (fun acc x => (acc + f x)%Q) l 0%Q.

Definition lengthOf {A : Type} (l : list A) : Z := Z.of_nat (length l).

Definition calculateAverageScore (sessions : list DetailedSession)
  : number :=
  Math_round (divide (sumOf overallScore sessions)
                     (inject_Z (lengthOf sessions))).

Definition calculateImprovementTrend (sessions : list DetailedSession)
  : number :=
  if (lengthOf sessions <? 4)%Z
  then Fin 0
  else
    let quarterPoint := (lengthOf sessions / 4)%Z in
    let recentSessions := slice (- quarterPoint) None sessions in
    let earlierSessions :=
      slice quarterPoint (Some (quarterPoint * 2)%Z) sessions in
    let recentAvg := calculateAverageScore recentSessions in
    let earlierAvg := calculateAverageScore earlierSessions in
    Math_round (subtract recentAvg earlierAvg).

Definition skills : list (jsstring * (DetailedMetrics -> Q)) :=
  [ (lit "confidenceScore", confidenceScore);
    (lit "clarityScore", clarityScore);
    (lit "professionalismScore", professionalismScore);
    (lit "relevanceScore", relevanceScore);
    (lit "emotionalIntelligence", emotionalIntelligence);
    (lit "structureScore", structureScore) ].

(** [x || 0] on a finite number. *)
Definition orZeroQ (x : Q) : Q := if Qzero x then 0%Q else x.

(** How a comparator's result is read by [sort]: [NaN] counts as 0. *)
Definition signOf (x : number) : comparison :=
  match x with
  | Fin q => (q ?= 0)%Q
  | PosInfinity => Gt
  | NegInfinity => Lt
  | NaN => Eq
  end.

Definition skillEntry (sessions : list DetailedSession)
           (metric : DetailedMetrics -> Q) : SkillEntry :=
  let scores :=
    List.map (fun s => orZeroQ (metric (detailedMetrics s))) sessions in
  let current :=
    if (0 <? lengthOf scores)%Z then List.last scores 0%Q else 0%Q in
  let recent := slice (-5) None scores in
  let earlier := slice (-10) (Some (-5)%Z) scores in
  let recentAvg :=
    orZero (divide (sumOf (fun x => x) recent)
                   (inject_Z (lengthOf recent))) in
  let earlierAvg :=
    orZero (divide (sumOf (fun x => x) earlier)
                   (inject_Z (lengthOf earlier))) in
  {| current := Math_round (Fin current);
     trend := Math_round (subtract recentAvg earlierAvg);
     sessionHistory := slice (-10) None scores |}.

Definition calculateSkillBreakdown (sessions : list DetailedSession)
  : list (jsstring * SkillEntry) :=
  List.map (fun skill => (fst skill, skillEntry sessions (snd skill)))
           skills.

Definition formatSkillName (skill : jsstring) : jsstring :=
  let mapping :=
    [ (lit "confidenceScore", lit "Confidence");
      (lit "clarityScore", lit "Clarity");
      (lit "professionalismScore", lit "Professionalism");
      (lit "relevanceScore", lit "Relevance");
      (lit "emotionalIntelligence", lit "Emotional Intelligence");
      (lit "structureScore", lit "Response Structure") ] in
  match List.find (fun entry => bool_decide (fst entry = skill)) mapping with
  | Some entry => snd entry
  | None => skill
  end.

Definition getRecommendedFocus (skillBreakdown : list (jsstring * SkillEntry))
  : list jsstring :=
  List.map
    (fun entry => formatSkillName (fst entry))
    (slice 0 (Some 2%Z)
           (sort (fun a b =>
                    signOf (subtract (current (snd a)) (current (snd b))))
                 skillBreakdown)).

(** [if (cond) badges.push(badge)] *)
Definition pushIf (cond : bool) (x : jsstring) (l : list jsstring)
  : list jsstring :=
  if cond then l ++ [x] else l.

Definition calculateAchievements (sessions : list DetailedSession)
  : list jsstring :=
  let badges := [] in
  let badges :=
    pushIf (5 <=? lengthOf sessions)%Z (lit "Committed Practicer") badges in
  let badges :=
    pushIf (15 <=? lengthOf sessions)%Z (lit "Interview Master") badges in
  let badges :=
    pushIf (existsb (fun s => Qle_bool 90 (overallScore s)) sessions)
           (lit "Excellence Achieved") badges in
  let badges :=
    pushIf (forallb (fun s => Qltb (overallScore s) (overallScore s))
                    (slice (-5) None sessions))
           (lit "Consistent Improver") badges in
  let badges :=
    pushIf (10 <=? lengthOf (List.filter aiPowered sessions))%Z
           (lit "AI-Powered Learner") badges in
  badges.

(** Keys that name a property inherited from [Object.prototype] are not
    told apart from the others. *)
Definition getSessionsByType (sessions : list DetailedSession)
  : gmap jsstring Z :=
  fold_left
    (fun types session =>
       let type :=
         if truthyString (questionType session)
         then questionType session
         else lit "General" in
       <[ type := (default 0%Z (types !! type) + 1)%Z ]> types)
    sessions ∅.

Definition getProgressMilestones (sessions : list DetailedSession)
  : Milestones :=
  let avgScore := calculateAverageScore sessions in
  let sessionCount := lengthOf sessions in
  let reached := [] in
  let reached :=
    pushIf (1 <=? sessionCount)%Z (lit "First Interview Practice") reached in
  let reached :=
    pushIf (5 <=? sessionCount)%Z (lit "Regular Practicer") reached in
  let reached :=
    pushIf (10 <=? sessionCount)%Z (lit "Dedicated Learner") reached in
  let reached :=
    pushIf (atLeast avgScore 70) (lit "Competent Interviewer") reached in
  let reached :=
    pushIf (atLeast avgScore 80) (lit "Strong Interviewer") reached in
  let reached :=
    pushIf (atLeast avgScore 90) (lit "Expert Interviewer") reached in
  let upcoming := [] in
  let upcoming :=
    pushIf (sessionCount <? 5)%Z
           (lit "Complete " ++ digitString (Z.to_nat (5 - sessionCount))
                ++ lit " more sessions")
           upcoming in
  let upcoming :=
    pushIf (sessionCount <? 10)%Z (lit "Reach 10 total sessions") upcoming in
  let upcoming :=
    pushIf (below avgScore 70) (lit "Achieve 70% average score") upcoming in
  let upcoming :=
    pushIf (below avgScore 80) (lit "Achieve 80% average score") upcoming in
  let upcoming :=
    pushIf (below avgScore 90) (lit "Achieve 90% average score") upcoming in
  {| reached := reached; upcoming := upcoming |}.

Definition getEmptyStats : AdvancedProgressStats :=
  {| totalSessions := 0;
     averageScore := Fin 0;
     improvementTrend := Fin 0;
     skillBreakdown := [];
     recommendedFocus := [];
     achievementBadges := [];
     recentSessions := [];
     sessionsByType := ∅;
     progressMilestones :=
       {| reached := [];
          upcoming := [lit "Complete your first interview practice"] |} |}.

(** The body of [getAdvancedStats] once the log is read. *)
Definition statsOf (sessions : list DetailedSession)
  : AdvancedProgressStats :=
  if (lengthOf sessions =? 0)%Z
  then getEmptyStats
  else
    let skillBreakdown := calculateSkillBreakdown sessions in
    {| totalSessions := lengthOf sessions;
       averageScore := calculateAverageScore sessions;
       improvementTrend := calculateImprovementTrend sessions;
       skillBreakdown := skillBreakdown;
       recommendedFocus := getRecommendedFocus skillBreakdown;
       achievementBadges := calculateAchievements sessions;
       recentSessions := rev (slice (-10) None sessions);
       sessionsByType := getSessionsByType sessions;
       progressMilestones := getProgressMilestones sessions |}.

Definition getAdvancedStats : M AdvancedProgressStats :=
  sessions <- getAllSessions ;;
  ret (statsOf sessions).

Definition clearAllData : M unit :=
  removeItem ;;
  console_log "🗑️ All enhanced progress data cleared".

End EnhancedProgressService.

(* ================================================================== *)
(** * OpenAIClientService: the measures sent along with the request   *)
(* ================================================================== *)

Module OpenAIClient.
Import JS.

(** [x > c] for a finite [c]. *)
Definition above (x : number) (c : Q) : bool :=
  match x with
  | Fin q => Qltb c q
  | PosInfinity => true
  | NegInfinity | NaN => false
  end.

Definition getWPMFeedback (wpm : Q) : jsstring :=
  if Qltb wpm 120
  then lit "(Slower pace - consider speaking slightly faster)"
  else if Qltb 180 wpm
       then lit "(Fast pace - consider slowing down for clarity)"
       else lit "(Good speaking pace)".

Definition getFillerWordFeedback (fillerWords totalWords : Q) : jsstring :=
  let ratio := divide fillerWords totalWords in
  if above ratio (1 # 10)
  then lit "(High usage - focus on reducing filler words)"
  else if above ratio (5 # 100)
       then lit "(Moderate usage - room for improvement)"
       else lit "(Low usage - excellent!)".

(** The divisor is at least 1, so the quotient is finite. *)
Definition calculateWPM (transcript : jsstring) (duration : Q) : Z :=
  let words :=
    List.filter (fun word => (0 <? length word)%nat)
                (splitOnRuns isWhiteSpace (trim transcript)) in
  let durationInMinutes := Math_max (duration / 60) 1 in
  roundQ (inject_Z (Z.of_nat (length words)) / durationInMinutes).

Definition countFillerWords (transcript : jsstring) : Z :=
  let fillerWords :=
    [lit "um"; lit "uh"; lit "like"; lit "you know"; lit "so";
     lit "actually"; lit "basically"; lit "literally"; lit "right";
     lit "okay"] in
  let words := splitOnRuns isWhiteSpace (toLowerCase transcript) in
  Z.of_nat
    (length
       (List.filter
          (fun word => existsb (fun filler => includes word filler)
                               fillerWords)
          words)).

End OpenAIClient.

(* ================================================================== *)
(** * Vocabulary of the properties                                    *)
(* ================================================================== *)

Module Vocabulary.
Import JS AnalysisEngine Browser.

Definition inScoreRange (score : Q) : Prop := (0 <= score /\ score <= 100)%Q.

(** The example answer of the specification. *)
Definition sampleTranscript : jsstring :=
  lit "I led a team and achieved a 20% improvement, for example on project X.".

(** A transcript with nothing but white space in it; the empty one is
    the first case. *)
Definition blank (transcript : jsstring) : Prop :=
  Forall (fun c => isWhiteSpace c = true) transcript.

(** A world with empty storage whose remote service is unreachable. *)
Definition quietWorld : world :=
  {| basicItem := None;
     enhancedItem := None;
     console := [];
     aiConfigured := true;
     aiService := fun _ _ _ => Throw (RemoteError (lit "offline"));
     aiRequests := [] |}.

(** The log a tracker finds in its storage cell: the stored array, and
    nothing when the cell is absent or cannot be parsed. *)
Definition logOf {A : Type} (cell : option (item A)) : list A :=
  match cell with
  | Some (JsonArray records) => records
  | Some (NotJson _) | None => []
  end.

(** The key is absent, or its value is not JSON. *)
Definition unreadable {A : Type} (cell : option (item A)) : Prop :=
  cell = None \/ exists text, cell = Some (NotJson text).

(** One call of [saveSession]: the session and what the clock and the
    random generator give for it. *)
Definition basicInput : Type :=
  (Session.InterviewSession * jsstring * jsstring)%type.

Definition basicRecord (input : basicInput) : Session.InterviewSession :=
  let '(session, newId, newDate) := input in
  Session.stamp session newId newDate.

(** The world after a run of [saveSession] calls. *)
Fixpoint saveSessions (inputs : list basicInput) (w : world) : world :=
  match inputs with
  | [] => w
  | (session, newId, newDate) :: rest =>
      saveSessions rest
        (worldOf (ProgressTrackingService.saveSession session newId newDate w))
  end.

Definition detailedInput : Type :=
  (Detailed.DetailedSession * jsstring * jsstring)%type.

Definition detailedRecord (input : detailedInput) : Detailed.DetailedSession :=
  let '(session, newId, newDate) := input in
  Detailed.stamp session newId newDate.

(** The world after a run of [saveDetailedSession] calls. *)
Fixpoint saveDetailedSessions (inputs : list detailedInput) (w : world)
  : world :=
  match inputs with
  | [] => w
  | (session, newId, newDate) :: rest =>
      saveDetailedSessions rest
        (worldOf (EnhancedProgressService.saveDetailedSession
                    session newId newDate w))
  end.

(** The console line a failed parse leaves. *)
Definition parseFailureLine (text : string) (stored : jsstring)
  : consoleLine :=
  {| lineLevel := LevelError;
     lineText := text;
     lineError := Some (SyntaxError stored) |}.

(** [w'] is [w] with [lines] added to the console and nothing else
    changed. *)
Definition onlyLogged (w w' : world) (lines : list consoleLine) : Prop :=
  basicItem w' = basicItem w
  /\ enhancedItem w' = enhancedItem w
  /\ console w' = console w ++ lines
  /\ aiConfigured w' = aiConfigured w
  /\ aiService w' = aiService w
  /\ aiRequests w' = aiRequests w.

(** The line, if any, that reading a cell writes to the console: one
    error line when a non-empty text fails to parse. *)
Definition readingLines {A : Type} (text : string) (cell : option (item A))
  : list consoleLine :=
  match cell with
  | Some (NotJson (c :: stored)) => [parseFailureLine text (c :: stored)]
  | Some (NotJson []) | Some (JsonArray _) | None => []
  end.

(** Sample records, told apart by their score. *)
Definition sampleMetrics : AnalysisMetrics :=
  {| wordsPerMinute := 120; fillerWords := 2; confidenceScore := 70;
     clarityScore := 80; professionalismScore := 60; relevanceScore := 90 |}.

Definition sampleSession (score : Q) : Session.InterviewSession :=
  {| Session.id := [];
     Session.date := [];
     Session.duration := 60;
     Session.transcript := lit "I led a team.";
     Session.overallScore := score;
     Session.metrics := sampleMetrics;
     Session.aiPowered := false;
     Session.questionType := None |}.

Definition sampleDetailed (score : Q) : Detailed.DetailedSession :=
  {| Detailed.id := [];
     Detailed.date := [];
     Detailed.duration := 60;
     Detailed.transcript := lit "I led a team.";
     Detailed.questionType := lit "General";
     Detailed.overallScore := score;
     Detailed.detailedMetrics :=
       {| Detailed.wordsPerMinute := 120; Detailed.fillerWords := 2;
          Detailed.confidenceScore := 70; Detailed.clarityScore := 80;
          Detailed.professionalismScore := 60;
          Detailed.relevanceScore := 90;
          Detailed.emotionalIntelligence := 75;
          Detailed.structureScore := 70 |};
     Detailed.feedback :=
       {| Detailed.strengths := []; Detailed.improvements := [];
          Detailed.suggestions := []; Detailed.specificTips := [] |};
     Detailed.detailedAnalysis :=
       {| Detailed.speechPattern := []; Detailed.contentQuality := [];
          Detailed.professionalPresence := [];
          Detailed.improvementPlan := [] |};
     Detailed.aiPowered := false;
     Detailed.audioUrl := None |}.

(** A world whose two cells hold texts that are not JSON. *)
Definition garbledWorld : world :=
  {| basicItem := Some (NotJson (lit "{oops"));
     enhancedItem := Some (NotJson (lit "[1,"));
     console := [];
     aiConfigured := false;
     aiService := fun _ _ _ => Throw (RemoteError (lit "offline"));
     aiRequests := [] |}.

(** A world whose basic log is the given array. *)
Definition worldWithLog (records : list Session.InterviewSession) : world :=
  {| basicItem := Some (JsonArray records);
     enhancedItem := None;
     console := [];
     aiConfigured := false;
     aiService := fun _ _ _ => Throw (RemoteError (lit "offline"));
     aiRequests := [] |}.


(** The average of a metric over all sessions of a non-empty log. *)
Definition averageOf (metric : AnalysisMetrics -> Q)
           (sessions : list Session.InterviewSession) : Q :=
  (ProgressTrackingService.sumOf (fun s => metric (Session.metrics s)) sessions
   / inject_Z (Z.of_nat (length sessions)))%Q.

Definition areaAverages (sessions : list Session.InterviewSession)
  : list (jsstring * Q) :=
  [ (lit "confidence", averageOf confidenceScore sessions);
    (lit "clarity", averageOf clarityScore sessions);
    (lit "professionalism", averageOf professionalismScore sessions);
    (lit "relevance", averageOf relevanceScore sessions) ].

(** From the highest average to the lowest. *)
Definition descending (ranked : list (jsstring * Q)) : Prop :=
  StronglySorted (fun a b => (snd b <= snd a)%Q) ranked.

(** The sum and the mean of a run of values, written out term by
    term. *)
Fixpoint valuesSum (values : list Q) : Q :=
  match values with
  | [] => 0
  | x :: rest => x + valuesSum rest
  end.

Definition valuesMean (values : list Q) : Q :=
  (valuesSum values / inject_Z (Z.of_nat (length values)))%Q.

(** An area of the basic tracker: its name and the metric it averages. *)
Definition area : Type := (jsstring * (AnalysisMetrics -> Q))%type.

Definition areas : list area :=
  [ (lit "confidence", confidenceScore);
    (lit "clarity", clarityScore);
    (lit "professionalism", professionalismScore);
    (lit "relevance", relevanceScore) ].

(** The mean of an area's metric over the sessions of a log. *)
Definition areaMean (sessions : list Session.InterviewSession) (a : area)
  : Q :=
  valuesMean (List.map (fun s => snd a (Session.metrics s)) sessions).

(** The areas in a given order, each with its mean. *)
Definition areaMeans (sessions : list Session.InterviewSession)
           (order : list area) : list (jsstring * Q) :=
  List.map (fun a => (fst a, areaMean sessions a)) order.

(** An area with a finite average, as [avgMetrics] holds it. *)
Definition finite (entry : jsstring * Q) : jsstring * number :=
  (fst entry, Fin (snd entry)).

(** The comparator [([,a], [,b]) => b - a] on finite averages. *)
Definition higherFirst (x y : jsstring * Q) : comparison :=
  (snd y - snd x ?= 0)%Q.

(** The badge of the self-comparing rule. *)
Definition consistentImprover : jsstring := lit "Consistent Improver".

(** Five sessions, each scoring higher than the one before. *)
Definition improvingLog : list Detailed.DetailedSession :=
  List.map sampleDetailed [10; 20; 30; 40; 50]%Q.

(** The mean [overallScore] of a non-empty run of records. *)
Definition meanScore (records : list Detailed.DetailedSession) : Q :=
  (EnhancedProgressService.sumOf Detailed.overallScore records
   / inject_Z (Z.of_nat (length records)))%Q.

(** The last [q] records of a log. *)
Definition lastRecords {A : Type} (q : nat) (l : list A) : list A :=
  skipn (length l - q) l.

(** The improvement trend as the specification words it: the mean of the
    most recent quarter minus the mean of the quarter directly before
    it, rounded. *)
Definition trendAsClaimed (sessions : list Detailed.DetailedSession)
  : number :=
  let n := length sessions in
  if (n <? 4)%nat
  then Fin 0
  else
    let q := (n / 4)%nat in
    let recent := lastRecords q sessions in
    let before := lastRecords q (firstn (n - q) sessions) in
    Fin (inject_Z (roundQ (meanScore recent - meanScore before))).

(** Four sessions: the recent quarter is the 4th, the quarter before it
    the 3rd, and the code reads the 2nd. *)
Definition quarterLog : list Detailed.DetailedSession :=
  List.map sampleDetailed [0; 100; 0; 0]%Q.

(** Eight sessions whose 3rd and 4th score like the 5th and 6th, so
    that only the rounding of the two means tells the two trends apart. *)
Definition roundingLog : list Detailed.DetailedSession :=
  List.map sampleDetailed [5; 5; 0; 1; 0; 1; 1; 1]%Q.

(** The number of maximal runs of code units that are not separators;
    [inWord] tells that the code unit before was not a separator. *)
Fixpoint countRuns (sep : code_unit -> bool) (inWord : bool) (s : jsstring)
  : nat :=
  match s with
  | [] => 0
  | c :: s' =>
      if sep c
      then countRuns sep false s'
      else (if inWord then 0 else 1) + countRuns sep true s'
  end.

(** The console line of a given level and text, without an error
    attached. *)
Definition plainLine (l : level) (text : string) : consoleLine :=
  {| lineLevel := l; lineText := text; lineError := None |}.

(** A world whose remote service resolves with the sample metrics. *)
Definition helpfulWorld : world :=
  {| basicItem := None;
     enhancedItem := None;
     console := [];
     aiConfigured := true;
     aiService :=
       fun _ _ _ =>
         Return {| remoteMetrics := sampleMetrics;
                   remoteFeedback :=
                     {| strengths := []; improvements := [];
                        suggestions := [] |} |};
     aiRequests := [] |}.

(** The transcript is empty or all white space, as a test. *)
Definition isBlank (transcript : jsstring) : bool :=
  forallb isWhiteSpace transcript.

(** [w] after [lines] were written to the console and [requests] were
    sent to the remote service; the storage is as in [w]. *)
Definition afterAnalysis (w : world) (lines : list consoleLine)
           (requests : list (jsstring * Q * option jsstring)) : world :=
  {| basicItem := basicItem w;
     enhancedItem := enhancedItem w;
     console := console w ++ lines;
     aiConfigured := aiConfigured w;
     aiService := aiService w;
     aiRequests := aiRequests w ++ requests |}.

(** The lines [analyzeInterview] and the client it calls may write. *)
Definition usingRemoteLine : consoleLine :=
  plainLine LevelLog
            "🤖 Using enhanced OpenAI client for interview analysis...".

Definition clientAnalyzingLine : consoleLine :=
  plainLine LevelLog "🤖 Analyzing interview with GPT-4...".

Definition clientFailedLine (e : exn) : consoleLine :=
  {| lineLevel := LevelError;
     lineText := "OpenAI analysis error:";
     lineError := Some e |}.

Definition notConfiguredLine : consoleLine :=
  plainLine LevelWarn
            "⚠️ AI services not configured. Using basic rule-based analysis.".

Definition remoteFailedLine (e : exn) : consoleLine :=
  {| lineLevel := LevelError;
     lineText := "AI Analysis failed, falling back to basic analysis:";
     lineError := Some e |}.

(** [word.length > 0] *)
Definition nonEmpty (piece : jsstring) : bool := (0 <? length piece)%nat.

(** A world whose enhanced log is the given array. *)
Definition worldWithDetailedLog (records : list Detailed.DetailedSession)
  : world :=
  {| basicItem := None;
     enhancedItem := Some (JsonArray records);
     console := [];
     aiConfigured := false;
     aiService := fun _ _ _ => Throw (RemoteError (lit "offline"));
     aiRequests := [] |}.

(** The mean [overallScore] of a non-empty run of basic records, summed
    as the code sums it. *)
Definition basicMean (records : list Session.InterviewSession) : Q :=
  (ProgressTrackingService.sumOf Session.overallScore records
   / inject_Z (Z.of_nat (length records)))%Q.

(** A whole number between two bounds, as a statistic holds it. *)
Definition wholeBetween (lo hi : Z) (x : number) : Prop :=
  exists z : Z, x = Fin (inject_Z z) /\ (lo <= z <= hi)%Z.

(** A whole number between 0 and 100, as the rule-based analysis scores
    an answer. *)
Definition wholeScore (x : Q) : Prop :=
  exists z : Z, (x == inject_Z z)%Q /\ (0 <= z <= 100)%Z.

(** The four area scores of a record are whole scores. *)
Definition wholeAreas (s : Session.InterviewSession) : Prop :=
  wholeScore (confidenceScore (Session.metrics s))
  /\ wholeScore (clarityScore (Session.metrics s))
  /\ wholeScore (professionalismScore (Session.metrics s))
  /\ wholeScore (relevanceScore (Session.metrics s)).

(** A basic record whose four area scores are all the same. *)
Definition evenSession (score : Q) : Session.InterviewSession :=
  {| Session.id := [];
     Session.date := [];
     Session.duration := 60;
     Session.transcript := lit "I led a team.";
     Session.overallScore := score;
     Session.metrics :=
       {| wordsPerMinute := 120; fillerWords := 2; confidenceScore := score;
          clarityScore := score; professionalismScore := score;
          relevanceScore := score |};
     Session.aiPowered := false;
     Session.questionType := None |}.

(** The type a session is counted under: [questionType || 'General']. *)
Definition sessionType (session : Detailed.DetailedSession) : jsstring :=
  if truthyString (Detailed.questionType session)
  then Detailed.questionType session
  else lit "General".

(** How many sessions of a log are counted under a type. *)
Definition countOfType (type : jsstring)
           (sessions : list Detailed.DetailedSession) : nat :=
  length (List.filter (fun s => bool_decide (sessionType s = type)) sessions).

(** A detailed record of a given type. *)
Definition typedDetailed (type : jsstring) : Detailed.DetailedSession :=
  {| Detailed.id := [];
     Detailed.date := [];
     Detailed.duration := 60;
     Detailed.transcript := lit "I led a team.";
     Detailed.questionType := type;
     Detailed.overallScore := 70;
     Detailed.detailedMetrics := Detailed.detailedMetrics (sampleDetailed 70);
     Detailed.feedback := Detailed.feedback (sampleDetailed 70);
     Detailed.detailedAnalysis := Detailed.detailedAnalysis (sampleDetailed 70);
     Detailed.aiPowered := true;
     Detailed.audioUrl := None |}.

(** The names of the properties every object inherits from
    [Object.prototype]; as keys of an object literal they are not plain
    counters. *)
Definition inheritedKeys : list jsstring :=
  [lit "constructor"; lit "hasOwnProperty"; lit "isPrototypeOf";
   lit "propertyIsEnumerable"; lit "toLocaleString"; lit "toString";
   lit "valueOf"; lit "__proto__"; lit "__defineGetter__";
   lit "__defineSetter__"; lit "__lookupGetter__"; lit "__lookupSetter__"].

(** The prompt for the sessions still missing to the fifth. *)
Definition completeMore (sessions : list Detailed.DetailedSession)
  : jsstring :=
  lit "Complete "
  ++ digitString (Z.to_nat (5 - EnhancedProgressService.lengthOf sessions))
  ++ lit " more sessions".

(** The values of one metric along a log, as [calculateSkillBreakdown]
    reads them. *)
Definition metricValues (metric : Detailed.DetailedMetrics -> Q)
           (sessions : list Detailed.DetailedSession) : list Q :=
  List.map
    (fun s => EnhancedProgressService.orZeroQ
                (metric (Detailed.detailedMetrics s)))
    sessions.

(** The mean of a non-empty run of values, summed as the code sums
    it. *)
Definition meanValue (values : list Q) : Q :=
  (EnhancedProgressService.sumOf (fun x => x) values
   / inject_Z (Z.of_nat (length values)))%Q.

(** The six labels [formatSkillName] gives to the six skills. *)
Definition skillLabels : list jsstring :=
  [lit "Confidence"; lit "Clarity"; lit "Professionalism"; lit "Relevance";
   lit "Emotional Intelligence"; lit "Response Structure"].

(** The first skill is at most as good as the second, now. *)
Definition lowerCurrent
           (a b : jsstring * EnhancedProgressService.SkillEntry) : Prop :=
  exists za zb : Z,
    EnhancedProgressService.current (snd a) = Fin (inject_Z za)
    /\ EnhancedProgressService.current (snd b) = Fin (inject_Z zb)
    /\ (za <= zb)%Z.

(** The current value of a skill is a whole number. *)
Definition wholeCurrent
           (a : jsstring * EnhancedProgressService.SkillEntry) : Prop :=
  exists z : Z, EnhancedProgressService.current (snd a) = Fin (inject_Z z).

End Vocabulary.

(* ================================================================== *)
(** * The run-time model on small inputs                              *)
(* ================================================================== *)

Section RuntimeExamples.
Import JS AnalysisEngine Browser Vocabulary.

Example split_white_space :
  splitOnRuns isWhiteSpace (lit "  a   b ") = [[]; lit "a"; lit "b"; []].
Proof. reflexivity. Qed.

Example split_empty_string : splitOnRuns isWhiteSpace [] = [[]].
Proof. reflexivity. Qed.

Example split_commas : splitOn 44%N (lit "a,,b") = [lit "a"; []; lit "b"].
Proof. reflexivity. Qed.

Example words_are_lowered :
  words (lit " Um, I LIKE  it ") = [lit "um,"; lit "i"; lit "like"; lit "it"].
Proof. reflexivity. Qed.

Example fillers_are_substrings :
  fillerWordCount (lit "Um, I LIKE some album") = 4%Z.
Proof. reflexivity. Qed.

Example question_words_need_boundaries :
  matchBounded [lit "what"; lit "how"] (lit "What? somewhat, How-to, show")
  = Some [lit "What"; lit "How"].
Proof. reflexivity. Qed.

Example no_match_is_null : matchBounded [lit "what"] (lit "somewhat") = None.
Proof. reflexivity. Qed.

Example trim_both_ends : trim (lit "  a b  ") = lit "a b".
Proof. reflexivity. Qed.

Example slice_last_two : slice (-2) None [1; 2; 3]%Z = [2; 3]%Z.
Proof. reflexivity. Qed.

Example slice_more_than_all : slice (-5) None [1; 2; 3]%Z = [1; 2; 3]%Z.
Proof. reflexivity. Qed.

Example slice_middle : slice 1 (Some 2%Z) [1; 2; 3; 4]%Z = [2]%Z.
Proof. reflexivity. Qed.

Example slice_before_last_five :
  slice (-10) (Some (-5)%Z) [1; 2; 3; 4; 5; 6; 7]%Z = [1; 2]%Z.
Proof. reflexivity. Qed.

Example round_half_up : (roundQ (5 # 2), roundQ (- 5 # 2)) = (3, -2)%Z.
Proof. reflexivity. Qed.

Example zero_by_zero : orZero (divide 0 0) = Fin 0.
Proof. reflexivity. Qed.

Example sort_is_stable :
  sort (fun a b : Z * Z => (fst a ?= fst b)%Z)
       [(2, 0); (1, 1); (2, 2); (1, 3)]%Z
  = [(1, 1); (1, 3); (2, 0); (2, 2)]%Z.
Proof. reflexivity. Qed.

Example areas_of_two_samples :
  let stats :=
    ProgressTrackingService.statsOf [sampleSession 40; sampleSession 60] in
  ProgressTrackingService.strongestAreas stats
  = [lit "relevance"; lit "clarity"]
  /\ ProgressTrackingService.weakestAreas stats
     = [lit "confidence"; lit "professionalism"]
  /\ ProgressTrackingService.averageScore stats = Fin 50
  /\ ProgressTrackingService.improvementTrend stats = Fin 20.
Proof. vm_compute. repeat split. Qed.

Example badges_of_empty_run :
  EnhancedProgressService.calculateAchievements [] = [consistentImprover].
Proof. reflexivity. Qed.

Example badges_of_improving_log :
  EnhancedProgressService.calculateAchievements improvingLog
  = [lit "Committed Practicer"].
Proof. reflexivity. Qed.

End RuntimeExamples.

(* ================================================================== *)
(** * Properties of the rule-based analysis                           *)
(* ================================================================== *)

Section AnalysisProperties.
Import JS AnalysisEngine Browser AnalyzeInterview Vocabulary.

Lemma roundQ_inject_Z (z : Z) : roundQ (inject_Z z) = z.
Proof.
  unfold roundQ, Qfloor, Qplus, inject_Z; simpl.
  symmetry; apply Z.div_unique with (r := 1%Z); lia.
Qed.

Lemma bonus_bounds (cond : bool) (n : Z) :
  (0 <= n -> 0 <= bonus cond n <= n)%Z.
Proof. destruct cond; simpl; lia. Qed.

Lemma capped_inject (score : Z) : capped score = inject_Z (Z.min score 100).
Proof. unfold capped; now rewrite roundQ_inject_Z. Qed.

Lemma capped_range (score : Z) :
  (0 <= score)%Z -> (0 <= capped score /\ capped score <= 100)%Q.
Proof.
  intros Hs; rewrite capped_inject.
  change 0%Q with (inject_Z 0); change 100%Q with (inject_Z 100).
  rewrite <- !Zle_Qle; lia.
Qed.

Ltac bonuses :=
  repeat match goal with
         | |- context [bonus ?c ?n] =>
             let H := fresh "Hb" in
             assert (H := bonus_bounds c n ltac:(lia));
             generalize dependent (bonus c n); intros
         end.

(** Before the cap every score is at least its base and at most the base
    plus all bonuses. *)
Lemma raw_scores_bounds (t : jsstring) :
  (50 <= rawConfidence t <= 110
   /\ 50 <= rawClarity t <= 110
   /\ 60 <= rawProfessionalism t <= 105
   /\ 50 <= rawRelevance t <= 110)%Z.
Proof.
  unfold rawConfidence, rawClarity, rawProfessionalism, rawRelevance.
  repeat split; bonuses; lia.
Qed.


(** C1. Whatever the transcript and the duration, the four scores of
    [createBasicAnalysis] and of [createFallbackAnalysis] lie between 0
    and 100, both included. *)
Theorem fallback_scores_in_range
        (transcript : jsstring) (duration : Q)
        (questionType : option jsstring) :
  let basic := metrics (createBasicAnalysis transcript duration questionType) in
  let empty := metrics (createFallbackAnalysis duration questionType) in
  (inScoreRange (confidenceScore basic)
   /\ inScoreRange (clarityScore basic)
   /\ inScoreRange (professionalismScore basic)
   /\ inScoreRange (relevanceScore basic))
  /\ (inScoreRange (confidenceScore empty)
      /\ inScoreRange (clarityScore empty)
      /\ inScoreRange (professionalismScore empty)
      /\ inScoreRange (relevanceScore empty)).
Proof.
  destruct (raw_scores_bounds transcript) as (Hc & Hl & Hp & Hr).
  split.
  - simpl; unfold inScoreRange;
      repeat split; apply capped_range; lia.
  - simpl; unfold inScoreRange; repeat split; discriminate.
Qed.


(** C8. On the sample answer, spoken in 60 seconds, the analysis counts
    14 words, 14 words per minute and no filler, finds an example, an
    action word and a number, and gives confidence
    50+15+10+10+15+10 = 110 capped to 100 and relevance
    50+20+15+10+5 = 100, the word-count bonus not applying. *)
Theorem sample_answer_scores (questionType : option jsstring) :
  let result := createBasicAnalysis sampleTranscript 60 questionType in
  wordCount sampleTranscript = 14%Z
  /\ wordsPerMinute (metrics result) = 14%Q
  /\ fillerWords (metrics result) = 0%Q
  /\ hasExamples sampleTranscript = true
  /\ hasActionWords sampleTranscript = true
  /\ hasNumbers sampleTranscript = true
  /\ rawConfidence sampleTranscript = (50 + 15 + 10 + 10 + 15 + 10)%Z
  /\ confidenceScore (metrics result) = 100%Q
  /\ (50 <? wordCount sampleTranscript)%Z = false
  /\ rawRelevance sampleTranscript = (50 + 20 + 15 + 10 + 5)%Z
  /\ relevanceScore (metrics result) = 100%Q.
Proof. vm_compute. repeat split. Qed.

End AnalysisProperties.

Section EmptyTranscript.
Import JS AnalysisEngine Browser AnalyzeInterview Vocabulary.


Lemma trimStart_blank (s : jsstring) : blank s -> trimStart s = [].
Proof.
  induction 1 as [|c s Hc _ IH]; simpl; [reflexivity|].
  now rewrite Hc.
Qed.

Lemma trim_blank (s : jsstring) : blank s -> trim s = [].
Proof.
  intros Hs; unfold trim; now rewrite (trimStart_blank s Hs).
Qed.

(** Conversely a transcript that [trim] empties is blank, so the first
    branch of [analyzeInterview] is taken for blank transcripts only. *)
Lemma trimStart_nil_blank (s : jsstring) : trimStart s = [] -> blank s.
Proof.
  induction s as [|c s IH]; simpl; [constructor|].
  destruct (isWhiteSpace c) eqn:Hc; [|discriminate].
  intros Hs; unfold blank; constructor; [exact Hc | exact (IH Hs)].
Qed.

Lemma trim_nil_blank (s : jsstring) : trim s = [] -> blank s.
Proof.
  unfold trim; intros H.
  apply (f_equal (@rev _)) in H; rewrite rev_involutive in H; simpl in H.
  destruct (trimStart s) as [|c r] eqn:Hs.
  - now apply trimStart_nil_blank.
  - exfalso.
    assert (Hin : In c (rev (c :: r))) by (apply in_rev; rewrite rev_involutive; now left).
    assert (Hc : isWhiteSpace c = false).
    { clear -Hs. induction s as [|d s IH]; simpl in Hs; [discriminate|].
      destruct (isWhiteSpace d) eqn:Hd; [auto|].
      now injection Hs as -> _. }
    apply trimStart_nil_blank in H.
    unfold blank in H; rewrite List.Forall_forall in H.
    specialize (H c Hin); congruence.
Qed.

(** C4 (amended). For an empty or blank transcript [analyzeInterview]
    returns the result of [createFallbackAnalysis] and leaves the world
    as it was: nothing is thrown, nothing is written to the console and
    no request goes to the remote service.  In that result the six
    metrics are 0, [aiPowered] is false, the strengths and the
    improvements are fixed lists, and the suggestions are three fixed
    entries followed by a fourth that ends with the question type when a
    non-empty one is given. *)
Theorem blank_transcript_fixed_result
        (transcript : jsstring) (duration : Q)
        (questionType : option jsstring) (w : world) :
  blank transcript ->
  analyzeInterview transcript duration questionType w
  = (Return (createFallbackAnalysis duration questionType), w)
  /\ let result := createFallbackAnalysis duration questionType in
     metrics result
     = {| wordsPerMinute := 0; fillerWords := 0; confidenceScore := 0;
          clarityScore := 0; professionalismScore := 0;
          relevanceScore := 0 |}
     /\ aiPowered result = false
     /\ strengths (feedback result) = [lit "Recording session completed"]
     /\ improvements (feedback result)
        = [ lit "No audio content detected for analysis";
            lit "Ensure microphone permissions are granted";
            lit "Check if browser supports speech recognition" ]
     /\ suggestions (feedback result)
        = [ lit "Test microphone before recording";
            lit "Speak clearly and at normal volume";
            lit "Try recording in a quiet environment";
            lit "Configure AI services for advanced analysis"
            ++ match given questionType with
               | Some q => lit " of " ++ q ++ lit " questions"
               | None => []
               end ].
Proof.
  intros Hb; split.
  - unfold analyzeInterview.
    rewrite (trim_blank transcript Hb); simpl.
    now rewrite orb_true_r.
  - cbv zeta; repeat split.
Qed.


Lemma blank_transcript_fixed_result_witness :
  blank (lit "  ")
  /\ analyzeInterview (lit "  ") 30 None quietWorld
     = (Return (createFallbackAnalysis 30 None), quietWorld).
Proof.
  assert (Hb : blank (lit "  ")) by (repeat constructor).
  split; [exact Hb|].
  exact (proj1 (blank_transcript_fixed_result (lit "  ") 30 None quietWorld Hb)).
Defined.

(** C4 (as stated) fails for the suggestions: they are not one fixed
    list.  For the empty transcript and the question type 'Data Analyst'
    the fourth suggestion names the type, and without a question type it
    does not. *)
Lemma blank_transcript_suggestions_vary :
  valueOf (analyzeInterview [] 30 (Some (lit "Data Analyst")) quietWorld)
  = Return (createFallbackAnalysis 30 (Some (lit "Data Analyst")))
  /\ nth_error (suggestions
                  (feedback
                     (createFallbackAnalysis 30 (Some (lit "Data Analyst")))))
               3
     = Some (lit "Configure AI services for advanced analysis of Data Analyst questions")
  /\ nth_error (suggestions (feedback (createFallbackAnalysis 30 None))) 3
     = Some (lit "Configure AI services for advanced analysis")
  /\ ~ exists fixedSuggestions : list jsstring,
        forall (transcript : jsstring) (duration : Q)
               (questionType : option jsstring) (w : world),
          blank transcript ->
          exists result,
            valueOf (analyzeInterview transcript duration questionType w)
            = Return result
            /\ suggestions (feedback result) = fixedSuggestions.
Proof.
  split; [reflexivity|]; split; [reflexivity|]; split; [reflexivity|].
  intros (fixedSuggestions & Hfixed).
  assert (Hb : blank []) by constructor.
  destruct (Hfixed [] 30%Q (Some (lit "Data Analyst")) quietWorld Hb)
    as (typed & Htyped & Hts).
  destruct (Hfixed [] 30%Q None quietWorld Hb) as (plain & Hplain & Hps).
  vm_compute in Htyped; injection Htyped as <-.
  vm_compute in Hplain; injection Hplain as <-.
  rewrite <- Hps in Hts; vm_compute in Hts; discriminate.
Qed.

End EmptyTranscript.

(* ================================================================== *)
(** * Properties of [slice], [sort] and [Math.round]                  *)
(* ================================================================== *)

Section RuntimeFacts.
Import JS.
Context {A : Type}.
Implicit Types l : list A.

Lemma slice_suffix (c : Z) l :
  (0 < c)%Z -> slice (- c) None l = skipn (length l - Z.to_nat c) l.
Proof.
  intros Hc; unfold slice.
  assert (Hneg : (- c <? 0)%Z = true) by (apply Z.ltb_lt; lia).
  rewrite Hneg.
  assert (Hfrom : Z.to_nat (Z.max (Z.of_nat (length l) + - c) 0)
                  = (length l - Z.to_nat c)%nat) by lia.
  rewrite Hfrom.
  apply firstn_all2.
  rewrite length_skipn; lia.
Qed.

Lemma slice_prefix (k : Z) l :
  (0 <= k)%Z -> slice 0 (Some k) l = firstn (Z.to_nat k) l.
Proof.
  intros Hk; unfold slice.
  assert (Hneg : (k <? 0)%Z = false) by (apply Z.ltb_ge; lia).
  change (0 <? 0)%Z with false; cbv iota.
  rewrite Hneg, (Z.min_l 0) by lia.
  rewrite Z.sub_0_r; change (Z.to_nat 0) with 0%nat;
    change (skipn 0 l) with l.
  destruct (Z.min_spec k (Z.of_nat (length l))) as [[Hlt ->]|[Hge ->]].
  - reflexivity.
  - rewrite Nat2Z.id, firstn_all.
    symmetry; apply firstn_all2; lia.
Qed.

Lemma slice_from (a : Z) l :
  (0 <= a)%Z -> slice a None l = skipn (Z.to_nat a) l.
Proof.
  intros Ha; unfold slice.
  assert (Hneg : (a <? 0)%Z = false) by (apply Z.ltb_ge; lia).
  rewrite Hneg.
  destruct (Z.min_spec a (Z.of_nat (length l))) as [[Hlt ->]|[Hge ->]].
  - apply firstn_all2; rewrite length_skipn; lia.
  - rewrite Nat2Z.id, !skipn_all2 by lia.
    now rewrite firstn_nil.
Qed.

Lemma slice_block (a b : Z) l :
  (0 <= a <= b)%Z ->
  slice a (Some b) l = firstn (Z.to_nat b - Z.to_nat a) (skipn (Z.to_nat a) l).
Proof.
  intros Hab; unfold slice.
  assert (Ha : (a <? 0)%Z = false) by (apply Z.ltb_ge; lia).
  assert (Hb : (b <? 0)%Z = false) by (apply Z.ltb_ge; lia).
  rewrite Ha, Hb.
  destruct (Z_lt_le_dec (Z.of_nat (length l)) a) as [Hout|Hin].
  - rewrite !skipn_all2 by lia. now rewrite !firstn_nil.
  - rewrite (Z.min_l a) by lia.
    destruct (Z_lt_le_dec (Z.of_nat (length l)) b) as [Hbout|Hbin].
    + rewrite (Z.min_r b) by lia.
      rewrite !firstn_all2; try reflexivity; rewrite length_skipn; lia.
    + rewrite (Z.min_l b) by lia.
      f_equal; lia.
Qed.

Lemma length_slice_suffix (c : Z) l :
  (0 < c)%Z -> length (slice (- c) None l) = Nat.min (length l) (Z.to_nat c).
Proof.
  intros Hc; rewrite slice_suffix by assumption.
  rewrite length_skipn; lia.
Qed.

(** Appending to a log that was already cut to its last [c] records and
    cutting again is cutting the whole history once. *)
Lemma slice_suffix_app_list (c : Z) l (xs : list A) :
  (0 < c)%Z ->
  slice (- c) None (slice (- c) None l ++ xs) = slice (- c) None (l ++ xs).
Proof.
  intros Hc; rewrite !slice_suffix by assumption.
  rewrite !length_app, length_skipn.
  destruct (Nat.le_gt_cases (length l) (Z.to_nat c)) as [Hle|Hgt].
  - replace (length l - Z.to_nat c)%nat with 0%nat by lia.
    change (skipn 0 l) with l; f_equal; lia.
  - rewrite !skipn_app, length_skipn, skipn_skipn.
    f_equal; f_equal; lia.
Qed.

End RuntimeFacts.

(* ================================================================== *)
(** * Properties of the session log                                   *)
(* ================================================================== *)

Section SessionLog.
Import JS Browser Vocabulary.

(** What [getAllSessions] returns and what it leaves, cell by cell. *)
Lemma basic_getAllSessions_cases (w : world) :
  ProgressTrackingService.getAllSessions w
  = match basicItem w with
    | Some (JsonArray records) => (Return records, w)
    | Some (NotJson (c :: text)) =>
        (Return [],
         worldOf (console_error "Error loading progress data:"
                                (SyntaxError (c :: text)) w))
    | Some (NotJson []) | None => (Return [], w)
    end.
Proof.
  unfold ProgressTrackingService.getAllSessions, tryCatch, bind,
    ProgressTrackingService.getItem.
  destruct (basicItem w) as [[records|[|c text]]|]; reflexivity.
Qed.

Lemma enhanced_getAllSessions_cases (w : world) :
  EnhancedProgressService.getAllSessions w
  = match enhancedItem w with
    | Some (JsonArray records) => (Return records, w)
    | Some (NotJson (c :: text)) =>
        (Return [],
         worldOf (console_error "Error loading enhanced progress data:"
                                (SyntaxError (c :: text)) w))
    | Some (NotJson []) | None => (Return [], w)
    end.
Proof.
  unfold EnhancedProgressService.getAllSessions, tryCatch, bind,
    EnhancedProgressService.getItem.
  destruct (enhancedItem w) as [[records|[|c text]]|]; reflexivity.
Qed.

Lemma basic_getAllSessions_value (w : world) :
  valueOf (ProgressTrackingService.getAllSessions w)
  = Return (logOf (basicItem w)).
Proof.
  rewrite basic_getAllSessions_cases.
  destruct (basicItem w) as [[records|[|c text]]|]; reflexivity.
Qed.

Lemma enhanced_getAllSessions_value (w : world) :
  valueOf (EnhancedProgressService.getAllSessions w)
  = Return (logOf (enhancedItem w)).
Proof.
  rewrite enhanced_getAllSessions_cases.
  destruct (enhancedItem w) as [[records|[|c text]]|]; reflexivity.
Qed.

(** Reading never touches the storage. *)
Lemma basic_getAllSessions_storage (w : world) :
  basicItem (worldOf (ProgressTrackingService.getAllSessions w)) = basicItem w.
Proof.
  rewrite basic_getAllSessions_cases.
  destruct (basicItem w) as [[records|[|c text]]|] eqn:Hw;
    simpl; congruence.
Qed.

Lemma enhanced_getAllSessions_storage (w : world) :
  enhancedItem (worldOf (EnhancedProgressService.getAllSessions w))
  = enhancedItem w.
Proof.
  rewrite enhanced_getAllSessions_cases.
  destruct (enhancedItem w) as [[records|[|c text]]|] eqn:Hw;
    simpl; congruence.
Qed.

(** An append returns normally and stores the last 50 (100) records of
    the log it found followed by the new record. *)
Lemma basic_saveSession_stores (session : Session.InterviewSession)
      (newId newDate : jsstring) (w : world) :
  valueOf (ProgressTrackingService.saveSession session newId newDate w)
  = Return tt
  /\ basicItem
       (worldOf (ProgressTrackingService.saveSession session newId newDate w))
     = Some (JsonArray
               (slice (-50) None
                      (logOf (basicItem w)
                       ++ [Session.stamp session newId newDate]))).
Proof.
  unfold ProgressTrackingService.saveSession, bind.
  rewrite basic_getAllSessions_cases.
  destruct (basicItem w) as [[records|[|c text]]|]; split; reflexivity.
Qed.

Lemma enhanced_saveDetailedSession_stores (session : Detailed.DetailedSession)
      (newId newDate : jsstring) (w : world) :
  valueOf (EnhancedProgressService.saveDetailedSession session newId newDate w)
  = Return tt
  /\ enhancedItem
       (worldOf (EnhancedProgressService.saveDetailedSession
                   session newId newDate w))
     = Some (JsonArray
               (slice (-100) None
                      (logOf (enhancedItem w)
                       ++ [Detailed.stamp session newId newDate]))).
Proof.
  unfold EnhancedProgressService.saveDetailedSession, bind.
  rewrite enhanced_getAllSessions_cases.
  destruct (enhancedItem w) as [[records|[|c text]]|]; split; reflexivity.
Qed.

Lemma basic_saveSessions_log (inputs : list basicInput) (w : world) :
  (length (logOf (basicItem w)) <= 50)%nat ->
  logOf (basicItem (saveSessions inputs w))
  = slice (-50) None (logOf (basicItem w) ++ List.map basicRecord inputs).
Proof.
  revert w; induction inputs as [|[[session newId] newDate] rest IH];
    intros w Hw; change (-50)%Z with (Z.opp 50).
  - simpl; rewrite app_nil_r, slice_suffix by lia.
    replace (length (logOf (basicItem w)) - Z.to_nat 50)%nat with 0%nat by lia.
    reflexivity.
  - simpl saveSessions.
    destruct (basic_saveSession_stores session newId newDate w) as [_ Hst].
    rewrite IH; rewrite Hst; simpl logOf; change (-50)%Z with (Z.opp 50).
    + rewrite slice_suffix_app_list by lia.
      now rewrite <- app_assoc.
    + rewrite length_slice_suffix by lia; lia.
Qed.

Lemma enhanced_saveDetailedSessions_log (inputs : list detailedInput)
      (w : world) :
  (length (logOf (enhancedItem w)) <= 100)%nat ->
  logOf (enhancedItem (saveDetailedSessions inputs w))
  = slice (-100) None
          (logOf (enhancedItem w) ++ List.map detailedRecord inputs).
Proof.
  revert w; induction inputs as [|[[session newId] newDate] rest IH];
    intros w Hw; change (-100)%Z with (Z.opp 100).
  - simpl; rewrite app_nil_r, slice_suffix by lia.
    replace (length (logOf (enhancedItem w)) - Z.to_nat 100)%nat
      with 0%nat by lia.
    reflexivity.
  - simpl saveDetailedSessions.
    destruct (enhanced_saveDetailedSession_stores session newId newDate w)
      as [_ Hst].
    rewrite IH; rewrite Hst; simpl logOf; change (-100)%Z with (Z.opp 100).
    + rewrite slice_suffix_app_list by lia.
      now rewrite <- app_assoc.
    + rewrite length_slice_suffix by lia; lia.
Qed.

Lemma basic_getAllSessions_onlyLogged (w : world) :
  onlyLogged w (worldOf (ProgressTrackingService.getAllSessions w))
             (readingLines "Error loading progress data:" (basicItem w)).
Proof.
  rewrite basic_getAllSessions_cases; unfold onlyLogged.
  destruct (basicItem w) as [[records|[|c text]]|] eqn:Hw; simpl;
    rewrite ?app_nil_r; repeat split; assumption.
Qed.

Lemma enhanced_getAllSessions_onlyLogged (w : world) :
  onlyLogged w (worldOf (EnhancedProgressService.getAllSessions w))
             (readingLines "Error loading enhanced progress data:"
                           (enhancedItem w)).
Proof.
  rewrite enhanced_getAllSessions_cases; unfold onlyLogged.
  destruct (enhancedItem w) as [[records|[|c text]]|] eqn:Hw; simpl;
    rewrite ?app_nil_r; repeat split; assumption.
Qed.

Lemma unreadable_logOf {A : Type} (cell : option (item A)) :
  unreadable cell -> logOf cell = [].
Proof. intros [->|[text ->]]; reflexivity. Qed.

(** C5. For both trackers: after an append, whatever the storage held
    before, the log read back has at most 50 (basic) or 100 (enhanced)
    records; after N appends to an empty log its length is min(N, cap)
    and it holds the last min(N, cap) records appended, in the order of
    their insertion; in particular cap+1 appends leave records
    2..cap+1. *)
Theorem session_log_bounded_fifo
        (w wb we : world)
        (session : Session.InterviewSession)
        (detailed : Detailed.DetailedSession)
        (newId newDate : jsstring)
        (basicInputs : list basicInput)
        (detailedInputs : list detailedInput) :
  valueOf (ProgressTrackingService.getAllSessions wb) = Return [] ->
  valueOf (EnhancedProgressService.getAllSessions we) = Return [] ->
  (exists log,
      valueOf (ProgressTrackingService.getAllSessions
                 (worldOf (ProgressTrackingService.saveSession
                             session newId newDate w)))
      = Return log
      /\ (length log <= 50)%nat)
  /\ (exists log,
         valueOf (EnhancedProgressService.getAllSessions
                    (worldOf (EnhancedProgressService.saveDetailedSession
                                detailed newId newDate w)))
         = Return log
         /\ (length log <= 100)%nat)
  /\ (exists log,
         valueOf (ProgressTrackingService.getAllSessions
                    (saveSessions basicInputs wb))
         = Return log
         /\ length log = Nat.min (length basicInputs) 50
         /\ log = skipn (length basicInputs - 50)
                        (List.map basicRecord basicInputs)
         /\ (length basicInputs = 51%nat ->
             log = tl (List.map basicRecord basicInputs)))
  /\ (exists log,
         valueOf (EnhancedProgressService.getAllSessions
                    (saveDetailedSessions detailedInputs we))
         = Return log
         /\ length log = Nat.min (length detailedInputs) 100
         /\ log = skipn (length detailedInputs - 100)
                        (List.map detailedRecord detailedInputs)
         /\ (length detailedInputs = 101%nat ->
             log = tl (List.map detailedRecord detailedInputs))).
Proof.
  rewrite basic_getAllSessions_value, enhanced_getAllSessions_value.
  intros Hb He.
  injection Hb as Hb; injection He as He.
  repeat apply conj.
  - eexists; split; [apply basic_getAllSessions_value|].
    destruct (basic_saveSession_stores session newId newDate w) as [_ ->].
    simpl logOf; change (-50)%Z with (Z.opp 50).
    rewrite length_slice_suffix by lia; lia.
  - eexists; split; [apply enhanced_getAllSessions_value|].
    destruct (enhanced_saveDetailedSession_stores detailed newId newDate w)
      as [_ ->].
    simpl logOf; change (-100)%Z with (Z.opp 100).
    rewrite length_slice_suffix by lia; lia.
  - eexists; split; [apply basic_getAllSessions_value|].
    rewrite basic_saveSessions_log by (rewrite Hb; simpl; lia).
    rewrite Hb; simpl app; change (-50)%Z with (Z.opp 50).
    rewrite slice_suffix, length_skipn, length_map by lia.
    change (Z.to_nat 50) with 50%nat.
    repeat split; [lia|].
    intros ->; reflexivity.
  - eexists; split; [apply enhanced_getAllSessions_value|].
    rewrite enhanced_saveDetailedSessions_log by (rewrite He; simpl; lia).
    rewrite He; simpl app; change (-100)%Z with (Z.opp 100).
    rewrite slice_suffix, length_skipn, length_map by lia.
    change (Z.to_nat 100) with 100%nat.
    repeat split; [lia|].
    intros ->; reflexivity.
Qed.

Lemma session_log_bounded_fifo_witness :
  valueOf (ProgressTrackingService.getAllSessions quietWorld) = Return []
  /\ valueOf (EnhancedProgressService.getAllSessions quietWorld) = Return []
  /\ exists log,
      valueOf (ProgressTrackingService.getAllSessions
                 (saveSessions
                    [ (sampleSession 10, lit "a", lit "2024-01-01");
                      (sampleSession 20, lit "b", lit "2024-01-02") ]
                    quietWorld))
      = Return log
      /\ length log = 2%nat.
Proof.
  split; [reflexivity|]; split; [reflexivity|].
  destruct (session_log_bounded_fifo
              quietWorld quietWorld quietWorld
              (sampleSession 0) (sampleDetailed 0) (lit "z") (lit "2024")
              [ (sampleSession 10, lit "a", lit "2024-01-01");
                (sampleSession 20, lit "b", lit "2024-01-02") ]
              [] eq_refl eq_refl)
    as (_ & _ & (log & Hlog & Hlen & _) & _).
  exists log; split; [exact Hlog | exact Hlen].
Defined.

(** C6. When the key of a tracker is absent from the storage, or holds
    a text that is not JSON, [getAllSessions] returns the empty array:
    it does not throw, the storage and the rest of the world stay as they
    were, and the only trace is the error line on the console that a
    failed parse leaves. *)
Theorem unreadable_store_reads_empty (wb we : world) :
  unreadable (basicItem wb) ->
  unreadable (enhancedItem we) ->
  (valueOf (ProgressTrackingService.getAllSessions wb) = Return []
   /\ onlyLogged wb (worldOf (ProgressTrackingService.getAllSessions wb))
                  (readingLines "Error loading progress data:"
                                (basicItem wb))
   /\ (length (readingLines "Error loading progress data:" (basicItem wb))
       <= 1)%nat)
  /\ (valueOf (EnhancedProgressService.getAllSessions we) = Return []
      /\ onlyLogged we (worldOf (EnhancedProgressService.getAllSessions we))
                     (readingLines "Error loading enhanced progress data:"
                                   (enhancedItem we))
      /\ (length (readingLines "Error loading enhanced progress data:"
                               (enhancedItem we))
          <= 1)%nat).
Proof.
  intros Hb He; split; split.
  - rewrite basic_getAllSessions_value.
    now rewrite (unreadable_logOf _ Hb).
  - split; [apply basic_getAllSessions_onlyLogged|].
    destruct (basicItem wb) as [[records|[|c text]]|]; simpl; lia.
  - rewrite enhanced_getAllSessions_value.
    now rewrite (unreadable_logOf _ He).
  - split; [apply enhanced_getAllSessions_onlyLogged|].
    destruct (enhancedItem we) as [[records|[|c text]]|]; simpl; lia.
Qed.

Lemma unreadable_store_reads_empty_witness :
  unreadable (basicItem garbledWorld)
  /\ unreadable (enhancedItem quietWorld)
  /\ valueOf (ProgressTrackingService.getAllSessions garbledWorld)
     = Return []
  /\ console (worldOf (ProgressTrackingService.getAllSessions garbledWorld))
     = [parseFailureLine "Error loading progress data:" (lit "{oops")]
  /\ EnhancedProgressService.getAllSessions quietWorld
     = (Return [], quietWorld).
Proof.
  assert (Hb : unreadable (basicItem garbledWorld))
    by (right; exists (lit "{oops"); reflexivity).
  assert (He : unreadable (enhancedItem quietWorld))
    by (left; reflexivity).
  split; [exact Hb|]; split; [exact He|].
  destruct (unreadable_store_reads_empty garbledWorld quietWorld Hb He)
    as ((Hvalue & _ & _) & _).
  split; [exact Hvalue|]; split; reflexivity.
Defined.

Lemma basic_getProgressStats_value (w : world) :
  valueOf (ProgressTrackingService.getProgressStats w)
  = Return (ProgressTrackingService.statsOf (logOf (basicItem w))).
Proof.
  unfold ProgressTrackingService.getProgressStats, bind.
  rewrite basic_getAllSessions_cases.
  destruct (basicItem w) as [[records|[|c text]]|]; reflexivity.
Qed.

Lemma enhanced_getAdvancedStats_value (w : world) :
  valueOf (EnhancedProgressService.getAdvancedStats w)
  = Return (EnhancedProgressService.statsOf (logOf (enhancedItem w))).
Proof.
  unfold EnhancedProgressService.getAdvancedStats, bind.
  rewrite enhanced_getAllSessions_cases.
  destruct (enhancedItem w) as [[records|[|c text]]|]; reflexivity.
Qed.

(** C7. After [clearAllData] the log reads as empty, for both trackers.
    On an empty log the basic statistics are all 0 with empty lists, and
    the enhanced statistics are all 0 with empty lists and maps, but for
    the upcoming milestones, which hold exactly the first-session
    prompt. *)
Theorem cleared_log_and_empty_stats (w wb we : world) :
  valueOf (ProgressTrackingService.getAllSessions wb) = Return [] ->
  valueOf (EnhancedProgressService.getAllSessions we) = Return [] ->
  valueOf (ProgressTrackingService.getAllSessions
             (worldOf (ProgressTrackingService.clearAllData w)))
  = Return []
  /\ valueOf (EnhancedProgressService.getAllSessions
                (worldOf (EnhancedProgressService.clearAllData w)))
     = Return []
  /\ valueOf (ProgressTrackingService.getProgressStats wb)
     = Return {| ProgressTrackingService.totalSessions := 0;
                 ProgressTrackingService.averageScore := Fin 0;
                 ProgressTrackingService.improvementTrend := Fin 0;
                 ProgressTrackingService.strongestAreas := [];
                 ProgressTrackingService.weakestAreas := [];
                 ProgressTrackingService.recentSessions := [] |}
  /\ valueOf (EnhancedProgressService.getAdvancedStats we)
     = Return {| EnhancedProgressService.totalSessions := 0;
                 EnhancedProgressService.averageScore := Fin 0;
                 EnhancedProgressService.improvementTrend := Fin 0;
                 EnhancedProgressService.skillBreakdown := [];
                 EnhancedProgressService.recommendedFocus := [];
                 EnhancedProgressService.achievementBadges := [];
                 EnhancedProgressService.recentSessions := [];
                 EnhancedProgressService.sessionsByType := ∅;
                 EnhancedProgressService.progressMilestones :=
                   {| EnhancedProgressService.reached := [];
                      EnhancedProgressService.upcoming :=
                        [lit "Complete your first interview practice"] |} |}.
Proof.
  rewrite basic_getAllSessions_value, enhanced_getAllSessions_value.
  intros Hb He; injection Hb as Hb; injection He as He.
  repeat apply conj.
  - reflexivity.
  - reflexivity.
  - rewrite basic_getProgressStats_value, Hb; reflexivity.
  - rewrite enhanced_getAdvancedStats_value, He; reflexivity.
Qed.

Lemma cleared_log_and_empty_stats_witness :
  valueOf (ProgressTrackingService.getAllSessions garbledWorld) = Return []
  /\ valueOf (EnhancedProgressService.getAllSessions quietWorld) = Return []
  /\ valueOf (ProgressTrackingService.getProgressStats garbledWorld)
     = Return ProgressTrackingService.emptyStats
  /\ valueOf (EnhancedProgressService.getAdvancedStats quietWorld)
     = Return EnhancedProgressService.getEmptyStats.
Proof.
  split; [reflexivity|]; split; [reflexivity|].
  destruct (cleared_log_and_empty_stats
              garbledWorld garbledWorld quietWorld eq_refl eq_refl)
    as (_ & _ & Hb & He).
  split; [exact Hb | exact He].
Defined.

End SessionLog.

(* ================================================================== *)
(** * Properties of the basic statistics                              *)
(* ================================================================== *)

Section Sorting.
Import JS.
Context {A : Type} (cmp : A -> A -> comparison).

Lemma insertSorted_perm (x : A) (l : list A) :
  Permutation (insertSorted cmp x l) (x :: l).
Proof.
  induction l as [|y l IH]; simpl; [reflexivity|].
  destruct (cmp x y); try reflexivity.
  rewrite IH; apply perm_swap.
Qed.

Lemma sort_perm (l : list A) : Permutation (sort cmp l) l.
Proof.
  induction l as [|x l IH]; simpl; [reflexivity|].
  rewrite insertSorted_perm; now constructor.
Qed.

(** With a comparator that orders the elements, the result is in order:
    no element is followed by one the comparator puts strictly before
    it. *)
Context (before : A -> A -> Prop).
Hypothesis before_trans : forall x y z, before x y -> before y z -> before x z.
Hypothesis cmp_before : forall x y, cmp x y <> Gt -> before x y.
Hypothesis cmp_after : forall x y, cmp x y = Gt -> before y x.



End Sorting.

Section SortingMap.
Import JS.
Context {A B : Type} (f : A -> B).
Context (cmpA : A -> A -> comparison) (cmpB : B -> B -> comparison).
Hypothesis cmp_map : forall x y, cmpB (f x) (f y) = cmpA x y.

Lemma insertSorted_map (x : A) (l : list A) :
  insertSorted cmpB (f x) (List.map f l) = List.map f (insertSorted cmpA x l).
Proof.
  induction l as [|y l IH]; simpl; [reflexivity|].
  rewrite cmp_map; destruct (cmpA x y); simpl; try reflexivity.
  now rewrite IH.
Qed.

Lemma sort_map (l : list A) :
  sort cmpB (List.map f l) = List.map f (sort cmpA l).
Proof.
  induction l as [|x l IH]; simpl; [reflexivity|].
  now rewrite IH, insertSorted_map.
Qed.

End SortingMap.

Section BasicStatistics.
Import JS Browser Vocabulary.

Lemma Qzero_length {A : Type} (l : list A) :
  l <> [] -> Qzero (inject_Z (Z.of_nat (length l))) = false.
Proof.
  intros Hl; destruct (Qzero _) eqn:Hz; [|reflexivity].
  apply Qeq_bool_eq in Hz; unfold Qeq in Hz; simpl in Hz.
  destruct l; [congruence|simpl in Hz; lia].
Qed.

Lemma divide_by_length {A : Type} (x : Q) (l : list A) :
  l <> [] ->
  divide x (inject_Z (Z.of_nat (length l)))
  = Fin (x / inject_Z (Z.of_nat (length l))).
Proof. intros Hl; unfold divide; now rewrite Qzero_length. Qed.

Lemma avgMetrics_finite (sessions : list Session.InterviewSession) :
  sessions <> [] ->
  ProgressTrackingService.avgMetrics sessions
  = List.map finite (areaAverages sessions).
Proof.
  intros Hs; unfold ProgressTrackingService.avgMetrics, areaAverages,
               averageOf, finite; simpl.
  now rewrite !(divide_by_length _ sessions Hs).
Qed.

Lemma sortedAreas_ranked (sessions : list Session.InterviewSession) :
  sessions <> [] ->
  ProgressTrackingService.sortedAreas sessions
  = List.map finite (sort higherFirst (areaAverages sessions)).
Proof.
  intros Hs; unfold ProgressTrackingService.sortedAreas.
  rewrite (avgMetrics_finite sessions Hs).
  apply sort_map; intros x y; reflexivity.
Qed.



Lemma sumOf_valuesSum {A : Type} (f : A -> Q) (l : list A) :
  (ProgressTrackingService.sumOf f l == valuesSum (List.map f l))%Q.
Proof.
  unfold ProgressTrackingService.sumOf.
  assert (H : forall acc,
             (fold_left (fun sum s => sum + f s) l acc
              == acc + valuesSum (List.map f l))%Q).
  { induction l as [|x l IH]; intros acc; simpl.
    - ring.
    - rewrite IH; ring. }
  rewrite H; ring.
Qed.

Lemma averageOf_areaMean (sessions : list Session.InterviewSession)
      (a : area) :
  (averageOf (snd a) sessions == areaMean sessions a)%Q.
Proof.
  unfold averageOf, areaMean, valuesMean.
  rewrite sumOf_valuesSum, length_map; reflexivity.
Qed.





(** C10. With exactly one record in the log the split point is 0, the
    average of the empty first half counts as 0 and the average of the
    second half is the record's score, so [getProgressStats] reports the
    rounded score of that record as the improvement trend. *)
Theorem single_record_trend (w : world) (record : Session.InterviewSession) :
  valueOf (ProgressTrackingService.getAllSessions w) = Return [record] ->
  ProgressTrackingService.halfPoint [record] = 0%Z
  /\ ProgressTrackingService.firstHalfAvg [record] = Fin 0
  /\ (exists q,
         ProgressTrackingService.secondHalfAvg [record] = Fin q
         /\ (q == Session.overallScore record)%Q)
  /\ exists stats,
      valueOf (ProgressTrackingService.getProgressStats w) = Return stats
      /\ ProgressTrackingService.improvementTrend stats
         = Fin (inject_Z (roundQ (Session.overallScore record))).
Proof.
  intros Hlog.
  rewrite basic_getAllSessions_value in Hlog; injection Hlog as Hlog.
  split; [reflexivity|]; split; [reflexivity|]; split.
  - exists ((0 + Session.overallScore record) / inject_Z 1)%Q.
    split; [reflexivity | field].
  - eexists; split.
    { rewrite basic_getProgressStats_value, Hlog; reflexivity. }
    change (ProgressTrackingService.improvementTrend
              (ProgressTrackingService.statsOf [record]))
      with (Fin (inject_Z
                   (roundQ ((0 + Session.overallScore record) / inject_Z 1
                            - 0)))).
    do 2 f_equal; unfold roundQ; apply Qfloor_comp; field.
Qed.

Lemma single_record_trend_witness :
  valueOf (ProgressTrackingService.getAllSessions
             (worldWithLog [sampleSession 73]))
  = Return [sampleSession 73]
  /\ exists stats,
      valueOf (ProgressTrackingService.getProgressStats
                 (worldWithLog [sampleSession 73]))
      = Return stats
      /\ ProgressTrackingService.improvementTrend stats = Fin 73.
Proof.
  split; [reflexivity|].
  destruct (single_record_trend (worldWithLog [sampleSession 73])
                                (sampleSession 73) eq_refl)
    as (_ & _ & _ & stats & Hstats & Htrend).
  exists stats; split; [exact Hstats | exact Htrend].
Defined.

End BasicStatistics.

(* ================================================================== *)
(** * Properties of the enhanced statistics                           *)
(* ================================================================== *)

Section EnhancedStatistics.
Import JS Browser Vocabulary.

Lemma Qltb_irrefl (x : Q) : Qltb x x = false.
Proof.
  unfold Qltb.
  assert (H : Qle_bool x x = true) by (apply Qle_bool_iff, Qle_refl).
  now rewrite H.
Qed.

(** No record scores more than itself: the rule holds on the empty run
    only. *)
Lemma self_comparison_empty (records : list Detailed.DetailedSession) :
  forallb (fun s => Qltb (Detailed.overallScore s) (Detailed.overallScore s))
          records = true
  <-> records = [].
Proof.
  destruct records as [|s records]; simpl.
  - tauto.
  - rewrite Qltb_irrefl; simpl; split; discriminate.
Qed.

Lemma slice_suffix_nil {A : Type} (c : Z) (l : list A) :
  (0 < c)%Z -> slice (- c) None l = [] <-> l = [].
Proof.
  intros Hc; split.
  - intros Hnil; apply (f_equal (@length A)) in Hnil.
    rewrite length_slice_suffix in Hnil by assumption.
    destruct l; [reflexivity|cbn [length] in Hnil; lia].
  - intros ->; now rewrite slice_suffix.
Qed.

Lemma In_pushIf (cond : bool) (x y : jsstring) (l : list jsstring) :
  In x (EnhancedProgressService.pushIf cond y l)
  <-> In x l \/ (cond = true /\ y = x).
Proof.
  unfold EnhancedProgressService.pushIf; destruct cond.
  - rewrite in_app_iff; simpl; intuition congruence.
  - intuition congruence.
Qed.

(** The rule of the 'Consistent Improver' badge, as the code has it,
    asks every one of the last five records to score strictly more than
    itself.  No record does, so the badge is awarded on the empty log
    only; a log with one record or more, and so every log with five or
    more, never gets it, and neither does any result of
    [getAdvancedStats], which gives no badge at all on the empty log. *)
Theorem consistent_improver_never_awarded :
  (forall sessions,
      In consistentImprover
         (EnhancedProgressService.calculateAchievements sessions)
      <-> sessions = [])
  /\ (forall w, exists stats,
         valueOf (EnhancedProgressService.getAdvancedStats w) = Return stats
         /\ ~ In consistentImprover
                (EnhancedProgressService.achievementBadges stats)).
Proof.
  assert (Hbadge : forall sessions,
             In consistentImprover
                (EnhancedProgressService.calculateAchievements sessions)
             <-> sessions = []).
  { intros sessions.
    unfold EnhancedProgressService.calculateAchievements.
    rewrite !In_pushIf, self_comparison_empty.
    change (-5)%Z with (Z.opp 5); rewrite slice_suffix_nil by lia.
    simpl In.
    split.
    - intros [[[[[[]|[_ H]]|[_ H]]|[_ H]]|[H _]]|[_ H]];
        try exact H; vm_compute in H; discriminate.
    - intros ->; left; right; split; reflexivity. }
  split; [exact Hbadge|].
  intros w; eexists; split; [apply enhanced_getAdvancedStats_value|].
  unfold EnhancedProgressService.statsOf.
  destruct (logOf (enhancedItem w)) as [|s rest] eqn:Hlog.
  - simpl; tauto.
  - change (EnhancedProgressService.lengthOf (s :: rest) =? 0)%Z with false.
    cbn [EnhancedProgressService.achievementBadges].
    rewrite Hbadge; discriminate.
Qed.

(** C2. The code at a log that must earn the badge: five saved
    sessions scoring 10, 20, 30, 40 and 50, each better than the one
    before.  [calculateAchievements] gives 'Committed Practicer' alone,
    and so does [getAdvancedStats] on a storage that holds this log: the
    'Consistent Improver' badge is missing. *)
Theorem consistent_improver_not_awarded_on_five :
  List.map Detailed.overallScore improvingLog = [10; 20; 30; 40; 50]%Q
  /\ (5 <= length improvingLog)%nat
  /\ EnhancedProgressService.calculateAchievements improvingLog
     = [lit "Committed Practicer"]
  /\ ~ In consistentImprover
         (EnhancedProgressService.calculateAchievements improvingLog)
  /\ exists stats,
      valueOf (EnhancedProgressService.getAdvancedStats
                 (worldWithDetailedLog improvingLog))
      = Return stats
      /\ EnhancedProgressService.achievementBadges stats
         = [lit "Committed Practicer"].
Proof.
  split; [reflexivity|]; split; [vm_compute; lia|].
  split; [reflexivity|]; split; [vm_compute; intuition discriminate|].
  eexists; split; [apply enhanced_getAdvancedStats_value|].
  reflexivity.
Qed.

Lemma calculateAverageScore_mean (records : list Detailed.DetailedSession) :
  records <> [] ->
  EnhancedProgressService.calculateAverageScore records
  = Fin (inject_Z (roundQ (meanScore records))).
Proof.
  intros Hr; unfold EnhancedProgressService.calculateAverageScore,
               EnhancedProgressService.lengthOf.
  now rewrite (divide_by_length _ records Hr).
Qed.

Lemma roundQ_difference (x y : Z) :
  roundQ (inject_Z x - inject_Z y) = (x - y)%Z.
Proof.
  rewrite <- (roundQ_inject_Z (x - y)).
  unfold roundQ; apply Qfloor_comp.
  unfold Z.sub; rewrite inject_Z_plus, inject_Z_opp; reflexivity.
Qed.

(** C3 (as the code has it). With fewer than 4 records the trend is 0.
    From 4 records on, q being the whole part of a quarter of their
    number, the trend is the rounded mean score of the last q records
    minus the rounded mean score of the second block of q records from
    the start of the log (the records after the first q). *)
Theorem enhanced_trend_by_blocks (sessions : list Detailed.DetailedSession) :
  let n := length sessions in
  let q := (n / 4)%nat in
  ((n < 4)%nat ->
   EnhancedProgressService.calculateImprovementTrend sessions = Fin 0)
  /\ ((4 <= n)%nat ->
      EnhancedProgressService.calculateImprovementTrend sessions
      = Fin (inject_Z
               (roundQ (meanScore (lastRecords q sessions))
                - roundQ (meanScore (firstn q (skipn q sessions)))))).
Proof.
  intros n q; unfold EnhancedProgressService.calculateImprovementTrend,
                EnhancedProgressService.lengthOf.
  fold n; split; intros Hn.
  - assert (Hlt : (Z.of_nat n <? 4)%Z = true) by (apply Z.ltb_lt; lia).
    now rewrite Hlt.
  - assert (Hge : (Z.of_nat n <? 4)%Z = false) by (apply Z.ltb_ge; lia).
    rewrite Hge; cbv zeta.
    assert (Hq : (Z.of_nat n / 4)%Z = Z.of_nat q)
      by (unfold q; now rewrite Nat2Z.inj_div).
    assert (Hq1 : (1 <= q)%nat)
      by (unfold q; apply Nat.div_le_lower_bound; lia).
    assert (Hq4 : (4 * q <= n)%nat)
      by (unfold q; apply Nat.Div0.mul_div_le).
    rewrite Hq.
    rewrite slice_suffix by lia.
    rewrite slice_block by lia.
    replace (Z.to_nat (Z.of_nat q * 2) - Z.to_nat (Z.of_nat q))%nat
      with q by lia.
    rewrite Nat2Z.id; fold n; fold (lastRecords q sessions).
    rewrite !calculateAverageScore_mean.
    + unfold subtract, Math_round; now rewrite roundQ_difference.
    + intros Hnil; apply (f_equal (@length _)) in Hnil.
      rewrite length_firstn, length_skipn in Hnil; fold n in Hnil.
      simpl in Hnil; lia.
    + intros Hnil; apply (f_equal (@length _)) in Hnil.
      unfold lastRecords in Hnil; rewrite length_skipn in Hnil.
      fold n in Hnil; simpl in Hnil; lia.
Qed.

Lemma enhanced_trend_by_blocks_witness :
  (4 <= length quarterLog)%nat
  /\ EnhancedProgressService.calculateImprovementTrend quarterLog
     = Fin (inject_Z
              (roundQ (meanScore (lastRecords 1 quarterLog))
               - roundQ (meanScore (firstn 1 (skipn 1 quarterLog))))).
Proof.
  assert (Hn : (4 <= length quarterLog)%nat) by (simpl; lia).
  split; [exact Hn|].
  exact (proj2 (enhanced_trend_by_blocks quarterLog) Hn).
Defined.

(** C3 (as stated) fails twice over.  On four sessions scoring 0, 100,
    0, 0 the code subtracts the 2nd score, not the 3rd, and reports -100
    where the claim gives 0.  On eight sessions whose 3rd and 4th score
    like the 5th and 6th the two means are rounded before they are
    subtracted, and the code reports 0 where the claim gives 1. *)
Lemma enhanced_trend_not_previous_quarter :
  (EnhancedProgressService.calculateImprovementTrend quarterLog = Fin (-100)
   /\ trendAsClaimed quarterLog = Fin 0
   /\ EnhancedProgressService.calculateImprovementTrend quarterLog
      <> trendAsClaimed quarterLog)
  /\ (EnhancedProgressService.calculateImprovementTrend roundingLog = Fin 0
      /\ trendAsClaimed roundingLog = Fin 1
      /\ EnhancedProgressService.calculateImprovementTrend roundingLog
         <> trendAsClaimed roundingLog).
Proof.
  repeat split; try (vm_compute; reflexivity); vm_compute; discriminate.
Qed.

End EnhancedStatistics.

(* ================================================================== *)
(** * Further properties of the analysis                              *)
(* ================================================================== *)

Section AnalysisDispatch.
Import JS AnalysisEngine Browser AnalyzeInterview Vocabulary.

Lemma isBlank_blank (t : jsstring) : isBlank t = true <-> blank t.
Proof.
  unfold isBlank, blank; rewrite forallb_forall, List.Forall_forall.
  reflexivity.
Qed.

Lemma blank_test (t : jsstring) :
  negb (truthyString t) || (length (trim t) =? 0)%nat = isBlank t.
Proof.
  destruct (isBlank t) eqn:Hb.
  - apply isBlank_blank in Hb; rewrite (trim_blank t Hb); simpl.
    apply orb_true_r.
  - assert (Hn : ~ blank t)
      by (intros H; apply isBlank_blank in H; congruence).
    destruct t as [|c t]; [exfalso; apply Hn; constructor|].
    destruct (trim (c :: t)) as [|c' t'] eqn:Ht.
    + exfalso; apply Hn; now apply trim_nil_blank.
    + reflexivity.
Qed.

Lemma afterAnalysis_nothing (w : world) : afterAnalysis w [] [] = w.
Proof.
  destruct w; unfold afterAnalysis; simpl; now rewrite !app_nil_r.
Qed.

(** The four ways through [analyzeInterview]. *)
Lemma analyzeInterview_cases (t : jsstring) (d : Q)
      (qt : option jsstring) (w : world) :
  analyzeInterview t d qt w
  = if isBlank t
    then (Return (createFallbackAnalysis d qt), w)
    else if aiConfigured w
         then match aiService w t d qt with
              | Return a =>
                  (Return {| transcript := t;
                             duration := d;
                             metrics := remoteMetrics a;
                             feedback := remoteFeedback a;
                             aiPowered := true |},
                   afterAnalysis w [usingRemoteLine; clientAnalyzingLine]
                                 [(t, d, qt)])
              | Throw e =>
                  (Return (createBasicAnalysis t d qt),
                   afterAnalysis w
                                 [usingRemoteLine; clientAnalyzingLine;
                                  clientFailedLine e;
                                  remoteFailedLine (AnalysisFailed e)]
                                 [(t, d, qt)])
              end
         else (Return (createBasicAnalysis t d qt),
               afterAnalysis w [notConfiguredLine] []).
Proof.
  unfold analyzeInterview; rewrite blank_test.
  destruct (isBlank t); [reflexivity|].
  unfold remoteAnalyze, exchange, bind, isConfigured, tryCatch, console_log,
    console_warn, console_error, writeLine, ret, throw, afterAnalysis;
    simpl.
  destruct (aiConfigured w) eqn:Hc; simpl.
  - destruct (aiService w t d qt) as [a|e]; simpl; rewrite ?Hc;
      rewrite <- ?app_assoc; reflexivity.
  - now rewrite Hc, app_nil_r.
Qed.

(** X1. [analyzeInterview] always returns a result, whatever the remote
    service does: it never throws and never touches the storage.  The
    result echoes the duration, and it is marked [aiPowered] exactly when
    the transcript is not blank, the service is configured and its
    request resolved. *)
Theorem analyzeInterview_always_returns
        (t : jsstring) (d : Q) (qt : option jsstring) (w : world) :
  exists result,
    valueOf (analyzeInterview t d qt w) = Return result
    /\ duration result = d
    /\ (aiPowered result = true
        <-> isBlank t = false
            /\ aiConfigured w = true
            /\ exists a, aiService w t d qt = Return a)
    /\ basicItem (worldOf (analyzeInterview t d qt w)) = basicItem w
    /\ enhancedItem (worldOf (analyzeInterview t d qt w)) = enhancedItem w.
Proof.
  rewrite analyzeInterview_cases.
  destruct (isBlank t) eqn:Hb.
  { eexists; split; [reflexivity|]; split; [reflexivity|].
    split; [|split; reflexivity].
    simpl; split; [discriminate|]. intros (Hx & _); discriminate. }
  destruct (aiConfigured w) eqn:Hc.
  - destruct (aiService w t d qt) as [a|e] eqn:Ha.
    + eexists; split; [reflexivity|]; split; [reflexivity|].
      split; [|split; reflexivity].
      simpl; split; [|reflexivity].
      intros _; repeat split; now exists a.
    + eexists; split; [reflexivity|]; split; [reflexivity|].
      split; [|split; reflexivity].
      simpl; split; [discriminate|].
      intros (_ & _ & a & Hx); discriminate.
  - eexists; split; [reflexivity|]; split; [reflexivity|].
    split; [|split; reflexivity].
    simpl; split; [discriminate|].
    intros (_ & Hx & _); discriminate.
Qed.

(** X2. For a transcript that is not blank, when the service is not
    configured or the exchange with it fails, the result is the
    rule-based analysis of the same arguments.  An unconfigured service
    leaves one warning on the console and no request.  A failed exchange
    leaves one request and four lines: the announcement of
    [analyzeInterview], the announcement of the client, the client's
    error line that carries the failure, and the error line of
    [analyzeInterview], which carries the error the client threw in its
    place. *)
Theorem analysis_falls_back_to_rules
        (t : jsstring) (d : Q) (qt : option jsstring) (w : world) :
  isBlank t = false ->
  aiConfigured w = false \/ (exists e, aiService w t d qt = Throw e) ->
  valueOf (analyzeInterview t d qt w) = Return (createBasicAnalysis t d qt)
  /\ (aiConfigured w = false ->
      worldOf (analyzeInterview t d qt w)
      = afterAnalysis w [notConfiguredLine] [])
  /\ (forall e,
         aiConfigured w = true ->
         aiService w t d qt = Throw e ->
         worldOf (analyzeInterview t d qt w)
         = afterAnalysis w
                         [usingRemoteLine; clientAnalyzingLine;
                          clientFailedLine e;
                          remoteFailedLine (AnalysisFailed e)]
                         [(t, d, qt)]).
Proof.
  intros Hb Hw; rewrite analyzeInterview_cases, Hb.
  destruct (aiConfigured w) eqn:Hc.
  - destruct Hw as [Hw|[e He]]; [discriminate|].
    rewrite He; repeat split; try discriminate.
    intros e' _ He'; injection He' as <-; reflexivity.
  - repeat split; discriminate.
Qed.

Lemma analysis_falls_back_to_rules_witness :
  isBlank (lit "I led a team.") = false
  /\ (aiConfigured quietWorld = false
      \/ exists e, aiService quietWorld (lit "I led a team.") 12 None
                   = Throw e)
  /\ valueOf (analyzeInterview (lit "I led a team.") 12 None quietWorld)
     = Return (createBasicAnalysis (lit "I led a team.") 12 None)
  /\ console (worldOf (analyzeInterview (lit "I led a team.") 12 None
                                        quietWorld))
     = [usingRemoteLine; clientAnalyzingLine;
        clientFailedLine (RemoteError (lit "offline"));
        remoteFailedLine (AnalysisFailed (RemoteError (lit "offline")))].
Proof.
  assert (Hw : aiConfigured quietWorld = false
               \/ exists e, aiService quietWorld (lit "I led a team.") 12 None
                            = Throw e)
    by (right; exists (RemoteError (lit "offline")); reflexivity).
  split; [reflexivity|]; split; [exact Hw|].
  destruct (analysis_falls_back_to_rules
              (lit "I led a team.") 12 None quietWorld eq_refl Hw)
    as (Hvalue & _ & Hfailed).
  split; [exact Hvalue|].
  now rewrite (Hfailed (RemoteError (lit "offline")) eq_refl eq_refl).
Defined.

(** X3. The remote service is asked at most once per call, with the
    caller's own arguments, and only for a transcript that is not blank
    when the service is configured.  When its request resolves the
    result carries the service's metrics and feedback as they are,
    with the caller's transcript and duration. *)
Theorem remote_service_asked_once
        (t : jsstring) (d : Q) (qt : option jsstring) (w : world) :
  aiRequests (worldOf (analyzeInterview t d qt w))
  = aiRequests w
    ++ (if negb (isBlank t) && aiConfigured w then [(t, d, qt)] else [])
  /\ (forall a,
         isBlank t = false ->
         aiConfigured w = true ->
         aiService w t d qt = Return a ->
         valueOf (analyzeInterview t d qt w)
         = Return {| transcript := t;
                     duration := d;
                     metrics := remoteMetrics a;
                     feedback := remoteFeedback a;
                     aiPowered := true |}).
Proof.
  rewrite analyzeInterview_cases; split.
  - destruct (isBlank t); simpl; [now rewrite app_nil_r|].
    destruct (aiConfigured w); simpl; [|reflexivity].
    destruct (aiService w t d qt); reflexivity.
  - intros a -> -> ->; reflexivity.
Qed.

Lemma remote_service_asked_once_witness :
  isBlank (lit "I led a team.") = false
  /\ aiConfigured helpfulWorld = true
  /\ metrics (match valueOf (analyzeInterview (lit "I led a team.") 12 None
                                              helpfulWorld) with
              | Return result => result
              | Throw _ => createFallbackAnalysis 12 None
              end)
     = sampleMetrics.
Proof.
  split; [reflexivity|]; split; [reflexivity|].
  rewrite (proj2 (remote_service_asked_once
                    (lit "I led a team.") 12 None helpfulWorld)
                 _ eq_refl eq_refl eq_refl).
  reflexivity.
Defined.

End AnalysisDispatch.

Section Words.
Import JS AnalysisEngine Vocabulary.

Lemma splitRuns_pieces (sep : code_unit -> bool) (s : jsstring) :
  forall (inRun : bool) (cur : jsstring),
    Forall (fun c => sep c = false) cur ->
    Forall (fun piece => Forall (fun c => sep c = false) piece)
           (splitRuns sep inRun cur s).
Proof.
  induction s as [|c s IH]; intros inRun cur Hcur; simpl.
  - constructor; [now apply Forall_rev | constructor].
  - destruct (sep c) eqn:Hc.
    + destruct inRun.
      * apply IH; constructor.
      * constructor; [now apply Forall_rev | apply IH; constructor].
    + apply IH; now constructor.
Qed.

Lemma matchesAt_In (pat s : jsstring) :
  matchesAt sameUnit pat s = true -> forall p, In p pat -> In p s.
Proof.
  revert s; induction pat as [|q pat IH]; intros s Hm p Hp; [destruct Hp|].
  destruct s as [|c s]; simpl in Hm; [discriminate|].
  apply andb_true_iff in Hm as [Hq Hm].
  apply N.eqb_eq in Hq; subst c.
  destruct Hp as [->|Hp]; [now left | right; eauto].
Qed.

Lemma occursIn_In (pat s : jsstring) :
  occursIn sameUnit pat s = true -> forall p, In p pat -> In p s.
Proof.
  induction s as [|c s IH]; simpl; intros Ho p Hp.
  - rewrite orb_false_r in Ho; exact (matchesAt_In pat [] Ho p Hp).
  - apply orb_true_iff in Ho as [Hm|Ho].
    + exact (matchesAt_In pat (c :: s) Hm p Hp).
    + right; eauto.
Qed.

Lemma words_pieces (t : jsstring) :
  Forall (fun word =>
            word <> [] /\ Forall (fun c => isWhiteSpace c = false) word)
         (words t).
Proof.
  unfold words, splitOnRuns.
  assert (Hp := splitRuns_pieces isWhiteSpace (toLowerCase t) false []
                                 (List.Forall_nil _)).
  rewrite List.Forall_forall in *; intros word Hin.
  apply filter_In in Hin as [Hin Hlen].
  split; [|now apply Hp].
  destruct word; [discriminate | discriminate].
Qed.

(** X4. Every word the analysis counts is a non-empty piece of the
    lowered transcript without white space in it.  The filler
    'you know', which has a space, is therefore never found in a word:
    the count of fillers is what the six one-word fillers give. *)
Theorem two_word_filler_never_counts (t : jsstring) :
  Forall (fun word =>
            word <> [] /\ Forall (fun c => isWhiteSpace c = false) word)
         (words t)
  /\ (forall word, In word (words t) -> includes word (lit "you know") = false)
  /\ fillerWordCount t
     = Z.of_nat
         (length
            (List.filter
               (fun word =>
                  existsb (fun filler => includes word filler)
                          [lit "um"; lit "uh"; lit "like"; lit "so";
                           lit "actually"; lit "basically"])
               (words t))).
Proof.
  assert (Hw := words_pieces t).
  assert (Hyou : forall word, In word (words t) ->
                              includes word (lit "you know") = false).
  { intros word Hin.
    rewrite List.Forall_forall in Hw; destruct (Hw word Hin) as [_ Hws].
    destruct (includes word (lit "you know")) eqn:Hi; [|reflexivity].
    assert (Hsp : In 32%N word)
      by (apply (occursIn_In _ _ Hi); vm_compute; tauto).
    rewrite List.Forall_forall in Hws; specialize (Hws _ Hsp).
    discriminate. }
  split; [exact Hw|]; split; [exact Hyou|].
  unfold fillerWordCount; do 2 f_equal.
  apply filter_ext_in; intros word Hin.
  unfold fillerWordList; cbn [existsb].
  now rewrite (Hyou word Hin).
Qed.

Lemma Math_max_ge_1 (x : Q) : (1 <= Math_max x 1)%Q.
Proof.
  unfold Math_max, Qltb.
  destruct (Qle_bool 1 x) eqn:Hx; simpl.
  - now apply Qle_bool_iff.
  - apply Qle_refl.
Qed.

Lemma roundQ_le (x y : Q) : (x <= y)%Q -> (roundQ x <= roundQ y)%Z.
Proof.
  intros Hxy; unfold roundQ; apply Qfloor_resp_le.
  apply Qplus_le_l; exact Hxy.
Qed.

Lemma quotient_bounds (n : Z) (m : Q) :
  (0 <= n)%Z -> (1 <= m)%Q ->
  (0 <= inject_Z n / m /\ inject_Z n / m <= inject_Z n)%Q.
Proof.
  intros Hn Hm.
  assert (Hn' : (0 <= inject_Z n)%Q)
    by (change 0%Q with (inject_Z 0); now rewrite <- Zle_Qle).
  assert (Hpos : (0 < m)%Q) by lra.
  split.
  - apply Qle_shift_div_l; [exact Hpos|]. lra.
  - apply Qle_shift_div_r; [exact Hpos|]. nra.
Qed.

(** X5. The fillers counted are never more than the words, and the
    words per minute are never more than the words either, whatever the
    duration: the minutes are taken to be at least one. *)
Theorem word_measures_bounded (t : jsstring) (d : Q) :
  (0 <= fillerWordCount t <= wordCount t)%Z
  /\ (0 <= wordsPerMinuteOf t d <= wordCount t)%Z.
Proof.
  split.
  - unfold fillerWordCount, wordCount.
    assert (H := filter_length_le
                   (fun word => existsb (fun filler => includes word filler)
                                        fillerWordList)
                   (words t)).
    lia.
  - unfold wordsPerMinuteOf.
    assert (Hn : (0 <= wordCount t)%Z) by (unfold wordCount; lia).
    destruct (quotient_bounds (wordCount t) (durationInMinutes d) Hn
                              (Math_max_ge_1 _)) as [Hlo Hhi].
    apply roundQ_le in Hlo, Hhi.
    rewrite roundQ_inject_Z in Hhi.
    change 0%Q with (inject_Z 0) in Hlo; rewrite roundQ_inject_Z in Hlo.
    lia.
Qed.

(** X6. For a recording of at most one minute (60 seconds, and any
    shorter or even negative duration) the words per minute are the
    number of words. *)
Theorem short_recording_rate (t : jsstring) (d : Q) :
  (d <= 60)%Q -> wordsPerMinuteOf t d = wordCount t.
Proof.
  intros Hd; unfold wordsPerMinuteOf.
  rewrite <- (roundQ_inject_Z (wordCount t)) at 2.
  unfold roundQ; apply Qfloor_comp.
  assert (Hm : (durationInMinutes d == 1)%Q).
  { unfold durationInMinutes, Math_max, Qltb.
    destruct (Qle_bool 1 (d / 60)) eqn:Hx; simpl; [|reflexivity].
    apply Qle_bool_iff in Hx.
    assert (Hle : (d / 60 <= 1)%Q)
      by (apply Qle_shift_div_r; [reflexivity | lra]).
    now apply Qle_antisym. }
  rewrite Hm; field.
Qed.

Lemma short_recording_rate_witness :
  (45 <= 60)%Q
  /\ wordsPerMinuteOf sampleTranscript 45 = wordCount sampleTranscript.
Proof.
  assert (Hd : (45 <= 60)%Q) by (unfold Qle; simpl; lia).
  split; [exact Hd | exact (short_recording_rate sampleTranscript 45 Hd)].
Defined.

(** X7. Each score of the rule-based analysis is a whole number, at
    least its base (50, or 60 for professionalism) and at most 100: a
    transcript that reaches the rules never scores as low as the
    all-zero result of a silent recording. *)
Theorem rule_scores_whole_and_floored
        (t : jsstring) (d : Q) (qt : option jsstring) :
  let m := metrics (createBasicAnalysis t d qt) in
  exists confidence clarity professionalism relevance : Z,
    confidenceScore m = inject_Z confidence
    /\ clarityScore m = inject_Z clarity
    /\ professionalismScore m = inject_Z professionalism
    /\ relevanceScore m = inject_Z relevance
    /\ (50 <= confidence <= 100)%Z
    /\ (50 <= clarity <= 100)%Z
    /\ (60 <= professionalism <= 100)%Z
    /\ (50 <= relevance <= 100)%Z.
Proof.
  destruct (raw_scores_bounds t) as (Hc & Hl & Hp & Hr).
  exists (Z.min (rawConfidence t) 100), (Z.min (rawClarity t) 100),
    (Z.min (rawProfessionalism t) 100), (Z.min (rawRelevance t) 100).
  simpl; rewrite !capped_inject.
  repeat split; lia.
Qed.

End Words.

Section ClientMeasures.
Import JS AnalysisEngine OpenAIClient Vocabulary.

Lemma isWhiteSpace_true (c : code_unit) :
  isWhiteSpace c = true
  <-> (9 <= c <= 13 \/ c = 32 \/ c = 160 \/ c = 5760 \/ 8192 <= c <= 8202
       \/ c = 8232 \/ c = 8233 \/ c = 8239 \/ c = 8287 \/ c = 12288
       \/ c = 65279)%N.
Proof.
  unfold isWhiteSpace, in_range.
  rewrite !orb_true_iff, !andb_true_iff, !N.leb_le, !N.eqb_eq.
  tauto.
Qed.

Lemma isWhiteSpace_false (c : code_unit) :
  ~ (9 <= c <= 13 \/ c = 32 \/ c = 160 \/ c = 5760 \/ 8192 <= c <= 8202
     \/ c = 8232 \/ c = 8233 \/ c = 8239 \/ c = 8287 \/ c = 12288
     \/ c = 65279)%N ->
  isWhiteSpace c = false.
Proof.
  intros Hn; destruct (isWhiteSpace c) eqn:Hc; [|reflexivity].
  now apply isWhiteSpace_true in Hc.
Qed.

Lemma in_range_true (lo hi c : N) :
  in_range lo hi c = true <-> (lo <= c <= hi)%N.
Proof.
  unfold in_range; now rewrite andb_true_iff, !N.leb_le.
Qed.

(** Lowering leaves white space alone and turns any other code unit
    into one or two code units that are not white space. *)
Lemma lowerUnit_cases (c : code_unit) :
  if isWhiteSpace c
  then lowerUnit c = [c]
  else lowerUnit c <> []
       /\ Forall (fun u => isWhiteSpace u = false) (lowerUnit c).
Proof.
  destruct (isWhiteSpace c) eqn:Hw.
  - apply isWhiteSpace_true in Hw; unfold lowerUnit.
    destruct (in_range 65 90 c) eqn:H1;
      [apply in_range_true in H1; lia|].
    destruct (in_range 192 222 c) eqn:H2;
      [apply in_range_true in H2; lia|].
    destruct (N.eqb_spec c 304); [lia|].
    destruct (N.eqb_spec c 8490); [lia|].
    reflexivity.
  - unfold lowerUnit.
    destruct (in_range 65 90 c) eqn:H1.
    { apply in_range_true in H1; split; [discriminate|].
      repeat constructor; apply isWhiteSpace_false; lia. }
    destruct (in_range 192 222 c && negb (c =? 215)%N) eqn:H2.
    { apply andb_true_iff in H2 as [H2 _]; apply in_range_true in H2.
      split; [discriminate|].
      repeat constructor; apply isWhiteSpace_false; lia. }
    destruct (N.eqb_spec c 304).
    { split; [discriminate | repeat constructor]. }
    destruct (N.eqb_spec c 8490).
    { split; [discriminate | repeat constructor]. }
    split; [discriminate | repeat constructor; exact Hw].
Qed.

Lemma splitRuns_count (sep : code_unit -> bool) (s : jsstring) :
  forall (inRun : bool) (cur : jsstring),
    (inRun = true -> cur = []) ->
    length (List.filter nonEmpty (splitRuns sep inRun cur s))
    = (countRuns sep (nonEmpty cur) s + if nonEmpty cur then 1 else 0)%nat.
Proof.
  induction s as [|c s IH]; intros inRun cur Hrun; simpl.
  - unfold nonEmpty; rewrite length_rev.
    destruct (0 <? length cur)%nat; reflexivity.
  - destruct (sep c) eqn:Hc.
    + destruct inRun.
      * rewrite (Hrun eq_refl), IH by reflexivity.
        change (nonEmpty []) with false; reflexivity.
      * simpl; unfold nonEmpty at 1; rewrite length_rev.
        fold (nonEmpty cur).
        destruct (nonEmpty cur); simpl; rewrite IH by reflexivity;
          change (nonEmpty []) with false; simpl; lia.
    + rewrite IH by discriminate.
      change (nonEmpty (c :: cur)) with true.
      destruct (nonEmpty cur); lia.
Qed.

Lemma countRuns_word_prefix (sep : code_unit -> bool) (run rest : jsstring)
      (inWord : bool) :
  run <> [] ->
  Forall (fun c => sep c = false) run ->
  countRuns sep inWord (run ++ rest)
  = ((if inWord then 0 else 1) + countRuns sep true rest)%nat.
Proof.
  intros Hne Hrun; revert inWord.
  induction Hrun as [|c run Hc Hrun IH]; intros inWord; [congruence|].
  simpl; rewrite Hc.
  destruct run as [|c' run]; [reflexivity|].
  rewrite IH by discriminate; reflexivity.
Qed.

Lemma countRuns_blank (sep : code_unit -> bool) (ws : jsstring)
      (inWord : bool) :
  Forall (fun c => sep c = true) ws -> countRuns sep inWord ws = 0%nat.
Proof.
  intros Hws; revert inWord.
  induction Hws as [|c ws Hc _ IH]; intros inWord; simpl; [reflexivity|].
  rewrite Hc; apply IH.
Qed.

Lemma countRuns_blank_suffix (sep : code_unit -> bool) (s ws : jsstring)
      (inWord : bool) :
  Forall (fun c => sep c = true) ws ->
  countRuns sep inWord (s ++ ws) = countRuns sep inWord s.
Proof.
  intros Hws; revert inWord; induction s as [|c s IH]; intros inWord; simpl.
  - now apply countRuns_blank.
  - destruct (sep c); now rewrite IH.
Qed.

Lemma countRuns_blank_prefix (sep : code_unit -> bool) (ws s : jsstring) :
  Forall (fun c => sep c = true) ws ->
  countRuns sep false (ws ++ s) = countRuns sep false s.
Proof.
  induction 1 as [|c ws Hc _ IH]; simpl; [reflexivity|].
  now rewrite Hc.
Qed.

Lemma trimStart_prefix (s : jsstring) :
  exists ws, blank ws /\ s = ws ++ trimStart s.
Proof.
  induction s as [|c s (ws & Hws & Hs)]; simpl.
  - exists []; split; [constructor | reflexivity].
  - destruct (isWhiteSpace c) eqn:Hc.
    + exists (c :: ws); split; [now constructor|].
      simpl; now rewrite <- Hs.
    + exists []; split; [constructor | reflexivity].
Qed.

Lemma countRuns_trim (s : jsstring) :
  countRuns isWhiteSpace false (trim s) = countRuns isWhiteSpace false s.
Proof.
  unfold trim.
  destruct (trimStart_prefix s) as (ws1 & Hws1 & Hs).
  destruct (trimStart_prefix (rev (trimStart s))) as (ws2 & Hws2 & Hr).
  rewrite Hs at 2; rewrite (countRuns_blank_prefix _ _ _ Hws1).
  apply (f_equal (@rev _)) in Hr; rewrite rev_involutive, rev_app_distr in Hr.
  rewrite Hr at 2.
  symmetry; apply countRuns_blank_suffix.
  now apply Forall_rev.
Qed.

Lemma countRuns_toLowerCase (s : jsstring) (inWord : bool) :
  countRuns isWhiteSpace inWord (toLowerCase s)
  = countRuns isWhiteSpace inWord s.
Proof.
  revert inWord; induction s as [|c s IH]; intros inWord; [reflexivity|].
  unfold toLowerCase; cbn [flat_map]; fold (toLowerCase s).
  assert (Hc := lowerUnit_cases c).
  simpl countRuns at 2.
  destruct (isWhiteSpace c) eqn:Hw.
  - rewrite Hc; simpl; now rewrite Hw, IH.
  - destruct Hc as [Hne Hrun].
    now rewrite (countRuns_word_prefix _ _ _ _ Hne Hrun), IH.
Qed.

Lemma word_count_runs (s : jsstring) :
  length (List.filter nonEmpty (splitOnRuns isWhiteSpace s))
  = countRuns isWhiteSpace false s.
Proof.
  unfold splitOnRuns; rewrite splitRuns_count by discriminate.
  change (nonEmpty []) with false; cbv iota; lia.
Qed.

(** X8. The words per minute that the remote client computes for its
    request are those of the rule-based analysis, for every transcript
    and duration: trimming the transcript or lowering its case does not
    change where its words begin and end. *)
Theorem client_rate_agrees (t : jsstring) (d : Q) :
  calculateWPM t d = wordsPerMinuteOf t d.
Proof.
  unfold calculateWPM, wordsPerMinuteOf, wordCount, words, durationInMinutes.
  fold nonEmpty.
  now rewrite !word_count_runs, countRuns_trim, countRuns_toLowerCase.
Qed.

Lemma filter_filter_le {A : Type} (p q r : A -> bool) (l : list A) :
  (forall x, r x = true -> p x = true -> q x = true) ->
  (length (List.filter p (List.filter r l)) <= length (List.filter q l))%nat.
Proof.
  intros Hpq; induction l as [|x l IH]; simpl; [lia|].
  destruct (r x) eqn:Hr; simpl.
  - destruct (p x) eqn:Hp; simpl.
    + rewrite (Hpq x Hr Hp); simpl; lia.
    + destruct (q x); simpl; lia.
  - destruct (q x); simpl; lia.
Qed.

Lemma filter_le {A : Type} (p q : A -> bool) (l : list A) :
  (forall x, p x = true -> q x = true) ->
  (length (List.filter p l) <= length (List.filter q l))%nat.
Proof.
  intros Hpq; induction l as [|x l IH]; simpl; [lia|].
  destruct (p x) eqn:Hp; simpl.
  - rewrite (Hpq x Hp); simpl; lia.
  - destruct (q x); simpl; lia.
Qed.

(** X9. The remote client looks for three fillers more than the
    rule-based analysis ('literally', 'right', 'okay'), so its count of
    fillers is at least the rule-based one; neither is more than the
    number of words, an empty piece of the split never holding a
    filler. *)
Theorem client_fillers_at_least (t : jsstring) :
  (fillerWordCount t <= countFillerWords t <= wordCount t)%Z.
Proof.
  unfold fillerWordCount, countFillerWords, wordCount, words.
  split; apply inj_le.
  - apply filter_filter_le; intros word _ Hw.
    unfold fillerWordList in Hw; cbn [existsb] in *.
    repeat (apply orb_true_iff in Hw as [Hw|Hw];
            [rewrite Hw; rewrite ?orb_true_r; reflexivity|]).
    discriminate.
  - apply filter_le; intros word Hw.
    destruct word; [vm_compute in Hw; discriminate | reflexivity].
Qed.

End ClientMeasures.

(* ================================================================== *)
(** * Further properties of the trackers                              *)
(* ================================================================== *)

Section TrackerOperations.
Import JS Browser Vocabulary.




(** X11. The two trackers keep apart: saving to or clearing the one
    leaves what the other reads unchanged, and reading changes neither
    log. *)
Theorem trackers_keep_apart
        (w : world)
        (session : Session.InterviewSession)
        (detailed : Detailed.DetailedSession)
        (newId newDate : jsstring) :
  (valueOf (EnhancedProgressService.getAllSessions
              (worldOf (ProgressTrackingService.saveSession
                          session newId newDate w)))
   = valueOf (EnhancedProgressService.getAllSessions w)
   /\ valueOf (EnhancedProgressService.getAllSessions
                 (worldOf (ProgressTrackingService.clearAllData w)))
      = valueOf (EnhancedProgressService.getAllSessions w))
  /\ (valueOf (ProgressTrackingService.getAllSessions
                 (worldOf (EnhancedProgressService.saveDetailedSession
                             detailed newId newDate w)))
      = valueOf (ProgressTrackingService.getAllSessions w)
      /\ valueOf (ProgressTrackingService.getAllSessions
                    (worldOf (EnhancedProgressService.clearAllData w)))
         = valueOf (ProgressTrackingService.getAllSessions w))
  /\ (valueOf (ProgressTrackingService.getAllSessions
                 (worldOf (ProgressTrackingService.getAllSessions w)))
      = valueOf (ProgressTrackingService.getAllSessions w)
      /\ valueOf (EnhancedProgressService.getAllSessions
                    (worldOf (EnhancedProgressService.getAllSessions w)))
         = valueOf (EnhancedProgressService.getAllSessions w)
      /\ valueOf (EnhancedProgressService.getAllSessions
                    (worldOf (ProgressTrackingService.getProgressStats w)))
         = valueOf (EnhancedProgressService.getAllSessions w)
      /\ valueOf (ProgressTrackingService.getAllSessions
                    (worldOf (EnhancedProgressService.getAdvancedStats w)))
         = valueOf (ProgressTrackingService.getAllSessions w)).
Proof.
  rewrite !basic_getAllSessions_value, !enhanced_getAllSessions_value.
  assert (Hbs : enhancedItem
                  (worldOf (ProgressTrackingService.saveSession
                              session newId newDate w))
                = enhancedItem w).
  { unfold ProgressTrackingService.saveSession, bind.
    rewrite basic_getAllSessions_cases.
    destruct (basicItem w) as [[records|[|c text]]|]; reflexivity. }
  assert (Hes : basicItem
                  (worldOf (EnhancedProgressService.saveDetailedSession
                              detailed newId newDate w))
                = basicItem w).
  { unfold EnhancedProgressService.saveDetailedSession, bind.
    rewrite enhanced_getAllSessions_cases.
    destruct (enhancedItem w) as [[records|[|c text]]|]; reflexivity. }
  assert (Hbg : enhancedItem
                  (worldOf (ProgressTrackingService.getProgressStats w))
                = enhancedItem w).
  { unfold ProgressTrackingService.getProgressStats, bind.
    rewrite basic_getAllSessions_cases.
    destruct (basicItem w) as [[records|[|c text]]|]; reflexivity. }
  assert (Heg : basicItem
                  (worldOf (EnhancedProgressService.getAdvancedStats w))
                = basicItem w).
  { unfold EnhancedProgressService.getAdvancedStats, bind.
    rewrite enhanced_getAllSessions_cases.
    destruct (enhancedItem w) as [[records|[|c text]]|]; reflexivity. }
  rewrite Hbs, Hes, Hbg, Heg.
  rewrite basic_getAllSessions_storage, enhanced_getAllSessions_storage.
  repeat split.
Qed.

End TrackerOperations.

Section ScoreBounds.
Import JS Browser Vocabulary.

Lemma inject_Z_length_succ {A : Type} (x : A) (l : list A) :
  (inject_Z (Z.of_nat (length (x :: l)))
   == inject_Z (Z.of_nat (length l)) + 1)%Q.
Proof.
  simpl length; rewrite Nat2Z.inj_succ; unfold Z.succ.
  now rewrite inject_Z_plus.
Qed.

Lemma fold_sum_bounds {A : Type} (f : A -> Q) (l : list A) (a : Q) :
  Forall (fun x => inScoreRange (f x)) l ->
  (a <= fold_left (fun acc x => acc + f x) l a
   /\ fold_left (fun acc x => acc + f x) l a
      <= a + 100 * inject_Z (Z.of_nat (length l)))%Q.
Proof.
  intros Hl; revert a; induction Hl as [|x l [Hlo Hhi] _ IH]; intros a.
  - cbn [length fold_left]; change (inject_Z (Z.of_nat 0)) with 0%Q.
    split; lra.
  - cbn [fold_left]; destruct (IH (a + f x)%Q) as [IHlo IHhi].
    rewrite inject_Z_length_succ; split; lra.
Qed.

Lemma length_positive {A : Type} (l : list A) :
  l <> [] -> (0 < inject_Z (Z.of_nat (length l)))%Q.
Proof.
  intros Hl; change 0%Q with (inject_Z 0); rewrite <- Zlt_Qlt.
  destruct l; [congruence | simpl; lia].
Qed.

Lemma mean_in_range {A : Type} (f : A -> Q) (l : list A) :
  l <> [] ->
  Forall (fun x => inScoreRange (f x)) l ->
  inScoreRange (fold_left (fun acc x => acc + f x) l 0
                / inject_Z (Z.of_nat (length l)))%Q.
Proof.
  intros Hne Hl; destruct (fold_sum_bounds f l 0 Hl) as [Hlo Hhi].
  assert (Hn := length_positive l Hne).
  split.
  - apply Qle_shift_div_l; [exact Hn | lra].
  - apply Qle_shift_div_r; [exact Hn | lra].
Qed.

Lemma roundQ_in_range (q : Q) :
  inScoreRange q -> (0 <= roundQ q <= 100)%Z.
Proof.
  intros [Hlo Hhi]; apply roundQ_le in Hlo, Hhi.
  change 0%Q with (inject_Z 0) in Hlo; change 100%Q with (inject_Z 100) in Hhi.
  rewrite roundQ_inject_Z in Hlo, Hhi; lia.
Qed.

Lemma roundQ_difference_range (x y : Q) :
  inScoreRange x -> inScoreRange y -> (-100 <= roundQ (x - y) <= 100)%Z.
Proof.
  intros [Hx0 Hx1] [Hy0 Hy1].
  assert (Hlo : (inject_Z (-100) <= x - y)%Q)
    by (change (inject_Z (-100)) with (-100)%Q; lra).
  assert (Hhi : (x - y <= inject_Z 100)%Q)
    by (change (inject_Z 100) with 100%Q; lra).
  apply roundQ_le in Hlo, Hhi; rewrite roundQ_inject_Z in Hlo, Hhi; lia.
Qed.

Lemma Forall_slice {A : Type} (P : A -> Prop) (a : Z) (b : option Z)
      (l : list A) :
  Forall P l -> Forall P (slice a b l).
Proof.
  intros Hl; unfold slice; apply Forall_take, Forall_drop, Hl.
Qed.

Lemma halfPoint_nat (l : list Session.InterviewSession) :
  ProgressTrackingService.halfPoint l = Z.of_nat (length l / 2).
Proof.
  unfold ProgressTrackingService.halfPoint; now rewrite Nat2Z.inj_div.
Qed.

Lemma secondHalfAvg_mean (l : list Session.InterviewSession) :
  l <> [] ->
  ProgressTrackingService.secondHalfAvg l
  = Fin (basicMean (skipn (length l / 2) l)).
Proof.
  intros Hl; unfold ProgressTrackingService.secondHalfAvg, basicMean.
  rewrite halfPoint_nat, slice_from, Nat2Z.id by lia.
  assert (Hlen : (Z.of_nat (length l) - Z.of_nat (length l / 2))%Z
                 = Z.of_nat (length (skipn (length l / 2) l))).
  { rewrite length_skipn.
    assert (length l / 2 <= length l)%nat by (apply Nat.Div0.div_le_upper_bound; lia).
    lia. }
  rewrite Hlen; apply divide_by_length.
  intros Hnil; apply (f_equal (@length _)) in Hnil.
  rewrite length_skipn in Hnil; cbn [length] in Hnil.
  assert (length l / 2 < length l)%nat
    by (apply Nat.div_lt; [destruct l; [congruence | simpl; lia] | lia]).
  lia.
Qed.

Lemma firstHalfAvg_mean (l : list Session.InterviewSession) :
  exists q,
    ProgressTrackingService.firstHalfAvg l = Fin q
    /\ ((2 <= length l)%nat -> (q == basicMean (firstn (length l / 2) l))%Q)
    /\ ((length l < 2)%nat -> q = 0%Q).
Proof.
  unfold ProgressTrackingService.firstHalfAvg.
  rewrite halfPoint_nat, slice_prefix, Nat2Z.id by lia.
  destruct (Nat.lt_ge_cases (length l) 2) as [Hlt|Hge].
  - replace (length l / 2)%nat with 0%nat
      by (symmetry; apply Nat.div_small; exact Hlt).
    exists 0%Q; split; [reflexivity|]; split; [lia | reflexivity].
  - set (h := (length l / 2)%nat).
    assert (Hh : (1 <= h <= length l)%nat).
    { unfold h; split.
      - apply Nat.div_le_lower_bound; lia.
      - apply Nat.Div0.div_le_upper_bound; lia. }
    assert (Hlen : length (firstn h l) = h) by (rewrite length_firstn; lia).
    replace (inject_Z (Z.of_nat h))
      with (inject_Z (Z.of_nat (length (firstn h l))))
      by (now rewrite Hlen).
    rewrite divide_by_length
      by (intros Hnil; rewrite Hnil in Hlen; simpl in Hlen; lia).
    fold (basicMean (firstn h l)); unfold orZero.
    destruct (Qzero (basicMean (firstn h l))) eqn:Hz.
    + exists 0%Q; split; [reflexivity|]; split; [|lia].
      intros _; apply Qeq_bool_eq in Hz; now symmetry.
    + eexists; split; [reflexivity|]; split; [reflexivity | lia].
Qed.

(** X12. When every record of a non-empty log has its overall score
    between 0 and 100, the basic statistics report an average that is a
    whole number between 0 and 100 and an improvement trend that is a
    whole number between -100 and 100. *)
Theorem basic_statistics_in_range (sessions : list Session.InterviewSession) :
  sessions <> [] ->
  Forall (fun s => inScoreRange (Session.overallScore s)) sessions ->
  wholeBetween 0 100
    (ProgressTrackingService.averageScore
       (ProgressTrackingService.statsOf sessions))
  /\ wholeBetween (-100) 100
       (ProgressTrackingService.improvementTrend
          (ProgressTrackingService.statsOf sessions)).
Proof.
  intros Hne Hrange; unfold ProgressTrackingService.statsOf.
  destruct sessions as [|s0 rest]; [congruence|].
  set (sessions := s0 :: rest) in *.
  change (length sessions =? 0)%nat with false; cbv iota.
  cbn [ProgressTrackingService.averageScore
         ProgressTrackingService.improvementTrend].
  split.
  - rewrite (divide_by_length _ sessions Hne).
    eexists; split; [reflexivity|].
    apply roundQ_in_range, (mean_in_range _ sessions Hne Hrange).
  - rewrite (secondHalfAvg_mean sessions Hne).
    destruct (firstHalfAvg_mean sessions) as (q & -> & Hq2 & Hq1).
    eexists; split; [reflexivity|].
    apply roundQ_difference_range.
    + apply mean_in_range.
      * intros Hnil; apply (f_equal (@length _)) in Hnil.
        rewrite length_skipn in Hnil; cbn [length] in Hnil.
        assert (length sessions / 2 < length sessions)%nat
          by (apply Nat.div_lt; [unfold sessions; cbn [length]; lia | lia]).
        lia.
      * now apply Forall_drop.
    + destruct (Nat.lt_ge_cases (length sessions) 2) as [Hlt|Hge].
      * rewrite (Hq1 Hlt); split; lra.
      * assert (Hm : inScoreRange
                       (basicMean (firstn (length sessions / 2) sessions))).
        { apply mean_in_range; [|now apply Forall_take].
          intros Hnil; apply (f_equal (@length _)) in Hnil.
          rewrite length_firstn in Hnil; cbn [length] in Hnil.
          assert (1 <= length sessions / 2)%nat
            by (apply Nat.div_le_lower_bound; lia).
          lia. }
        destruct Hm as [Hm0 Hm1]; specialize (Hq2 Hge).
        split; rewrite Hq2; assumption.
Qed.

Lemma basic_statistics_in_range_witness :
  [sampleSession 40; sampleSession 65] <> []
  /\ Forall (fun s => inScoreRange (Session.overallScore s))
            [sampleSession 40; sampleSession 65]
  /\ wholeBetween (-100) 100
       (ProgressTrackingService.improvementTrend
          (ProgressTrackingService.statsOf
             [sampleSession 40; sampleSession 65])).
Proof.
  assert (Hne : [sampleSession 40; sampleSession 65] <> []) by discriminate.
  assert (Hr : Forall (fun s => inScoreRange (Session.overallScore s))
                      [sampleSession 40; sampleSession 65])
    by (repeat constructor; unfold Qle; simpl; lia).
  split; [exact Hne|]; split; [exact Hr|].
  exact (proj2 (basic_statistics_in_range _ Hne Hr)).
Defined.

Lemma basicMean_valuesMean (l : list Session.InterviewSession) :
  (basicMean l == valuesMean (List.map Session.overallScore l))%Q.
Proof.
  unfold basicMean, valuesMean.
  rewrite sumOf_valuesSum, length_map; reflexivity.
Qed.

Lemma valuesSum_lower (c : Q) (values : list Q) :
  Forall (fun x => (c <= x)%Q) values ->
  (c * inject_Z (Z.of_nat (length values)) <= valuesSum values)%Q.
Proof.
  induction 1 as [|x values Hx _ IH].
  - cbn [valuesSum length]; change (inject_Z (Z.of_nat 0)) with 0%Q; lra.
  - cbn [valuesSum]; rewrite inject_Z_length_succ.
    set (n := inject_Z (Z.of_nat (length values))) in *; clearbody n.
    set (t := valuesSum values) in *; clearbody t.
    nra.
Qed.

Lemma valuesSum_upper (c : Q) (values : list Q) :
  Forall (fun x => (x <= c)%Q) values ->
  (valuesSum values <= c * inject_Z (Z.of_nat (length values)))%Q.
Proof.
  induction 1 as [|x values Hx _ IH].
  - cbn [valuesSum length]; change (inject_Z (Z.of_nat 0)) with 0%Q; lra.
  - cbn [valuesSum]; rewrite inject_Z_length_succ.
    set (n := inject_Z (Z.of_nat (length values))) in *; clearbody n.
    set (t := valuesSum values) in *; clearbody t.
    nra.
Qed.

Lemma valuesMean_lower (c : Q) (values : list Q) :
  values <> [] ->
  Forall (fun x => (c <= x)%Q) values -> (c <= valuesMean values)%Q.
Proof.
  intros Hne Hl; unfold valuesMean.
  apply Qle_shift_div_l; [now apply length_positive|].
  now apply valuesSum_lower.
Qed.

Lemma valuesMean_upper (c : Q) (values : list Q) :
  values <> [] ->
  Forall (fun x => (x <= c)%Q) values -> (valuesMean values <= c)%Q.
Proof.
  intros Hne Hl; unfold valuesMean.
  apply Qle_shift_div_r; [now apply length_positive|].
  now apply valuesSum_upper.
Qed.

(** From two records on, the trend is the rounded difference of the
    means of the two halves, each a mean of scores in range. *)
Lemma basic_trend_of_halves (sessions : list Session.InterviewSession) :
  (2 <= length sessions)%nat ->
  Forall (fun s => inScoreRange (Session.overallScore s)) sessions ->
  let earlier :=
    List.map Session.overallScore (firstn (length sessions / 2) sessions) in
  let later :=
    List.map Session.overallScore (skipn (length sessions / 2) sessions) in
  earlier <> [] /\ later <> []
  /\ exists m1 m2,
      ProgressTrackingService.improvementTrend
        (ProgressTrackingService.statsOf sessions)
      = Fin (inject_Z (roundQ (m2 - m1)))
      /\ (m1 == valuesMean earlier)%Q /\ (m2 == valuesMean later)%Q
      /\ inScoreRange m1 /\ inScoreRange m2.
Proof.
  intros Hn Hrange earlier later.
  assert (Hne : sessions <> []) by (intros ->; simpl in Hn; lia).
  assert (Hh : (1 <= length sessions / 2 < length sessions)%nat).
  { split; [apply Nat.div_le_lower_bound; lia | apply Nat.div_lt; lia]. }
  assert (He : firstn (length sessions / 2) sessions <> []).
  { intros Hnil; apply (f_equal (@length _)) in Hnil.
    rewrite length_firstn in Hnil; cbn [length] in Hnil; lia. }
  assert (Hl : skipn (length sessions / 2) sessions <> []).
  { intros Hnil; apply (f_equal (@length _)) in Hnil.
    rewrite length_skipn in Hnil; cbn [length] in Hnil; lia. }
  split; [unfold earlier; intros Hnil; apply map_eq_nil in Hnil; tauto|].
  split; [unfold later; intros Hnil; apply map_eq_nil in Hnil; tauto|].
  destruct (firstHalfAvg_mean sessions) as (q & Hq & Hq2 & _).
  exists q, (basicMean (skipn (length sessions / 2) sessions)).
  assert (Hm1 : inScoreRange
                  (basicMean (firstn (length sessions / 2) sessions)))
    by (apply mean_in_range; [exact He | now apply Forall_take]).
  assert (Hm2 : inScoreRange
                  (basicMean (skipn (length sessions / 2) sessions)))
    by (apply mean_in_range; [exact Hl | now apply Forall_drop]).
  specialize (Hq2 Hn).
  split; [|split; [|split; [|split]]].
  - unfold ProgressTrackingService.statsOf.
    destruct sessions as [|s0 rest]; [congruence|].
    change (length (s0 :: rest) =? 0)%nat with false; cbv iota.
    cbn [ProgressTrackingService.improvementTrend].
    rewrite (secondHalfAvg_mean (s0 :: rest) Hne), Hq; reflexivity.
  - rewrite Hq2; apply basicMean_valuesMean.
  - apply basicMean_valuesMean.
  - destruct Hm1 as [H0 H1]; split; rewrite Hq2; assumption.
  - exact Hm2.
Qed.

(** X13. The basic improvement trend never points the wrong way.  Take
    a log of two records or more, with scores between 0 and 100, whose
    first floor(n/2) records all score at most some mark and whose other
    records all score at least that mark: the trend is a whole number
    from 0 to 100.  With the two halves the other way round it is a
    whole number from -100 to 0, and when every record has the same
    score it is 0. *)
Theorem basic_trend_direction
        (sessions : list Session.InterviewSession) (mark : Q) :
  (2 <= length sessions)%nat ->
  Forall (fun s => inScoreRange (Session.overallScore s)) sessions ->
  let earlier := firstn (length sessions / 2) sessions in
  let later := skipn (length sessions / 2) sessions in
  let trend :=
    ProgressTrackingService.improvementTrend
      (ProgressTrackingService.statsOf sessions) in
  (Forall (fun s => (Session.overallScore s <= mark)%Q) earlier ->
   Forall (fun s => (mark <= Session.overallScore s)%Q) later ->
   wholeBetween 0 100 trend)
  /\ (Forall (fun s => (mark <= Session.overallScore s)%Q) earlier ->
      Forall (fun s => (Session.overallScore s <= mark)%Q) later ->
      wholeBetween (-100) 0 trend)
  /\ (Forall (fun s => (Session.overallScore s == mark)%Q) sessions ->
      trend = Fin 0).
Proof.
  intros Hn Hrange earlier later trend.
  destruct (basic_trend_of_halves sessions Hn Hrange)
    as (He & Hl & m1 & m2 & Htrend & Hm1 & Hm2 & Hr1 & Hr2).
  fold earlier in He, Hm1; fold later in Hl, Hm2.
  assert (Hbounds := roundQ_difference_range m2 m1 Hr2 Hr1).
  assert (Hup : Forall (fun s => (Session.overallScore s <= mark)%Q) earlier ->
                Forall (fun s => (mark <= Session.overallScore s)%Q) later ->
                (0 <= roundQ (m2 - m1))%Z).
  { intros Hearly Hlate.
    assert (H1 : (m1 <= mark)%Q).
    { rewrite Hm1; apply valuesMean_upper; [exact He|].
      apply List.Forall_map; exact Hearly. }
    assert (H2 : (mark <= m2)%Q).
    { rewrite Hm2; apply valuesMean_lower; [exact Hl|].
      apply List.Forall_map; exact Hlate. }
    assert (H : (inject_Z 0 <= m2 - m1)%Q)
      by (change (inject_Z 0) with 0%Q; lra).
    apply roundQ_le in H; now rewrite roundQ_inject_Z in H. }
  assert (Hdown : Forall (fun s => (mark <= Session.overallScore s)%Q) earlier ->
                  Forall (fun s => (Session.overallScore s <= mark)%Q) later ->
                  (roundQ (m2 - m1) <= 0)%Z).
  { intros Hearly Hlate.
    assert (H1 : (mark <= m1)%Q).
    { rewrite Hm1; apply valuesMean_lower; [exact He|].
      apply List.Forall_map; exact Hearly. }
    assert (H2 : (m2 <= mark)%Q).
    { rewrite Hm2; apply valuesMean_upper; [exact Hl|].
      apply List.Forall_map; exact Hlate. }
    assert (H : (m2 - m1 <= inject_Z 0)%Q)
      by (change (inject_Z 0) with 0%Q; lra).
    apply roundQ_le in H; now rewrite roundQ_inject_Z in H. }
  unfold trend; rewrite Htrend.
  split; [|split].
  - intros Hearly Hlate; exists (roundQ (m2 - m1)); split; [reflexivity|].
    specialize (Hup Hearly Hlate); lia.
  - intros Hearly Hlate; exists (roundQ (m2 - m1)); split; [reflexivity|].
    specialize (Hdown Hearly Hlate); lia.
  - intros Hsame.
    assert (Hle : Forall (fun s => (Session.overallScore s <= mark)%Q) sessions)
      by (eapply List.Forall_impl; [|exact Hsame];
          intros s Hs; cbv beta in Hs; rewrite Hs; apply Qle_refl).
    assert (Hge : Forall (fun s => (mark <= Session.overallScore s)%Q) sessions)
      by (eapply List.Forall_impl; [|exact Hsame];
          intros s Hs; cbv beta in Hs; rewrite Hs; apply Qle_refl).
    assert (H0 : (0 <= roundQ (m2 - m1))%Z)
      by (apply Hup; [now apply Forall_take | now apply Forall_drop]).
    assert (H1 : (roundQ (m2 - m1) <= 0)%Z)
      by (apply Hdown; [now apply Forall_take | now apply Forall_drop]).
    replace (roundQ (m2 - m1)) with 0%Z by lia; reflexivity.
Qed.

Lemma basic_trend_direction_witness :
  (2 <= length [sampleSession 40; sampleSession 65])%nat
  /\ Forall (fun s => inScoreRange (Session.overallScore s))
            [sampleSession 40; sampleSession 65]
  /\ ProgressTrackingService.improvementTrend
       (ProgressTrackingService.statsOf [sampleSession 40; sampleSession 65])
     = Fin 25
  /\ wholeBetween 0 100
       (ProgressTrackingService.improvementTrend
          (ProgressTrackingService.statsOf
             [sampleSession 40; sampleSession 65])).
Proof.
  assert (Hn : (2 <= length [sampleSession 40; sampleSession 65])%nat)
    by (simpl; lia).
  assert (Hr : Forall (fun s => inScoreRange (Session.overallScore s))
                      [sampleSession 40; sampleSession 65])
    by (repeat constructor; unfold Qle; simpl; lia).
  split; [exact Hn|]; split; [exact Hr|]; split; [reflexivity|].
  apply (proj1 (basic_trend_direction _ 50 Hn Hr)).
  - repeat constructor; unfold Qle; simpl; lia.
  - repeat constructor; unfold Qle; simpl; lia.
Defined.

End ScoreBounds.

Section RankingAndRecency.
Import JS Browser Vocabulary.

Lemma sort_descending_id (entries : list (jsstring * Q)) :
  descending entries -> sort higherFirst entries = entries.
Proof.
  induction 1 as [|x l Hl IH Hx]; [reflexivity|].
  cbn [sort]; rewrite IH.
  destruct l as [|y l]; [reflexivity|].
  cbn [insertSorted].
  destruct (higherFirst x y) eqn:Hc; try reflexivity.
  exfalso; unfold higherFirst in Hc; apply Qgt_alt in Hc.
  apply List.Forall_inv in Hx; lra.
Qed.

Lemma descending_averages (sessions : list Session.InterviewSession)
      (order : list area) :
  descending (areaMeans sessions order) ->
  descending
    (List.map (fun a : area => (fst a, averageOf (snd a) sessions)) order).
Proof.
  unfold descending, areaMeans.
  induction order as [|a order IH]; cbn [List.map]; intros H;
    [constructor|].
  apply StronglySorted_inv in H as [Hs Hf].
  constructor; [exact (IH Hs)|].
  rewrite List.Forall_forall in *; intros y Hy.
  apply in_map_iff in Hy as (b & <- & Hb); cbn [fst snd].
  rewrite !averageOf_areaMean.
  apply (Hf (fst b, areaMean sessions b)).
  apply in_map_iff; exists b; split; [reflexivity | exact Hb].
Qed.

(** X14. Ties keep the order of declaration.  Take a non-empty log
    whose area scores are whole numbers between 0 and 100 and whose four
    area means already come highest first in the order confidence,
    clarity, professionalism, relevance (all four equal, for one): the
    strongest areas are confidence and clarity and the weakest are
    professionalism and relevance. *)
Theorem areas_keep_declared_order
        (sessions : list Session.InterviewSession) :
  sessions <> [] ->
  Forall wholeAreas sessions ->
  descending (areaMeans sessions areas) ->
  ProgressTrackingService.strongestAreas
    (ProgressTrackingService.statsOf sessions)
  = [lit "confidence"; lit "clarity"]
  /\ ProgressTrackingService.weakestAreas
       (ProgressTrackingService.statsOf sessions)
     = [lit "professionalism"; lit "relevance"].
Proof.
  intros Hne _ Hd; apply descending_averages in Hd.
  change (descending (areaAverages sessions)) in Hd.
  unfold ProgressTrackingService.statsOf.
  destruct sessions as [|s0 rest]; [congruence|].
  set (sessions := s0 :: rest) in *.
  change (length sessions =? 0)%nat with false; cbv iota.
  cbn [ProgressTrackingService.strongestAreas
         ProgressTrackingService.weakestAreas].
  rewrite (sortedAreas_ranked sessions Hne), (sort_descending_id _ Hd).
  split; reflexivity.
Qed.

Lemma areas_keep_declared_order_witness :
  [evenSession 75; evenSession 85] <> []
  /\ Forall wholeAreas [evenSession 75; evenSession 85]
  /\ descending (areaMeans [evenSession 75; evenSession 85] areas)
  /\ ProgressTrackingService.strongestAreas
       (ProgressTrackingService.statsOf [evenSession 75; evenSession 85])
     = [lit "confidence"; lit "clarity"]
  /\ ProgressTrackingService.weakestAreas
       (ProgressTrackingService.statsOf [evenSession 75; evenSession 85])
     = [lit "professionalism"; lit "relevance"].
Proof.
  assert (Hne : [evenSession 75; evenSession 85] <> []) by discriminate.
  assert (Hw : Forall wholeAreas [evenSession 75; evenSession 85]).
  { constructor; [|constructor; [|constructor]].
    - repeat split; exists 75%Z; split; try reflexivity; lia.
    - repeat split; exists 85%Z; split; try reflexivity; lia. }
  assert (Hd : descending (areaMeans [evenSession 75; evenSession 85] areas))
    by (repeat constructor; vm_compute; discriminate).
  split; [exact Hne|]; split; [exact Hw|]; split; [exact Hd|].
  exact (areas_keep_declared_order _ Hne Hw Hd).
Defined.

Lemma lastRecords_snoc {A : Type} (q : nat) (l : list A) (x : A) :
  (1 <= q)%nat -> lastRecords q (l ++ [x]) = lastRecords (q - 1) l ++ [x].
Proof.
  intros Hq; unfold lastRecords.
  rewrite length_app, skipn_app; simpl length.
  replace (length l + 1 - q)%nat with (length l - (q - 1))%nat by lia.
  replace (length l - (q - 1) - length l)%nat with 0%nat by lia.
  reflexivity.
Qed.

(** X15. Both statistics count every record of the log and list the
    most recent ones newest first: the last 5 (basic) or 10 (enhanced)
    records in reverse order, so that the record saved last comes
    first. *)
Theorem recent_sessions_newest_first
        (basic : list Session.InterviewSession)
        (detailed : list Detailed.DetailedSession) :
  (ProgressTrackingService.totalSessions
     (ProgressTrackingService.statsOf basic)
   = Z.of_nat (length basic)
   /\ ProgressTrackingService.recentSessions
        (ProgressTrackingService.statsOf basic)
      = rev (lastRecords 5 basic)
   /\ length (ProgressTrackingService.recentSessions
                (ProgressTrackingService.statsOf basic))
      = Nat.min (length basic) 5
   /\ forall older newest,
        basic = older ++ [newest] ->
        hd_error (ProgressTrackingService.recentSessions
                    (ProgressTrackingService.statsOf basic))
        = Some newest)
  /\ (EnhancedProgressService.totalSessions
        (EnhancedProgressService.statsOf detailed)
      = Z.of_nat (length detailed)
      /\ EnhancedProgressService.recentSessions
           (EnhancedProgressService.statsOf detailed)
         = rev (lastRecords 10 detailed)
      /\ length (EnhancedProgressService.recentSessions
                   (EnhancedProgressService.statsOf detailed))
         = Nat.min (length detailed) 10
      /\ forall older newest,
           detailed = older ++ [newest] ->
           hd_error (EnhancedProgressService.recentSessions
                       (EnhancedProgressService.statsOf detailed))
           = Some newest).
Proof.
  assert (Hb : ProgressTrackingService.recentSessions
                 (ProgressTrackingService.statsOf basic)
               = rev (lastRecords 5 basic)
               /\ ProgressTrackingService.totalSessions
                    (ProgressTrackingService.statsOf basic)
                  = Z.of_nat (length basic)).
  { unfold ProgressTrackingService.statsOf.
    destruct basic as [|s0 rest]; [split; reflexivity|].
    change (length (s0 :: rest) =? 0)%nat with false; cbv iota.
    cbn [ProgressTrackingService.recentSessions
           ProgressTrackingService.totalSessions].
    change (-5)%Z with (Z.opp 5); rewrite slice_suffix by lia.
    split; reflexivity. }
  assert (He : EnhancedProgressService.recentSessions
                 (EnhancedProgressService.statsOf detailed)
               = rev (lastRecords 10 detailed)
               /\ EnhancedProgressService.totalSessions
                    (EnhancedProgressService.statsOf detailed)
                  = Z.of_nat (length detailed)).
  { unfold EnhancedProgressService.statsOf.
    destruct detailed as [|s0 rest]; [split; reflexivity|].
    change (EnhancedProgressService.lengthOf (s0 :: rest) =? 0)%Z with false.
    cbv iota.
    cbn [EnhancedProgressService.recentSessions
           EnhancedProgressService.totalSessions].
    change (-10)%Z with (Z.opp 10); rewrite slice_suffix by lia.
    split; reflexivity. }
  destruct Hb as [Hb Hbn], He as [He Hen].
  rewrite Hb, He, Hbn, Hen.
  repeat split.
  - unfold lastRecords; rewrite length_rev, length_skipn; lia.
  - intros older newest ->.
    rewrite lastRecords_snoc, rev_app_distr by lia; reflexivity.
  - unfold lastRecords; rewrite length_rev, length_skipn; lia.
  - intros older newest ->.
    rewrite lastRecords_snoc, rev_app_distr by lia; reflexivity.
Qed.

End RankingAndRecency.

Section EnhancedBounds.
Import JS Browser Vocabulary.

Lemma quarter_blocks (sessions : list Detailed.DetailedSession) :
  (4 <= length sessions)%nat ->
  EnhancedProgressService.calculateImprovementTrend sessions
  = Math_round
      (subtract
         (EnhancedProgressService.calculateAverageScore
            (lastRecords (length sessions / 4) sessions))
         (EnhancedProgressService.calculateAverageScore
            (firstn (length sessions / 4)
                    (skipn (length sessions / 4) sessions))))
  /\ lastRecords (length sessions / 4) sessions <> []
  /\ firstn (length sessions / 4) (skipn (length sessions / 4) sessions) <> [].
Proof.
  intros Hn; set (n := length sessions) in *; set (q := (n / 4)%nat).
  assert (Hq1 : (1 <= q)%nat)
    by (unfold q; apply Nat.div_le_lower_bound; lia).
  assert (Hq4 : (4 * q <= n)%nat)
    by (unfold q; apply Nat.Div0.mul_div_le).
  repeat split.
  - unfold EnhancedProgressService.calculateImprovementTrend,
      EnhancedProgressService.lengthOf.
    fold n.
    assert (Hge : (Z.of_nat n <? 4)%Z = false) by (apply Z.ltb_ge; lia).
    rewrite Hge; cbv zeta.
    assert (Hq : (Z.of_nat n / 4)%Z = Z.of_nat q)
      by (unfold q; now rewrite Nat2Z.inj_div).
    rewrite Hq, slice_suffix, slice_block by lia.
    replace (Z.to_nat (Z.of_nat q * 2) - Z.to_nat (Z.of_nat q))%nat
      with q by lia.
    rewrite Nat2Z.id; fold n; reflexivity.
  - intros Hnil; apply (f_equal (@length _)) in Hnil.
    unfold lastRecords in Hnil; rewrite length_skipn in Hnil.
    fold n in Hnil; cbn [length] in Hnil; lia.
  - intros Hnil; apply (f_equal (@length _)) in Hnil.
    rewrite length_firstn, length_skipn in Hnil; fold n in Hnil.
    cbn [length] in Hnil; lia.
Qed.

Lemma lastRecords_Forall {A : Type} (P : A -> Prop) (q : nat) (l : list A) :
  Forall P l -> Forall P (lastRecords q l).
Proof. intros Hl; unfold lastRecords; now apply Forall_drop. Qed.

Lemma calculateAverageScore_range
      (records : list Detailed.DetailedSession) :
  records <> [] ->
  Forall (fun s => inScoreRange (Detailed.overallScore s)) records ->
  exists z,
    EnhancedProgressService.calculateAverageScore records
    = Fin (inject_Z z)
    /\ (0 <= z <= 100)%Z.
Proof.
  intros Hne Hr; rewrite (calculateAverageScore_mean records Hne).
  eexists; split; [reflexivity|].
  apply roundQ_in_range; unfold meanScore, EnhancedProgressService.sumOf.
  now apply mean_in_range.
Qed.

(** X16. When every record of a non-empty log has its overall score
    between 0 and 100, the enhanced statistics report an average that is
    a whole number between 0 and 100 and an improvement trend that is a
    whole number between -100 and 100. *)
Theorem enhanced_statistics_in_range
        (sessions : list Detailed.DetailedSession) :
  sessions <> [] ->
  Forall (fun s => inScoreRange (Detailed.overallScore s)) sessions ->
  wholeBetween 0 100
    (EnhancedProgressService.averageScore
       (EnhancedProgressService.statsOf sessions))
  /\ wholeBetween (-100) 100
       (EnhancedProgressService.improvementTrend
          (EnhancedProgressService.statsOf sessions)).
Proof.
  intros Hne Hr; unfold EnhancedProgressService.statsOf.
  destruct sessions as [|s0 rest]; [congruence|].
  set (sessions := s0 :: rest) in *.
  change (EnhancedProgressService.lengthOf sessions =? 0)%Z with false.
  cbv iota.
  cbn [EnhancedProgressService.averageScore
         EnhancedProgressService.improvementTrend].
  split; [exact (calculateAverageScore_range sessions Hne Hr)|].
  destruct (Nat.lt_ge_cases (length sessions) 4) as [Hlt|Hge].
  - unfold EnhancedProgressService.calculateImprovementTrend,
      EnhancedProgressService.lengthOf.
    assert (H4 : (Z.of_nat (length sessions) <? 4)%Z = true)
      by (apply Z.ltb_lt; lia).
    rewrite H4; exists 0%Z; split; [reflexivity | lia].
  - destruct (quarter_blocks sessions Hge) as (-> & Hrecent & Hearlier).
    destruct (calculateAverageScore_range _ Hrecent
                (lastRecords_Forall _ _ _ Hr)) as (a & -> & Ha).
    destruct (calculateAverageScore_range _ Hearlier
                (Forall_take _ _ _ (Forall_drop _ _ _ Hr)))
      as (b & -> & Hb).
    exists (a - b)%Z; split; [|lia].
    unfold subtract, Math_round; now rewrite roundQ_difference.
Qed.

Lemma enhanced_statistics_in_range_witness :
  quarterLog <> []
  /\ Forall (fun s => inScoreRange (Detailed.overallScore s)) quarterLog
  /\ wholeBetween (-100) 100
       (EnhancedProgressService.improvementTrend
          (EnhancedProgressService.statsOf quarterLog)).
Proof.
  assert (Hne : quarterLog <> []) by discriminate.
  assert (Hr : Forall (fun s => inScoreRange (Detailed.overallScore s))
                      quarterLog)
    by (repeat constructor; unfold Qle; simpl; lia).
  split; [exact Hne|]; split; [exact Hr|].
  exact (proj2 (enhanced_statistics_in_range _ Hne Hr)).
Defined.

End EnhancedBounds.

Section BadgesAndTypes.
Import JS Browser Vocabulary.

Lemma In_badges (x : jsstring) (sessions : list Detailed.DetailedSession) :
  In x (EnhancedProgressService.calculateAchievements sessions)
  <-> ((5 <= length sessions)%nat /\ lit "Committed Practicer" = x)
      \/ ((15 <= length sessions)%nat /\ lit "Interview Master" = x)
      \/ ((exists s, In s sessions /\ (90 <= Detailed.overallScore s)%Q)
          /\ lit "Excellence Achieved" = x)
      \/ (sessions = [] /\ lit "Consistent Improver" = x)
      \/ ((10 <= length (List.filter Detailed.aiPowered sessions))%nat
          /\ lit "AI-Powered Learner" = x).
Proof.
  unfold EnhancedProgressService.calculateAchievements,
    EnhancedProgressService.lengthOf.
  rewrite !In_pushIf, self_comparison_empty.
  change (-5)%Z with (Z.opp 5); rewrite slice_suffix_nil by lia.
  rewrite !Z.leb_le, existsb_exists.
  assert (Hq : (exists s, In s sessions
                          /\ Qle_bool 90 (Detailed.overallScore s) = true)
               <-> exists s, In s sessions
                             /\ (90 <= Detailed.overallScore s)%Q).
  { split; intros (s & Hin & Hs); exists s; split; try exact Hin;
      now apply Qle_bool_iff. }
  rewrite Hq; simpl In.
  assert (H5 : (5 <= Z.of_nat (length sessions))%Z
               <-> (5 <= length sessions)%nat) by lia.
  assert (H15 : (15 <= Z.of_nat (length sessions))%Z
                <-> (15 <= length sessions)%nat) by lia.
  assert (H10 : (10 <= Z.of_nat (length (List.filter Detailed.aiPowered
                                                     sessions)))%Z
                <-> (10 <= length (List.filter Detailed.aiPowered
                                               sessions))%nat) by lia.
  rewrite H5, H15, H10; tauto.
Qed.

(** X17. The badges, one by one: 'Committed Practicer' from 5 sessions
    on, 'Interview Master' from 15 on, 'Excellence Achieved' when some
    session scored 90 or more, 'AI-Powered Learner' from 10 sessions
    analysed by the remote service on.  So 'Interview Master' and
    'AI-Powered Learner' never come without 'Committed Practicer'. *)
Theorem badges_one_by_one (sessions : list Detailed.DetailedSession) :
  let badges := EnhancedProgressService.calculateAchievements sessions in
  (In (lit "Committed Practicer") badges <-> (5 <= length sessions)%nat)
  /\ (In (lit "Interview Master") badges <-> (15 <= length sessions)%nat)
  /\ (In (lit "Excellence Achieved") badges
      <-> exists s, In s sessions /\ (90 <= Detailed.overallScore s)%Q)
  /\ (In (lit "AI-Powered Learner") badges
      <-> (10 <= length (List.filter Detailed.aiPowered sessions))%nat)
  /\ (In (lit "Interview Master") badges
      -> In (lit "Committed Practicer") badges)
  /\ (In (lit "AI-Powered Learner") badges
      -> In (lit "Committed Practicer") badges).
Proof.
  cbv zeta.
  assert (Hfilter := filter_length_le Detailed.aiPowered sessions).
  rewrite !In_badges.
  split; [|split; [|split; [|split; [|split]]]].
  - split.
    + intros [[Hc He]|[[Hc He]|[[Hc He]|[[Hc He]|[Hc He]]]]];
        first [exact Hc | vm_compute in He; discriminate].
    + intros Hc; left; split; [exact Hc | reflexivity].
  - split.
    + intros [[Hc He]|[[Hc He]|[[Hc He]|[[Hc He]|[Hc He]]]]];
        first [exact Hc | vm_compute in He; discriminate].
    + intros Hc; right; left; split; [exact Hc | reflexivity].
  - split.
    + intros [[Hc He]|[[Hc He]|[[Hc He]|[[Hc He]|[Hc He]]]]];
        first [exact Hc | vm_compute in He; discriminate].
    + intros Hc; right; right; left; split; [exact Hc | reflexivity].
  - split.
    + intros [[Hc He]|[[Hc He]|[[Hc He]|[[Hc He]|[Hc He]]]]];
        first [exact Hc | vm_compute in He; discriminate].
    + intros Hc; right; right; right; right; split; [exact Hc | reflexivity].
  - intros [[Hc He]|[[Hc He]|[[Hc He]|[[Hc He]|[Hc He]]]]];
      try (vm_compute in He; discriminate).
    left; split; [lia | reflexivity].
  - intros [[Hc He]|[[Hc He]|[[Hc He]|[[Hc He]|[Hc He]]]]];
      try (vm_compute in He; discriminate).
    left; split; [lia | reflexivity].
Qed.

Lemma sessionsByType_fold (type : jsstring)
      (sessions : list Detailed.DetailedSession) :
  forall types : gmap jsstring Z,
    fold_left
      (fun types session =>
         let type :=
           if truthyString (Detailed.questionType session)
           then Detailed.questionType session
           else lit "General" in
         <[ type := (default 0%Z (types !! type) + 1)%Z ]> types)
      sessions types !! type
    = match countOfType type sessions with
      | O => types !! type
      | S n => Some (default 0%Z (types !! type) + Z.of_nat (S n))%Z
      end.
Proof.
  unfold countOfType.
  induction sessions as [|s sessions IH]; intros types; [reflexivity|].
  cbn [fold_left List.filter]; rewrite IH; fold (sessionType s).
  destruct (bool_decide_reflect (sessionType s = type)) as [->|Hne].
  - cbn [length]; rewrite lookup_insert_eq; cbn [default].
    destruct (length _); f_equal; unfold id; lia.
  - rewrite lookup_insert_ne by exact Hne; reflexivity.
Qed.

(** X18. [getSessionsByType] counts every session under its type, a
    session without a type (the empty string) counting under 'General'
    together with those so named.  For a type that is not the name of a
    property inherited from [Object.prototype]: it is a key of the result
    exactly when some session has it, and its value is the number of
    these sessions. *)
Theorem sessions_counted_by_type
        (type : jsstring) (sessions : list Detailed.DetailedSession) :
  ~ In type inheritedKeys ->
  EnhancedProgressService.getSessionsByType sessions !! type
  = if (countOfType type sessions =? 0)%nat
    then None
    else Some (Z.of_nat (countOfType type sessions)).
Proof.
  intros _; unfold EnhancedProgressService.getSessionsByType.
  rewrite sessionsByType_fold, lookup_empty.
  destruct (countOfType type sessions); reflexivity.
Qed.

Lemma sessions_counted_by_type_witness :
  ~ In (lit "General") inheritedKeys
  /\ EnhancedProgressService.getSessionsByType
       [typedDetailed (lit "Data Analyst"); typedDetailed [];
        typedDetailed (lit "General")]
     !! lit "General"
     = Some 2%Z.
Proof.
  assert (Hk : ~ In (lit "General") inheritedKeys)
    by (vm_compute; intuition discriminate).
  split; [exact Hk|].
  rewrite (sessions_counted_by_type _ _ Hk); reflexivity.
Defined.

End BadgesAndTypes.

Section Milestones.
Import JS Browser Vocabulary.

Lemma In_reached (x : jsstring) (sessions : list Detailed.DetailedSession) :
  let avg := EnhancedProgressService.calculateAverageScore sessions in
  In x (EnhancedProgressService.reached
          (EnhancedProgressService.getProgressMilestones sessions))
  <-> ((1 <= length sessions)%nat /\ lit "First Interview Practice" = x)
      \/ ((5 <= length sessions)%nat /\ lit "Regular Practicer" = x)
      \/ ((10 <= length sessions)%nat /\ lit "Dedicated Learner" = x)
      \/ (atLeast avg 70 = true /\ lit "Competent Interviewer" = x)
      \/ (atLeast avg 80 = true /\ lit "Strong Interviewer" = x)
      \/ (atLeast avg 90 = true /\ lit "Expert Interviewer" = x).
Proof.
  cbv zeta; unfold EnhancedProgressService.getProgressMilestones,
              EnhancedProgressService.lengthOf.
  cbn [EnhancedProgressService.reached].
  rewrite !In_pushIf, !Z.leb_le; simpl In.
  assert (H1 : (1 <= Z.of_nat (length sessions))%Z
               <-> (1 <= length sessions)%nat) by lia.
  assert (H5 : (5 <= Z.of_nat (length sessions))%Z
               <-> (5 <= length sessions)%nat) by lia.
  assert (H10 : (10 <= Z.of_nat (length sessions))%Z
                <-> (10 <= length sessions)%nat) by lia.
  rewrite H1, H5, H10; tauto.
Qed.

Lemma In_upcoming (x : jsstring) (sessions : list Detailed.DetailedSession) :
  let avg := EnhancedProgressService.calculateAverageScore sessions in
  In x (EnhancedProgressService.upcoming
          (EnhancedProgressService.getProgressMilestones sessions))
  <-> ((length sessions < 5)%nat /\ completeMore sessions = x)
      \/ ((length sessions < 10)%nat /\ lit "Reach 10 total sessions" = x)
      \/ (below avg 70 = true /\ lit "Achieve 70% average score" = x)
      \/ (below avg 80 = true /\ lit "Achieve 80% average score" = x)
      \/ (below avg 90 = true /\ lit "Achieve 90% average score" = x).
Proof.
  cbv zeta; unfold EnhancedProgressService.getProgressMilestones,
              EnhancedProgressService.lengthOf, completeMore,
              EnhancedProgressService.lengthOf.
  cbn [EnhancedProgressService.upcoming].
  rewrite !In_pushIf, !Z.ltb_lt; simpl In.
  assert (H5 : (Z.of_nat (length sessions) < 5)%Z
               <-> (length sessions < 5)%nat) by lia.
  assert (H10 : (Z.of_nat (length sessions) < 10)%Z
                <-> (length sessions < 10)%nat) by lia.
  rewrite H5, H10; tauto.
Qed.

Lemma below_atLeast (q c : Q) : below (Fin q) c = negb (atLeast (Fin q) c).
Proof. reflexivity. Qed.

Ltac other_label He := vm_compute in He; discriminate.

(** From a disjunction of (condition, label = x) pairs to the condition
    of the one pair whose label is x, and back. *)
Ltac the_label :=
  let H := fresh "H" in
  let Hc := fresh "Hc" in
  let He := fresh "He" in
  intros H;
  repeat (destruct H as [H|H]);
  destruct H as [Hc He];
  first [exact Hc | other_label He].

Ltac choose_label H :=
  solve [ split; [exact H | reflexivity]
        | left; choose_label H
        | right; choose_label H ].

(** X19. On a non-empty log the first-practice milestone is reached,
    and every other milestone is either reached or still upcoming, never
    both and never neither: 5 sessions against the prompt for the
    sessions missing, 10 sessions, and the averages 70, 80 and 90
    against their prompts.  A higher average milestone never comes
    without the lower ones. *)
Theorem milestones_reached_or_upcoming
        (sessions : list Detailed.DetailedSession) :
  sessions <> [] ->
  let m := EnhancedProgressService.getProgressMilestones sessions in
  In (lit "First Interview Practice") (EnhancedProgressService.reached m)
  /\ (In (lit "Regular Practicer") (EnhancedProgressService.reached m)
      <-> ~ In (completeMore sessions) (EnhancedProgressService.upcoming m))
  /\ (In (lit "Dedicated Learner") (EnhancedProgressService.reached m)
      <-> ~ In (lit "Reach 10 total sessions")
               (EnhancedProgressService.upcoming m))
  /\ (In (lit "Competent Interviewer") (EnhancedProgressService.reached m)
      <-> ~ In (lit "Achieve 70% average score")
               (EnhancedProgressService.upcoming m))
  /\ (In (lit "Strong Interviewer") (EnhancedProgressService.reached m)
      <-> ~ In (lit "Achieve 80% average score")
               (EnhancedProgressService.upcoming m))
  /\ (In (lit "Expert Interviewer") (EnhancedProgressService.reached m)
      <-> ~ In (lit "Achieve 90% average score")
               (EnhancedProgressService.upcoming m))
  /\ (In (lit "Expert Interviewer") (EnhancedProgressService.reached m)
      -> In (lit "Strong Interviewer") (EnhancedProgressService.reached m))
  /\ (In (lit "Strong Interviewer") (EnhancedProgressService.reached m)
      -> In (lit "Competent Interviewer") (EnhancedProgressService.reached m)).
Proof.
  intros Hne; cbv zeta.
  assert (Hn : (1 <= length sessions)%nat)
    by (destruct sessions; [congruence | simpl; lia]).
  pose proof (In_reached (lit "First Interview Practice") sessions) as R1.
  pose proof (In_reached (lit "Regular Practicer") sessions) as R5.
  pose proof (In_reached (lit "Dedicated Learner") sessions) as R10.
  pose proof (In_reached (lit "Competent Interviewer") sessions) as R70.
  pose proof (In_reached (lit "Strong Interviewer") sessions) as R80.
  pose proof (In_reached (lit "Expert Interviewer") sessions) as R90.
  pose proof (In_upcoming (completeMore sessions) sessions) as U5.
  pose proof (In_upcoming (lit "Reach 10 total sessions") sessions) as U10.
  pose proof (In_upcoming (lit "Achieve 70% average score") sessions) as U70.
  pose proof (In_upcoming (lit "Achieve 80% average score") sessions) as U80.
  pose proof (In_upcoming (lit "Achieve 90% average score") sessions) as U90.
  cbv zeta in *.
  rewrite (calculateAverageScore_mean sessions Hne) in *.
  set (q := inject_Z (roundQ (meanScore sessions))) in *.
  rewrite !below_atLeast in *.
  assert (S1 : In (lit "First Interview Practice")
                  (EnhancedProgressService.reached
                     (EnhancedProgressService.getProgressMilestones sessions)))
    by (apply R1; choose_label Hn).
  assert (S5 : In (lit "Regular Practicer")
                  (EnhancedProgressService.reached
                     (EnhancedProgressService.getProgressMilestones sessions))
               <-> (5 <= length sessions)%nat)
    by (rewrite R5; split; [the_label | intros H; choose_label H]).
  assert (S10 : In (lit "Dedicated Learner")
                   (EnhancedProgressService.reached
                      (EnhancedProgressService.getProgressMilestones sessions))
                <-> (10 <= length sessions)%nat)
    by (rewrite R10; split; [the_label | intros H; choose_label H]).
  assert (S70 : In (lit "Competent Interviewer")
                   (EnhancedProgressService.reached
                      (EnhancedProgressService.getProgressMilestones sessions))
                <-> atLeast (Fin q) 70 = true)
    by (rewrite R70; split; [the_label | intros H; choose_label H]).
  assert (S80 : In (lit "Strong Interviewer")
                   (EnhancedProgressService.reached
                      (EnhancedProgressService.getProgressMilestones sessions))
                <-> atLeast (Fin q) 80 = true)
    by (rewrite R80; split; [the_label | intros H; choose_label H]).
  assert (S90 : In (lit "Expert Interviewer")
                   (EnhancedProgressService.reached
                      (EnhancedProgressService.getProgressMilestones sessions))
                <-> atLeast (Fin q) 90 = true)
    by (rewrite R90; split; [the_label | intros H; choose_label H]).
  assert (T5 : In (completeMore sessions)
                  (EnhancedProgressService.upcoming
                     (EnhancedProgressService.getProgressMilestones sessions))
               <-> (length sessions < 5)%nat)
    by (rewrite U5; split; [the_label | intros H; choose_label H]).
  assert (T10 : In (lit "Reach 10 total sessions")
                   (EnhancedProgressService.upcoming
                      (EnhancedProgressService.getProgressMilestones sessions))
                <-> (length sessions < 10)%nat)
    by (rewrite U10; split; [the_label | intros H; choose_label H]).
  assert (T70 : In (lit "Achieve 70% average score")
                   (EnhancedProgressService.upcoming
                      (EnhancedProgressService.getProgressMilestones sessions))
                <-> negb (atLeast (Fin q) 70) = true)
    by (rewrite U70; split; [the_label | intros H; choose_label H]).
  assert (T80 : In (lit "Achieve 80% average score")
                   (EnhancedProgressService.upcoming
                      (EnhancedProgressService.getProgressMilestones sessions))
                <-> negb (atLeast (Fin q) 80) = true)
    by (rewrite U80; split; [the_label | intros H; choose_label H]).
  assert (T90 : In (lit "Achieve 90% average score")
                   (EnhancedProgressService.upcoming
                      (EnhancedProgressService.getProgressMilestones sessions))
                <-> negb (atLeast (Fin q) 90) = true)
    by (rewrite U90; split; [the_label | intros H; choose_label H]).
  assert (H98 : atLeast (Fin q) 90 = true -> atLeast (Fin q) 80 = true).
  { simpl; rewrite !Qle_bool_iff; intros H; lra. }
  assert (H87 : atLeast (Fin q) 80 = true -> atLeast (Fin q) 70 = true).
  { simpl; rewrite !Qle_bool_iff; intros H; lra. }
  rewrite S5, S10, S70, S80, S90, T5, T10, T70, T80, T90.
  split; [exact S1|].
  destruct (atLeast (Fin q) 70), (atLeast (Fin q) 80), (atLeast (Fin q) 90);
    simpl negb; repeat split; intros; try lia; try tauto; try congruence;
    try discriminate.
Qed.

Lemma milestones_reached_or_upcoming_witness :
  improvingLog <> []
  /\ In (lit "Regular Practicer")
        (EnhancedProgressService.reached
           (EnhancedProgressService.getProgressMilestones improvingLog))
  /\ ~ In (lit "Strong Interviewer")
          (EnhancedProgressService.reached
             (EnhancedProgressService.getProgressMilestones improvingLog)).
Proof.
  assert (Hne : improvingLog <> []) by discriminate.
  destruct (milestones_reached_or_upcoming improvingLog Hne)
    as (_ & H5 & _ & _ & H80 & _).
  split; [exact Hne|]; split.
  - apply H5; vm_compute; intuition discriminate.
  - intros H; apply H80 in H; apply H; vm_compute; tauto.
Defined.

End Milestones.

Section SortingOn.
Import JS.
Context {A : Type} (cmp : A -> A -> comparison).
Context (good : A -> Prop) (before : A -> A -> Prop).
Hypothesis before_trans : forall x y z, before x y -> before y z -> before x z.
Hypothesis cmp_before :
  forall x y, good x -> good y -> cmp x y <> Gt -> before x y.
Hypothesis cmp_after :
  forall x y, good x -> good y -> cmp x y = Gt -> before y x.

Lemma insertSorted_sorted_on (x : A) (l : list A) :
  good x -> Forall good l ->
  StronglySorted before l -> StronglySorted before (insertSorted cmp x l).
Proof.
  intros Hx Hl Hs; induction Hs as [|y l Hs IH Hy]; simpl.
  - repeat constructor.
  - apply List.Forall_cons_iff in Hl as [Hgy Hl].
    destruct (cmp x y) eqn:Hxy.
    + constructor; [now constructor|].
      assert (Hb : before x y) by (apply cmp_before; congruence).
      constructor; [exact Hb|].
      eapply List.Forall_impl; [|exact Hy]; intros z Hz; eauto.
    + constructor; [now constructor|].
      assert (Hb : before x y) by (apply cmp_before; congruence).
      constructor; [exact Hb|].
      eapply List.Forall_impl; [|exact Hy]; intros z Hz; eauto.
    + constructor; [exact (IH Hl)|].
      eapply Permutation_Forall;
        [symmetry; apply insertSorted_perm|].
      constructor; [now apply cmp_after | exact Hy].
Qed.

Lemma sort_sorted_on (l : list A) :
  Forall good l -> StronglySorted before (sort cmp l).
Proof.
  induction 1 as [|x l Hx Hl IH]; simpl; [constructor|].
  apply insertSorted_sorted_on; [exact Hx | | exact IH].
  eapply Permutation_Forall; [symmetry; apply sort_perm | exact Hl].
Qed.

End SortingOn.

Section Skills.
Import JS Browser Vocabulary.

Lemma slice_window_empty {A : Type} (l : list A) :
  (length l <= 5)%nat -> slice (-10) (Some (-5)%Z) l = [].
Proof.
  intros Hl; unfold slice.
  change (-10 <? 0)%Z with true; change (-5 <? 0)%Z with true; cbv iota.
  replace (Z.to_nat (Z.max (Z.of_nat (length l) + -5) 0
                     - Z.max (Z.of_nat (length l) + -10) 0))
    with 0%nat by lia.
  reflexivity.
Qed.

Lemma slice_last_five_all {A : Type} (l : list A) :
  (length l <= 5)%nat -> slice (-5) None l = l.
Proof.
  intros Hl; change (-5)%Z with (Z.opp 5); rewrite slice_suffix by lia.
  replace (length l - Z.to_nat 5)%nat with 0%nat by lia; reflexivity.
Qed.

(** X20. The skill breakdown has the six skills, in the order of their
    declaration.  For each, the history is the last 10 values of its
    metric and the current value is the rounded last one.  On a log of
    one to five sessions the window before the last five is empty and
    counts as 0, so the 'trend' of a skill whose values are whole numbers
    between 0 and 100 is the rounded mean of its values, not a
    change. *)
Theorem skill_breakdown_of_short_log
        (sessions : list Detailed.DetailedSession) :
  List.map fst (EnhancedProgressService.calculateSkillBreakdown sessions)
  = [lit "confidenceScore"; lit "clarityScore"; lit "professionalismScore";
     lit "relevanceScore"; lit "emotionalIntelligence"; lit "structureScore"]
  /\ forall name metric,
      In (name, metric) EnhancedProgressService.skills ->
      exists entry,
        In (name, entry)
           (EnhancedProgressService.calculateSkillBreakdown sessions)
        /\ EnhancedProgressService.sessionHistory entry
           = lastRecords 10 (metricValues metric sessions)
        /\ (forall older newest,
               sessions = older ++ [newest] ->
               EnhancedProgressService.current entry
               = Fin (inject_Z
                        (roundQ (EnhancedProgressService.orZeroQ
                                   (metric (Detailed.detailedMetrics
                                              newest))))))
        /\ ((1 <= length sessions <= 5)%nat ->
            Forall wholeScore (metricValues metric sessions) ->
            EnhancedProgressService.trend entry
            = Fin (inject_Z
                     (roundQ (valuesMean (metricValues metric sessions))))).
Proof.
  split; [reflexivity|].
  intros name metric Hin.
  exists (EnhancedProgressService.skillEntry sessions metric).
  split.
  { unfold EnhancedProgressService.calculateSkillBreakdown.
    apply (in_map (fun skill =>
                     (fst skill,
                      EnhancedProgressService.skillEntry sessions (snd skill)))
                  _ _ Hin). }
  unfold EnhancedProgressService.skillEntry; fold (metricValues metric sessions).
  cbn [EnhancedProgressService.sessionHistory EnhancedProgressService.current
         EnhancedProgressService.trend].
  split; [|split].
  - change (-10)%Z with (Z.opp 10); now rewrite slice_suffix by lia.
  - intros older newest ->.
    unfold metricValues, EnhancedProgressService.lengthOf.
    rewrite List.map_app, length_app; cbn [List.map length].
    assert (Hpos : (0 <? Z.of_nat (length (List.map
                     (fun s => EnhancedProgressService.orZeroQ
                                 (metric (Detailed.detailedMetrics s)))
                     older) + 1))%Z = true) by (apply Z.ltb_lt; lia).
    rewrite Hpos, last_last; reflexivity.
  - intros Hn _.
    assert (Hm : (meanValue (metricValues metric sessions)
                  == valuesMean (metricValues metric sessions))%Q).
    { unfold meanValue, valuesMean.
      rewrite (sumOf_valuesSum (fun x => x)), List.map_id; reflexivity. }
    assert (Hlen : length (metricValues metric sessions) = length sessions)
      by (unfold metricValues; apply length_map).
    rewrite slice_window_empty, slice_last_five_all by lia.
    assert (Hne : metricValues metric sessions <> [])
      by (intros Hnil; rewrite Hnil in Hlen; simpl in Hlen; lia).
    unfold EnhancedProgressService.lengthOf.
    rewrite (divide_by_length _ _ Hne); fold (meanValue (metricValues metric sessions)).
    change (orZero (divide (EnhancedProgressService.sumOf (fun x => x) [])
                           (inject_Z (Z.of_nat (length (@nil Q))))))
      with (Fin 0).
    unfold orZero.
    destruct (Qzero (meanValue (metricValues metric sessions))) eqn:Hz;
      unfold subtract, Math_round; do 2 f_equal;
      unfold roundQ; apply Qfloor_comp.
    + apply Qeq_bool_eq in Hz; rewrite <- Hm, Hz; reflexivity.
    + rewrite <- Hm; field.
Qed.

Lemma skill_breakdown_of_short_log_witness :
  In (lit "confidenceScore", Detailed.confidenceScore)
     EnhancedProgressService.skills
  /\ (1 <= length improvingLog <= 5)%nat
  /\ Forall wholeScore (metricValues Detailed.confidenceScore improvingLog)
  /\ exists entry,
      In (lit "confidenceScore", entry)
         (EnhancedProgressService.calculateSkillBreakdown improvingLog)
      /\ EnhancedProgressService.trend entry = Fin 70.
Proof.
  assert (Hin : In (lit "confidenceScore", Detailed.confidenceScore)
                   EnhancedProgressService.skills) by (left; reflexivity).
  assert (Hn : (1 <= length improvingLog <= 5)%nat) by (simpl; lia).
  assert (Hw : Forall wholeScore
                      (metricValues Detailed.confidenceScore improvingLog))
    by (repeat constructor; exists 70%Z; split; try reflexivity; lia).
  split; [exact Hin|]; split; [exact Hn|]; split; [exact Hw|].
  destruct (proj2 (skill_breakdown_of_short_log improvingLog) _ _ Hin)
    as (entry & He & _ & _ & Ht).
  exists entry; split; [exact He|].
  rewrite (Ht Hn Hw); reflexivity.
Defined.

Lemma breakdown_whole (sessions : list Detailed.DetailedSession) :
  Forall wholeCurrent
         (EnhancedProgressService.calculateSkillBreakdown sessions).
Proof.
  unfold EnhancedProgressService.calculateSkillBreakdown,
    EnhancedProgressService.skills.
  repeat constructor; eexists; reflexivity.
Qed.

Lemma lowerCurrent_trans
      (a b c : jsstring * EnhancedProgressService.SkillEntry) :
  lowerCurrent a b -> lowerCurrent b c -> lowerCurrent a c.
Proof.
  intros (za & zb & Ha & Hb & Hab) (zb' & zc & Hb' & Hc & Hbc).
  rewrite Hb in Hb'; injection Hb' as Hb'.
  exists za, zc; repeat split; try assumption; lia.
Qed.

Lemma inject_Z_sign (x y : Z) :
  (inject_Z x - inject_Z y ?= 0)%Q = (x ?= y)%Z.
Proof.
  unfold Qcompare, Qminus, Qplus, Qopp, inject_Z; simpl.
  rewrite !Z.mul_1_r.
  destruct (Z.compare_spec x y) as [H|H|H].
  - apply Z.compare_eq_iff; lia.
  - apply Z.compare_lt_iff; lia.
  - apply Z.compare_gt_iff; lia.
Qed.

(** X21. The recommended focus is always two different labels out of
    the six skill labels, and they are those of the two skills that come
    first when the six are ranked by their current value, lowest
    first. *)
Theorem recommended_focus_lowest_two
        (sessions : list Detailed.DetailedSession) :
  let breakdown := EnhancedProgressService.calculateSkillBreakdown sessions in
  let focus := EnhancedProgressService.getRecommendedFocus breakdown in
  length focus = 2%nat
  /\ List.NoDup focus
  /\ incl focus skillLabels
  /\ exists ranked,
      Permutation ranked breakdown
      /\ StronglySorted lowerCurrent ranked
      /\ focus
         = List.map (fun entry =>
                       EnhancedProgressService.formatSkillName (fst entry))
                    (firstn 2 ranked).
Proof.
  intros breakdown focus.
  set (cmp := fun a b : jsstring * EnhancedProgressService.SkillEntry =>
                EnhancedProgressService.signOf
                  (subtract (EnhancedProgressService.current (snd a))
                            (EnhancedProgressService.current (snd b)))).
  set (ranked := sort cmp breakdown).
  assert (Hperm : Permutation ranked breakdown) by apply sort_perm.
  assert (Hfocus : focus
                   = List.map (fun entry =>
                                 EnhancedProgressService.formatSkillName
                                   (fst entry))
                              (firstn 2 ranked)).
  { unfold focus, EnhancedProgressService.getRecommendedFocus.
    fold cmp; fold ranked.
    rewrite slice_prefix by lia; reflexivity. }
  set (labels := List.map (fun entry =>
                             EnhancedProgressService.formatSkillName
                               (fst entry))
                          ranked).
  assert (Hlabels : Permutation labels skillLabels).
  { unfold labels; rewrite Hperm; unfold breakdown.
    vm_compute; reflexivity. }
  assert (Hfirst : focus = firstn 2 labels)
    by (rewrite Hfocus; unfold labels; now rewrite firstn_map).
  assert (Hnodup : List.NoDup labels).
  { eapply Permutation_NoDup; [symmetry; exact Hlabels|].
    unfold skillLabels.
    repeat (constructor; [vm_compute; intuition discriminate|]).
    constructor. }
  split; [|split; [|split]].
  - rewrite Hfirst, length_firstn, (Permutation_length Hlabels); reflexivity.
  - rewrite Hfirst; rewrite <- (firstn_skipn 2 labels) in Hnodup.
    exact (NoDup_app_remove_r _ _ Hnodup).
  - intros x Hx; apply (Permutation_in _ Hlabels).
    rewrite Hfirst in Hx.
    rewrite <- (firstn_skipn 2 labels); apply in_or_app; now left.
  - exists ranked; split; [exact Hperm|]; split; [|exact Hfocus].
    apply (sort_sorted_on cmp wholeCurrent lowerCurrent).
    + exact lowerCurrent_trans.
    + intros x y [zx Hx] [zy Hy] Hc; exists zx, zy.
      split; [exact Hx|]; split; [exact Hy|].
      unfold cmp in Hc; rewrite Hx, Hy in Hc; simpl in Hc.
      rewrite inject_Z_sign in Hc.
      destruct (Z.compare_spec zx zy); try lia; congruence.
    + intros x y [zx Hx] [zy Hy] Hc; exists zy, zx.
      split; [exact Hy|]; split; [exact Hx|].
      unfold cmp in Hc; rewrite Hx, Hy in Hc; simpl in Hc.
      rewrite inject_Z_sign in Hc.
      apply Z.compare_gt_iff in Hc; lia.
    + apply breakdown_whole.
Qed.

End Skills.

Section Feedback.
Import JS AnalysisEngine OpenAIClient Vocabulary.

Lemma Qltb_lt (x y : Q) : Qltb x y = true <-> (x < y)%Q.
Proof.
  unfold Qltb; rewrite negb_true_iff; split.
  - intros Hb; apply Qnot_le_lt; intros Hle.
    apply Qle_bool_iff in Hle; congruence.
  - intros Hlt; destruct (Qle_bool y x) eqn:Hb; [|reflexivity].
    apply Qle_bool_iff in Hb; lra.
Qed.

Lemma In_strengths (x : jsstring) (t : jsstring) (d : Q)
      (qt : option jsstring) :
  In x (strengths (feedback (createBasicAnalysis t d qt))) ->
  x = lit "Minimal use of filler words" ->
  fillersBelow (5 # 100) t = true.
Proof.
  intros Hin ->; cbn [createBasicAnalysis feedback strengths] in Hin.
  destruct (fillersBelow (5 # 100) t); [reflexivity|exfalso].
  destruct (100 <? wordCount t)%Z, (hasExamples t),
    (Qltb 8 (avgWordsPerSentence t));
    vm_compute in Hin; intuition discriminate.
Qed.

Lemma In_improvements (x : jsstring) (t : jsstring) (d : Q)
      (qt : option jsstring) :
  In x (improvements (feedback (createBasicAnalysis t d qt))) ->
  x = lit "Reduce filler words for more polished delivery" ->
  fillersAbove (8 # 100) t = true.
Proof.
  intros Hin ->; cbn [createBasicAnalysis feedback improvements] in Hin.
  destruct (fillersAbove (8 # 100) t); [reflexivity|exfalso].
  destruct (negb (hasExamples t)), (negb (hasNumbers t)),
    (wordCount t <? 50)%Z;
    vm_compute in Hin; intuition discriminate.
Qed.

(** X22. The feedback of the rule-based analysis does not contradict
    itself about fillers: it never praises the 'Minimal use of filler
    words' among the strengths while asking to 'Reduce filler words'
    among the improvements.  (Below 5% of the words and above 8% of them
    cannot both hold.) *)
Theorem filler_feedback_consistent
        (t : jsstring) (d : Q) (qt : option jsstring) :
  let f := feedback (createBasicAnalysis t d qt) in
  ~ (In (lit "Minimal use of filler words") (strengths f)
     /\ In (lit "Reduce filler words for more polished delivery")
           (improvements f)).
Proof.
  cbv zeta; intros [Hs Hi].
  apply In_strengths in Hs; [|reflexivity].
  apply In_improvements in Hi; [|reflexivity].
  unfold fillersBelow, fillersAbove in *.
  apply Qltb_lt in Hs, Hi.
  assert (Hn : (0 <= inject_Z (wordCount t))%Q).
  { change 0%Q with (inject_Z 0); rewrite <- Zle_Qle.
    unfold wordCount; lia. }
  set (n := inject_Z (wordCount t)) in *.
  set (k := inject_Z (fillerWordCount t)) in *.
  clearbody n k; lra.
Qed.

(** X23. The remark on fillers that goes into the prompt of the remote
    request: with no filler at all it is 'Low usage', whatever the count
    of words, zero included; for a positive count of words it is 'High
    usage' exactly when the fillers are more than a tenth of the words
    and 'Low usage' exactly when they are at most a twentieth. *)
Theorem filler_remark_classes (fillers total : Q) :
  getFillerWordFeedback 0 total = lit "(Low usage - excellent!)"
  /\ ((0 < total)%Q ->
      (getFillerWordFeedback fillers total
       = lit "(High usage - focus on reducing filler words)"
       <-> (total < 10 * fillers)%Q)
      /\ (getFillerWordFeedback fillers total
          = lit "(Low usage - excellent!)"
          <-> (20 * fillers <= total)%Q)).
Proof.
  split.
  - unfold getFillerWordFeedback, divide.
    change (Qzero 0) with true.
    destruct (Qzero total) eqn:Hz; [reflexivity|].
    unfold above.
    assert (H1 : Qltb (1 # 10) (0 / total) = false).
    { destruct (Qltb (1 # 10) (0 / total)) eqn:Hb; [|reflexivity].
      apply Qltb_lt in Hb.
      assert (H0 : (0 / total == 0)%Q) by (unfold Qdiv; ring).
      rewrite H0 in Hb; discriminate Hb. }
    assert (H2 : Qltb (5 # 100) (0 / total) = false).
    { destruct (Qltb (5 # 100) (0 / total)) eqn:Hb; [|reflexivity].
      apply Qltb_lt in Hb.
      assert (H0 : (0 / total == 0)%Q) by (unfold Qdiv; ring).
      rewrite H0 in Hb; discriminate Hb. }
    now rewrite H1, H2.
  - intros Ht; unfold getFillerWordFeedback, divide.
    assert (Hz : Qzero total = false).
    { destruct (Qzero total) eqn:Hb; [|reflexivity].
      apply Qeq_bool_eq in Hb; lra. }
    rewrite Hz; unfold above.
    assert (Hhigh : Qltb (1 # 10) (fillers / total) = true
                    <-> (total < 10 * fillers)%Q).
    { rewrite Qltb_lt; split.
      - intros H.
        apply (Qmult_lt_compat_r _ _ total Ht) in H.
        assert (Hf : (fillers / total * total == fillers)%Q)
          by (field; lra).
        rewrite Hf in H; lra.
      - intros H; apply Qlt_shift_div_l; [exact Ht | lra]. }
    assert (Hmod : Qltb (5 # 100) (fillers / total) = true
                   <-> (total < 20 * fillers)%Q).
    { rewrite Qltb_lt; split.
      - intros H.
        apply (Qmult_lt_compat_r _ _ total Ht) in H.
        assert (Hf : (fillers / total * total == fillers)%Q)
          by (field; lra).
        rewrite Hf in H; lra.
      - intros H; apply Qlt_shift_div_l; [exact Ht | lra]. }
    destruct (Qltb (1 # 10) (fillers / total)) eqn:H1;
      destruct (Qltb (5 # 100) (fillers / total)) eqn:H2; split; split;
      intros H;
      try reflexivity;
      try (vm_compute in H; discriminate);
      try (apply Hhigh; reflexivity);
      try (exfalso; apply Hhigh in H; discriminate);
      try (exfalso; assert (Hm : (total < 20 * fillers)%Q)
             by (apply Hmod; reflexivity); lra);
      try (destruct (Qlt_le_dec total (20 * fillers)) as [Hlt|Hle];
           [apply Hmod in Hlt; discriminate | exact Hle]).
    all: try (assert (Hh : (total < 10 * fillers)%Q)
                by (apply Hhigh; reflexivity); lra).
Qed.

Lemma filler_remark_classes_witness :
  (0 < 40)%Q
  /\ getFillerWordFeedback 5 40
     = lit "(High usage - focus on reducing filler words)".
Proof.
  assert (Ht : (0 < 40)%Q) by reflexivity.
  split; [exact Ht|].
  apply (proj1 (proj2 (filler_remark_classes 5 40) Ht)); reflexivity.
Defined.

End Feedback.
